(** * Feature store: computation, versioning, lookup and cache

    A shallow embedding of the feature store's core:

    - [compute.py]: [compute_feature], [store_feature_values],
      [validate_raw_data_schema];
    - [cache.py]: [FeatureCache] and its key derivation;
    - [main.py]: [compute_feature_version] and [get_feature_vector],
      and the endpoints that register and look up raw tables, features
      and versions.

    The libraries the code calls are modelled as far as the code uses
    them: Python's [str], [sorted] and [join], [json.dumps] and
    [json.loads], [hashlib.md5], pandas' column dtypes, and cachetools'
    [TTLCache].

    Conventions.  A Python [str] is a [string]: one [ascii] per code
    point, so the alphabet of the model is U+0000..U+00FF.  A float is
    carried by its [repr] text and never computed with.  Equality of
    Python values is structural equality of the terms that stand for
    them.  The interpreter that [exec] runs the transformation logic
    with is a parameter of the model, and so is the time: an endpoint
    takes the reading [now] of the clock for the request it serves. *)

From Stdlib Require Import ZArith List String Ascii Bool Lia.
From Stdlib Require Import DecimalString DecimalPos DecimalN DecimalFacts.
From Stdlib Require Import Permutation Sorted.
From stdpp Require Import gmap strings list.
Import ListNotations.

Local Open Scope string_scope.
Local Open Scope Z_scope.

(** ** Python values *)

Module Py.

(** Hashable scalars: what can label a row or key a dict. *)
Inductive Scalar : Type :=
| PyNone
| PyBool (b : bool)
| PyInt (z : Z)
| PyFloat (repr : string)
| PyStr (s : string).

(** A value held in a cell of a table or a series. *)
#[local] Unset Elimination Schemes.
Inductive PyVal : Type :=
| Atom (a : Scalar)
| PyList (items : list PyVal)
| PyDict (items : list (Scalar * PyVal)).
#[local] Set Elimination Schemes.

Coercion Atom : Scalar >-> PyVal.

Definition scalar_eqb (a b : Scalar) : bool :=
  match a, b with
  | PyNone, PyNone => true
  | PyBool x, PyBool y => Bool.eqb x y
  | PyInt x, PyInt y => Z.eqb x y
  | PyFloat x, PyFloat y => String.eqb x y
  | PyStr x, PyStr y => String.eqb x y
  | _, _ => false
  end.

(** [int.__repr__]: decimal digits, a leading [-] for negatives. *)
Definition str_of_Z (z : Z) : string :=
  match z with
  | Z0 => "0"
  | Zpos p => NilEmpty.string_of_uint (Pos.to_uint p)
  | Zneg p => String "-" (NilEmpty.string_of_uint (Pos.to_uint p))
  end.

(** [str(value)] on a scalar. *)
Definition str (a : Scalar) : string :=
  match a with
  | PyNone => "None"
  | PyBool true => "True"
  | PyBool false => "False"
  | PyInt z => str_of_Z z
  | PyFloat r => r
  | PyStr s => s
  end.

Definition hex_digit (n : N) : ascii :=
  match n with
  | 0%N => "0" | 1%N => "1" | 2%N => "2" | 3%N => "3" | 4%N => "4"
  | 5%N => "5" | 6%N => "6" | 7%N => "7" | 8%N => "8" | 9%N => "9"
  | 10%N => "a" | 11%N => "b" | 12%N => "c" | 13%N => "d" | 14%N => "e"
  | _ => "f"
  end%char.

Definition squote : ascii := Eval cbv in ascii_of_nat 39.
Definition dquote : ascii := Eval cbv in ascii_of_nat 34.
Definition backslash : ascii := Eval cbv in ascii_of_nat 92.

Fixpoint contains_char (c : ascii) (s : string) : bool :=
  match s with
  | EmptyString => false
  | String c' s' => Ascii.eqb c c' || contains_char c s'
  end.

(** [str.isprintable] on one character of the alphabet. *)
Definition isprintable (c : ascii) : bool :=
  let n := N_of_ascii c in
  (((32 <=? n) && (n <=? 126)) || ((161 <=? n) && negb (n =? 173)))%N.

Definition repr_char (quote c : ascii) : string :=
  let n := N_of_ascii c in
  if Ascii.eqb c quote || Ascii.eqb c backslash then String backslash (String c "")
  else if (n =? 9)%N then String backslash "t"
  else if (n =? 10)%N then String backslash "n"
  else if (n =? 13)%N then String backslash "r"
  else if isprintable c then String c ""
  else String backslash
         (String "x" (String (hex_digit (n / 16)) (String (hex_digit (n mod 16)) ""))).

Fixpoint repr_chars (quote : ascii) (s : string) : string :=
  match s with
  | EmptyString => ""
  | String c s' => repr_char quote c ++ repr_chars quote s'
  end.

(** [repr] of a [str]: single quotes, unless the text has a single
    quote and no double quote. *)
Definition repr_str (s : string) : string :=
  let quote :=
    if contains_char squote s && negb (contains_char dquote s)
    then dquote else squote in
  String quote (repr_chars quote s ++ String quote "").

Definition repr_scalar (a : Scalar) : string :=
  match a with
  | PyStr s => repr_str s
  | other => str other
  end.

(** [sep.join(parts)]. *)
Fixpoint join (sep : string) (parts : list string) : string :=
  match parts with
  | [] => ""
  | [p] => p
  | p :: rest => p ++ sep ++ join sep rest
  end.

(** [repr] of a value, and [str], which differs from it on a [str]
    alone. *)
Fixpoint repr (v : PyVal) : string :=
  match v with
  | Atom a => repr_scalar a
  | PyList items => "[" ++ join ", " (List.map repr items) ++ "]"
  | PyDict items =>
      "{" ++ join ", "
               (List.map (fun kv => repr_scalar (fst kv) ++ ": " ++ repr (snd kv))
                         items)
          ++ "}"
  end.

Definition str_of (v : PyVal) : string :=
  match v with
  | Atom a => str a
  | other => repr other
  end.

(** [isinstance(value, (dict, list))]. *)
Definition is_dict_or_list (v : PyVal) : bool :=
  match v with
  | Atom _ => false
  | PyList _ | PyDict _ => true
  end.

(** [sorted(names)] on a list of [str]: ascending by code point.  Equal
    strings are indistinguishable, so the result does not depend on the
    sorting algorithm; insertion sort stands for it. *)
Fixpoint insert_sorted (x : string) (l : list string) : list string :=
  match l with
  | [] => [x]
  | y :: l' => if String.leb x y then x :: l else y :: insert_sorted x l'
  end.

Fixpoint sorted (l : list string) : list string :=
  match l with
  | [] => []
  | x :: l' => insert_sorted x (sorted l')
  end.

(** [dict(pairs)] and [d[k] = v] on an insertion-ordered dict: a key
    already present keeps its place and takes the new value. *)
Fixpoint dict_set {K V} (eqb : K -> K -> bool) (k : K) (v : V)
    (d : list (K * V)) : list (K * V) :=
  match d with
  | [] => [(k, v)]
  | (k', v') :: d' =>
      if eqb k' k then (k', v) :: d' else (k', v') :: dict_set eqb k v d'
  end.

Fixpoint dict_get {K V} (eqb : K -> K -> bool) (k : K)
    (d : list (K * V)) : option V :=
  match d with
  | [] => None
  | (k', v') :: d' => if eqb k' k then Some v' else dict_get eqb k d'
  end.

Definition dict_of_pairs {K V} (eqb : K -> K -> bool)
    (pairs : list (K * V)) : list (K * V) :=
  fold_left (fun d kv => dict_set eqb (fst kv) (snd kv) d) pairs [].

End Py.
Import Py.

(** ** The [json] module: [dumps] and [loads] with their defaults *)

Module Json.

Definition code (c : ascii) : N := N_of_ascii c.

(** *** Encoding ([ensure_ascii=True], separators [", "] and [": "]) *)

(** [ESCAPE_DCT] and the [\uXXXX] fallback of [encode_basestring_ascii]:
    the characters from space to [~] stand for themselves, the quote
    and the backslash apart. *)
Definition escape_char (c : ascii) : string :=
  let n := code c in
  if (n =? 34)%N then String backslash (String dquote "")
  else if (n =? 92)%N then String backslash (String backslash "")
  else if (n =? 10)%N then String backslash "n"
  else if (n =? 13)%N then String backslash "r"
  else if (n =? 9)%N then String backslash "t"
  else if (n =? 8)%N then String backslash "b"
  else if (n =? 12)%N then String backslash "f"
  else if ((32 <=? n) && (n <=? 126))%N then String c ""
  else String backslash
         (String "u" (String "0" (String "0"
           (String (hex_digit (n / 16)) (String (hex_digit (n mod 16)) ""))))).

Fixpoint escape (s : string) : string :=
  match s with
  | EmptyString => ""
  | String c s' => escape_char c ++ escape s'
  end.

Definition encode_str (s : string) : string :=
  String dquote (escape s ++ String dquote "").

(** [float.__repr__] as the encoder prints it. *)
Definition encode_float (r : string) : string :=
  if String.eqb r "nan" then "NaN"
  else if String.eqb r "inf" then "Infinity"
  else if String.eqb r "-inf" then "-Infinity"
  else r.

Definition encode_scalar (a : Scalar) : string :=
  match a with
  | PyNone => "null"
  | PyBool true => "true"
  | PyBool false => "false"
  | PyInt z => str_of_Z z
  | PyFloat r => encode_float r
  | PyStr s => encode_str s
  end.

(** A dict key is written as a JSON string: a [str] as it is, any other
    scalar through its JSON text. *)
Definition encode_key (k : Scalar) : string :=
  match k with
  | PyStr s => encode_str s
  | other => encode_str (encode_scalar other)
  end.

Fixpoint dumps (v : PyVal) : string :=
  match v with
  | Atom a => encode_scalar a
  | PyList items => "[" ++ join ", " (List.map dumps items) ++ "]"
  | PyDict items =>
      "{" ++ join ", "
               (List.map (fun kv => encode_key (fst kv) ++ ": " ++ dumps (snd kv))
                         items)
          ++ "}"
  end.

(** *** Decoding *)

(** What a scanner returns: the value read and the text left, or
    failure ([JSONDecodeError]).  A value is [None] when the text read
    is well-formed but writes something this model has no term for: a
    float literal, or a string with a character above U+00FF. *)
Inductive scan (A : Type) : Type :=
| Got (a : A) (rest : string)
| Bad.
Arguments Got {A} a rest.
Arguments Bad {A}.

Definition is_ws (c : ascii) : bool :=
  let n := code c in
  ((n =? 32) || (n =? 9) || (n =? 10) || (n =? 13))%N.

Fixpoint skip_ws (s : string) : string :=
  match s with
  | String c s' => if is_ws c then skip_ws s' else s
  | EmptyString => s
  end.

Definition hex_value (c : ascii) : option N :=
  let n := code c in
  if ((48 <=? n) && (n <=? 57))%N then Some (n - 48)%N
  else if ((97 <=? n) && (n <=? 102))%N then Some (n - 87)%N
  else if ((65 <=? n) && (n <=? 70))%N then Some (n - 55)%N
  else None.

(** The [BACKSLASH] table of the decoder. *)
Definition unescape (c : ascii) : option ascii :=
  let n := code c in
  if (n =? 34)%N then Some dquote
  else if (n =? 92)%N then Some backslash
  else if (n =? 47)%N then Some "/"%char
  else if (n =? 98)%N then Some (ascii_of_N 8)
  else if (n =? 102)%N then Some (ascii_of_N 12)
  else if (n =? 110)%N then Some (ascii_of_N 10)
  else if (n =? 114)%N then Some (ascii_of_N 13)
  else if (n =? 116)%N then Some (ascii_of_N 9)
  else None.

Inductive sstate : Type :=
| Plain
| Esc
| Hex (more : nat) (v : N).

Definition push (c : ascii) (r : scan (option string)) : scan (option string) :=
  match r with
  | Got (Some s) rest => Got (Some (String c s)) rest
  | other => other
  end.

Definition wide (r : scan (option string)) : scan (option string) :=
  match r with
  | Got _ rest => Got None rest
  | Bad => Bad
  end.

(** [scanstring] in strict mode, from just after the opening quote. *)
Fixpoint scanstring (st : sstate) (s : string) : scan (option string) :=
  match s with
  | EmptyString => Bad
  | String c s' =>
      match st with
      | Plain =>
          if Ascii.eqb c dquote then Got (Some "") s'
          else if Ascii.eqb c backslash then scanstring Esc s'
          else if (code c <? 32)%N then Bad
          else push c (scanstring Plain s')
      | Esc =>
          if Ascii.eqb c "u" then scanstring (Hex 3 0) s'
          else match unescape c with
               | Some c' => push c' (scanstring Plain s')
               | None => Bad
               end
      | Hex more v =>
          match hex_value c with
          | None => Bad
          | Some d =>
              let v' := (16 * v + d)%N in
              match more with
              | O => if (v' <? 256)%N
                     then push (ascii_of_N v') (scanstring Plain s')
                     else wide (scanstring Plain s')
              | S more' => scanstring (Hex more' v') s'
              end
          end
      end
  end.

Definition digit_value (c : ascii) : option N :=
  let n := code c in
  if ((48 <=? n) && (n <=? 57))%N then Some (n - 48)%N else None.

(** The longest run of digits at the head of [s], as a number, with the
    count of digits read. *)
Fixpoint scan_digits (acc : N) (count : nat) (s : string) : N * nat * string :=
  match s with
  | String c s' =>
      match digit_value c with
      | Some d => scan_digits (10 * acc + d) (S count) s'
      | None => (acc, count, s)
      end
  | EmptyString => (acc, count, s)
  end.

(** [NUMBER_RE].  The integer part: an optional minus sign, then a
    lone zero or a digit from 1 to 9 followed by any digits. *)
Definition scan_int (s : string) : option (Z * string) :=
  let '(neg, s1) :=
    match s with
    | String c s' => if Ascii.eqb c "-" then (true, s') else (false, s)
    | EmptyString => (false, s)
    end in
  match s1 with
  | String c s2 =>
      match digit_value c with
      | Some 0%N => Some (0, s2)
      | Some _ =>
          let '(n, _, rest) := scan_digits 0 0 s1 in
          Some (if neg then - Z.of_N n else Z.of_N n, rest)
      | None => None
      end
  | EmptyString => None
  end.

(** The fraction: a dot and at least one digit. *)
Definition scan_frac (s : string) : option string :=
  match s with
  | String c s' =>
      if Ascii.eqb c "." then
        let '(_, count, rest) := scan_digits 0 0 s' in
        match count with O => None | S _ => Some rest end
      else None
  | EmptyString => None
  end.

(** The exponent: [e] or [E], an optional sign, at least one digit. *)
Definition scan_exp (s : string) : option string :=
  match s with
  | String c s' =>
      if Ascii.eqb c "e" || Ascii.eqb c "E" then
        let s'' :=
          match s' with
          | String g t => if Ascii.eqb g "-" || Ascii.eqb g "+" then t else s'
          | EmptyString => s'
          end in
        let '(_, count, rest) := scan_digits 0 0 s'' in
        match count with O => None | S _ => Some rest end
      else None
  | EmptyString => None
  end.

(** A number with a fraction or an exponent is a float literal. *)
Definition scan_number (s : string) : scan (option Scalar) :=
  match scan_int s with
  | None => Bad
  | Some (z, r0) =>
      let '(frac, r1) :=
        match scan_frac r0 with Some r => (true, r) | None => (false, r0) end in
      let '(exp, r2) :=
        match scan_exp r1 with Some r => (true, r) | None => (false, r1) end in
      if frac || exp then Got None r2 else Got (Some (PyInt z)) r2
  end.

(** [s] starts with [word]: the text after it. *)
Fixpoint strip_prefix (word s : string) : option string :=
  match word, s with
  | EmptyString, _ => Some s
  | String a w', String b s' => if Ascii.eqb a b then strip_prefix w' s' else None
  | String _ _, EmptyString => None
  end.

(** The scalars of [scan_once], the string apart: the three names, a
    number, and the float names the decoder accepts. *)
Definition scan_literal (s : string) : scan (option Scalar) :=
  match strip_prefix "null" s with
  | Some r => Got (Some PyNone) r
  | None =>
  match strip_prefix "true" s with
  | Some r => Got (Some (PyBool true)) r
  | None =>
  match strip_prefix "false" s with
  | Some r => Got (Some (PyBool false)) r
  | None =>
  match scan_number s with
  | Got a r => Got a r
  | Bad =>
  match strip_prefix "NaN" s with
  | Some r => Got None r
  | None =>
  match strip_prefix "Infinity" s with
  | Some r => Got None r
  | None =>
  match strip_prefix "-Infinity" s with
  | Some r => Got None r
  | None => Bad
  end end end end end end end.

Definition opt_cons {A} (x : option A) (xs : option (list A)) : option (list A) :=
  match x, xs with
  | Some a, Some l => Some (a :: l)
  | _, _ => None
  end.

Definition opt_pair {A B} (x : option A) (y : option B) : option (A * B) :=
  match x, y with
  | Some a, Some b => Some (a, b)
  | _, _ => None
  end.

(** [scan_once], [JSONArray] and [JSONObject].  Every call spends one
    unit of [fuel]; [loads] starts with one unit more than the text has
    characters. *)
Fixpoint scan_once (fuel : nat) (s : string) : scan (option PyVal) :=
  match fuel with
  | O => Bad
  | S fuel' =>
      match s with
      | EmptyString => Bad
      | String c s' =>
          if Ascii.eqb c dquote then
            match scanstring Plain s' with
            | Got str rest => Got (option_map (fun x => Atom (PyStr x)) str) rest
            | Bad => Bad
            end
          else if Ascii.eqb c "[" then
            match skip_ws s' with
            | String c1 s1 =>
                if Ascii.eqb c1 "]" then Got (Some (PyList [])) s1
                else match array_items fuel' (String c1 s1) with
                     | Got items rest => Got (option_map PyList items) rest
                     | Bad => Bad
                     end
            | EmptyString => Bad
            end
          else if Ascii.eqb c "{" then
            match skip_ws s' with
            | String c1 s1 =>
                if Ascii.eqb c1 "}" then Got (Some (PyDict [])) s1
                else match object_items fuel' (String c1 s1) with
                     | Got pairs rest =>
                         Got (option_map
                                (fun p => PyDict (dict_of_pairs scalar_eqb p)) pairs)
                             rest
                     | Bad => Bad
                     end
            | EmptyString => Bad
            end
          else
            match scan_literal s with
            | Got a rest => Got (option_map Atom a) rest
            | Bad => Bad
            end
      end
  end

(** From the start of an element to the closing bracket. *)
with array_items (fuel : nat) (s : string) : scan (option (list PyVal)) :=
  match fuel with
  | O => Bad
  | S fuel' =>
      match scan_once fuel' s with
      | Bad => Bad
      | Got v r =>
          match skip_ws r with
          | String c r' =>
              if Ascii.eqb c "," then
                match array_items fuel' (skip_ws r') with
                | Got vs rest => Got (opt_cons v vs) rest
                | Bad => Bad
                end
              else if Ascii.eqb c "]" then Got (opt_cons v (Some [])) r'
              else Bad
          | EmptyString => Bad
          end
      end
  end

(** From the opening quote of a key to the closing brace. *)
with object_items (fuel : nat) (s : string)
    : scan (option (list (Scalar * PyVal))) :=
  match fuel with
  | O => Bad
  | S fuel' =>
      match s with
      | String c s' =>
          if Ascii.eqb c dquote then
            match scanstring Plain s' with
            | Bad => Bad
            | Got key r0 =>
                match skip_ws r0 with
                | String c1 r1 =>
                    if Ascii.eqb c1 ":" then
                      match scan_once fuel' (skip_ws r1) with
                      | Bad => Bad
                      | Got v r2 =>
                          let kv := opt_pair (option_map PyStr key) v in
                          match skip_ws r2 with
                          | String c2 r3 =>
                              if Ascii.eqb c2 "," then
                                match object_items fuel' (skip_ws r3) with
                                | Got kvs rest => Got (opt_cons kv kvs) rest
                                | Bad => Bad
                                end
                              else if Ascii.eqb c2 "}" then
                                Got (opt_cons kv (Some [])) r3
                              else Bad
                          | EmptyString => Bad
                          end
                      end
                    else Bad
                | EmptyString => Bad
                end
            end
          else Bad
      | EmptyString => Bad
      end
  end.

(** [Unmodelled]: the text is valid JSON and writes something this
    model has no term for, a float or a character above U+00FF. *)
Inductive loads_result : Type :=
| Loaded (v : PyVal)
| Unmodelled
| JSONDecodeError.

(** A decoded value as a reader holds it: a term of the model, or,
    for a valid text the model cannot read, whatever [json.loads] makes
    of that text. *)
Inductive Decoded : Type :=
| Value (v : PyVal)
| ValueOf (json_text : string).

(** [json.loads(text)]: one value, white space around it, nothing else. *)
Definition loads_with (fuel : nat) (text : string) : loads_result :=
  match scan_once fuel (skip_ws text) with
  | Bad => JSONDecodeError
  | Got v rest =>
      match skip_ws rest with
      | EmptyString =>
          match v with Some x => Loaded x | None => Unmodelled end
      | String _ _ => JSONDecodeError
      end
  end.

Definition loads (text : string) : loads_result :=
  loads_with (S (String.length text)) text.

End Json.

(** ** [hashlib.md5] over the UTF-8 encoding of a [str] *)

Module Hashlib.

(** [s.encode()]: UTF-8.  A code point below U+0080 is one byte, the
    others of the alphabet two. *)
Fixpoint encode (s : string) : list Z :=
  match s with
  | EmptyString => []
  | String c s' =>
      let n := Z.of_N (N_of_ascii c) in
      if n <? 128 then n :: encode s'
      else Z.lor 192 (Z.shiftr n 6) :: Z.lor 128 (Z.land n 63) :: encode s'
  end.

Definition mask32 : Z := 4294967295.
Definition add32 (a b : Z) : Z := Z.land (a + b) mask32.
Definition not32 (a : Z) : Z := Z.lxor a mask32.
Definition rotl32 (x c : Z) : Z :=
  Z.land (Z.lor (Z.shiftl x c) (Z.shiftr x (32 - c))) mask32.

Definition shifts : list Z :=
  [7; 12; 17; 22; 7; 12; 17; 22; 7; 12; 17; 22; 7; 12; 17; 22;
   5; 9; 14; 20; 5; 9; 14; 20; 5; 9; 14; 20; 5; 9; 14; 20;
   4; 11; 16; 23; 4; 11; 16; 23; 4; 11; 16; 23; 4; 11; 16; 23;
   6; 10; 15; 21; 6; 10; 15; 21; 6; 10; 15; 21; 6; 10; 15; 21].

(** [floor(2^32 * abs(sin(i + 1)))] for [i] from 0 to 63. *)
Definition sines : list Z :=
  [0xd76aa478; 0xe8c7b756; 0x242070db; 0xc1bdceee;
   0xf57c0faf; 0x4787c62a; 0xa8304613; 0xfd469501;
   0x698098d8; 0x8b44f7af; 0xffff5bb1; 0x895cd7be;
   0x6b901122; 0xfd987193; 0xa679438e; 0x49b40821;
   0xf61e2562; 0xc040b340; 0x265e5a51; 0xe9b6c7aa;
   0xd62f105d; 0x02441453; 0xd8a1e681; 0xe7d3fbc8;
   0x21e1cde6; 0xc33707d6; 0xf4d50d87; 0x455a14ed;
   0xa9e3e905; 0xfcefa3f8; 0x676f02d9; 0x8d2a4c8a;
   0xfffa3942; 0x8771f681; 0x6d9d6122; 0xfde5380c;
   0xa4beea44; 0x4bdecfa9; 0xf6bb4b60; 0xbebfbc70;
   0x289b7ec6; 0xeaa127fa; 0xd4ef3085; 0x04881d05;
   0xd9d4d039; 0xe6db99e5; 0x1fa27cf8; 0xc4ac5665;
   0xf4292244; 0x432aff97; 0xab9423a7; 0xfc93a039;
   0x655b59c3; 0x8f0ccc92; 0xffeff47d; 0x85845dd1;
   0x6fa87e4f; 0xfe2ce6e0; 0xa3014314; 0x4e0811a1;
   0xf7537e82; 0xbd3af235; 0x2ad7d2bb; 0xeb86d391].

Record state : Type := State { sa : Z; sb : Z; sc : Z; sd : Z }.

Definition initial : state :=
  State 0x67452301 0xefcdab89 0x98badcfe 0x10325476.

Definition le_bytes (count : nat) (x : Z) : list Z :=
  List.map (fun i => Z.land (Z.shiftr x (8 * Z.of_nat i)) 255) (seq 0 count).

(** The message, one [0x80] byte, zeros up to 56 modulo 64, and the
    length in bits on eight bytes. *)
Definition pad (msg : list Z) : list Z :=
  let len := Z.of_nat (length msg) in
  msg ++ [128] ++ repeat 0 (Z.to_nat ((55 - len) mod 64))
      ++ le_bytes 8 (Z.land (8 * len) 18446744073709551615).

Fixpoint words (count : nat) (bytes : list Z) : list Z :=
  match count, bytes with
  | S count', b0 :: b1 :: b2 :: b3 :: rest =>
      (b0 + Z.shiftl b1 8 + Z.shiftl b2 16 + Z.shiftl b3 24)
        :: words count' rest
  | _, _ => []
  end.

Definition step (m : list Z) (i : nat) (s : state) : state :=
  let '(State a b c d) := s in
  let zi := Z.of_nat i in
  let '(f, g) :=
    if zi <? 16 then (Z.lor (Z.land b c) (Z.land (not32 b) d), zi)
    else if zi <? 32 then
      (Z.lor (Z.land d b) (Z.land (not32 d) c), (5 * zi + 1) mod 16)
    else if zi <? 48 then (Z.lxor b (Z.lxor c d), (3 * zi + 5) mod 16)
    else (Z.lxor c (Z.lor b (not32 d)), (7 * zi) mod 16) in
  let f' := add32 (add32 (add32 f a) (nth i sines 0)) (nth (Z.to_nat g) m 0) in
  State d (add32 b (rotl32 f' (nth i shifts 0))) b c.

Definition compress (s : state) (block : list Z) : state :=
  let m := words 16 block in
  let '(State a b c d) := fold_left (fun acc i => step m i acc) (seq 0 64) s in
  State (add32 (sa s) a) (add32 (sb s) b) (add32 (sc s) c) (add32 (sd s) d).

Fixpoint blocks (count : nat) (bytes : list Z) (s : state) : state :=
  match count with
  | O => s
  | S count' => blocks count' (skipn 64 bytes) (compress s (firstn 64 bytes))
  end.

Definition hex_byte (b : Z) : string :=
  String (hex_digit (Z.to_N (b / 16)))
    (String (hex_digit (Z.to_N (b mod 16))) "").

(** [hashlib.md5(data).hexdigest()]. *)
Definition md5_hexdigest (data : list Z) : string :=
  let padded := pad data in
  let '(State a b c d) := blocks (length padded / 64) padded initial in
  String.concat ""
    (List.map hex_byte (le_bytes 4 a ++ le_bytes 4 b ++ le_bytes 4 c ++ le_bytes 4 d)).

End Hashlib.

(** ** pandas: tables, series and column dtypes *)

Module Pandas.

Inductive Dtype : Type := bool_ | int64 | uint64 | float64 | object_.

(** [str(dtype)]. *)
Definition dtype_name (d : Dtype) : string :=
  match d with
  | bool_ => "bool"
  | int64 => "int64"
  | uint64 => "uint64"
  | float64 => "float64"
  | object_ => "object"
  end.

Record Column : Type := mkColumn {
  col_name : string;
  col_dtype : Dtype;
  col_values : list PyVal
}.

Record DataFrame : Type := mkDataFrame {
  df_index : list PyVal;
  df_columns : list Column
}.

(** A series: its labels with their values, in order. *)
Definition Series : Type := list (PyVal * PyVal).

Definition columns (df : DataFrame) : list string :=
  List.map col_name (df_columns df).

Definition get_column (df : DataFrame) (name : string) : option Column :=
  List.find (fun c => String.eqb (col_name c) name) (df_columns df).

(** *** How a column of cells gets its dtype

    The flags of pandas' [maybe_convert_objects], for cells that are
    JSON values. *)
Record Seen : Type := mkSeen {
  null_ : bool;    (* a [None] *)
  nan_ : bool;     (* a NaN: a missing cell *)
  sbool_ : bool;
  float_ : bool;
  int_ : bool;
  uint_ : bool;    (* an integer above the int64 range *)
  sint_ : bool;    (* a negative integer *)
  sobject_ : bool
}.

Definition nothing_seen : Seen :=
  mkSeen false false false false false false false false.

Definition INT64_MIN : Z := - 2 ^ 63.
Definition INT64_MAX : Z := 2 ^ 63 - 1.
Definition UINT64_MAX : Z := 2 ^ 64 - 1.

Definition is_nan (v : PyVal) : bool :=
  match v with
  | Atom (PyFloat r) => String.eqb r "nan"
  | _ => false
  end.

Definition see (s : Seen) (v : PyVal) : Seen :=
  let '(mkSeen null nan bool_seen float_seen int_seen uint sint object_seen) := s in
  if object_seen then s
  else
    match v with
    | Atom PyNone => mkSeen true nan bool_seen float_seen int_seen uint sint false
    | Atom (PyBool _) => mkSeen null nan true float_seen int_seen uint sint false
    | Atom (PyFloat r) =>
        if String.eqb r "nan"
        then mkSeen null true bool_seen float_seen int_seen uint sint false
        else mkSeen null nan bool_seen true int_seen uint sint false
    | Atom (PyInt z) =>
        if null then mkSeen null nan bool_seen float_seen true uint sint false
        else
          let sint' := sint || ((INT64_MIN <=? z) && (z <? 0)) in
          let uint' := uint || ((INT64_MAX <? z) && (z <=? UINT64_MAX)) in
          mkSeen null nan bool_seen float_seen true uint' sint'
                 ((uint' && sint') || (UINT64_MAX <? z) || (z <? INT64_MIN))
    | _ => mkSeen null nan bool_seen float_seen int_seen uint sint true
    end.

Definition dtype_of_seen (s : Seen) : Dtype :=
  if sobject_ s then object_
  else if sbool_ s then
    if null_ s || nan_ s || float_ s || int_ s then object_ else bool_
  else if null_ s || nan_ s then
    if float_ s || int_ s || nan_ s then float64 else object_
  else if float_ s then float64
  else if int_ s then (if uint_ s then uint64 else int64)
  else object_.

Definition infer_dtype (cells : list PyVal) : Dtype :=
  dtype_of_seen (fold_left see cells nothing_seen).

(** *** [pd.DataFrame(records)] on a list of dicts *)

Definition record : Type := list (string * PyVal).

(** The keys of the records, each once, in the order they first appear. *)
Fixpoint union_keys (seen : list string) (keys : list string) : list string :=
  match keys with
  | [] => seen
  | k :: keys' =>
      if existsb (String.eqb k) seen then union_keys seen keys'
      else union_keys (seen ++ [k]) keys'
  end.

Definition keys_of (records : list record) : list string :=
  union_keys [] (List.concat (List.map (List.map fst) records)).

Definition NaN : PyVal := Atom (PyFloat "nan").

(** The cell of a record under a key; NaN when the record lacks it. *)
Definition cell (key : string) (r : record) : PyVal :=
  match dict_get String.eqb key r with
  | Some v => v
  | None => NaN
  end.

Definition column_of (records : list record) (key : string) : Column :=
  let cells := List.map (cell key) records in
  mkColumn key (infer_dtype cells) cells.

Definition RangeIndex (n : nat) : list PyVal :=
  List.map (fun i => Atom (PyInt (Z.of_nat i))) (seq 0 n).

Definition DataFrame_of_records (records : list record) : DataFrame :=
  mkDataFrame (RangeIndex (length records))
              (List.map (column_of records) (keys_of records)).

(** [df.set_index(name)]: the column leaves the table and labels its
    rows.  [None] when the table has no such column ([KeyError]). *)
Definition set_index (df : DataFrame) (name : string) : option DataFrame :=
  match get_column df name with
  | None => None
  | Some c =>
      Some (mkDataFrame
              (col_values c)
              (List.filter (fun c' => negb (String.eqb (col_name c') name))
                           (df_columns df)))
  end.

(** [df.iloc[:, 0]] on a table with one column. *)
Definition first_column (df : DataFrame) (c : Column) : Series :=
  List.combine (df_index df) (col_values c).

(** *** [pandas.api.types] on a column *)

Definition is_numeric_dtype (c : Column) : bool :=
  match col_dtype c with
  | bool_ | int64 | uint64 | float64 => true
  | object_ => false
  end.

Definition is_object_dtype (c : Column) : bool :=
  match col_dtype c with
  | object_ => true
  | _ => false
  end.

Definition is_str (v : PyVal) : bool :=
  match v with
  | Atom (PyStr _) => true
  | _ => false
  end.

(** An object column counts as a string column when every cell is a
    [str]. *)
Definition is_string_dtype (c : Column) : bool :=
  is_object_dtype c && forallb is_str (col_values c).

End Pandas.

(** ** cachetools: [TTLCache] *)

Module Cachetools.

Section TTLCache.

Context {V : Type}.

Record Link : Type := mkLink {
  link_key : string;
  link_value : V;
  link_expires : Z
}.

(** The entries from the least to the most recently used.  [maxsize]
    is positive; the clock never runs backwards, so that the entries
    that have expired are the oldest ones. *)
Record TTLCache : Type := mkTTLCache {
  maxsize : nat;
  ttl : Z;
  links : list Link
}.

Definition is_key (k : string) (l : Link) : bool := String.eqb (link_key l) k.

Definition live (now : Z) (l : Link) : bool := now <? link_expires l.

Definition without (k : string) (ls : list Link) : list Link :=
  List.filter (fun l => negb (is_key k l)) ls.

(** [cache.get(key)]: the value of a live entry, which becomes the
    most recently used; [None] for a key that is absent or expired. *)
Definition get (c : TTLCache) (now : Z) (k : string) : option V * TTLCache :=
  match List.find (is_key k) (links c) with
  | Some l =>
      if live now l
      then (Some (link_value l),
            mkTTLCache (maxsize c) (ttl c) (without k (links c) ++ [l]))
      else (None, c)
  | None => (None, c)
  end.

(** [cache.expire(now)]. *)
Definition expire (now : Z) (ls : list Link) : list Link :=
  List.filter (live now) ls.

(** [cache[key] = value]: expired entries go first; a new key in a
    full cache evicts the least recently used entries. *)
Definition setitem (c : TTLCache) (now : Z) (k : string) (v : V) : TTLCache :=
  let ls := expire now (links c) in
  let room :=
    if existsb (is_key k) ls then ls
    else skipn (length ls + 1 - maxsize c) ls in
  mkTTLCache (maxsize c) (ttl c)
             (without k room ++ [mkLink k v (now + ttl c)]).

Definition clear (c : TTLCache) : TTLCache :=
  mkTTLCache (maxsize c) (ttl c) [].

End TTLCache.

Arguments Link : clear implicits.
Arguments TTLCache : clear implicits.

End Cachetools.

(** ** models.py: the four tables *)

Module Models.

(** [schema_definition]: the JSON object of a raw table; a key may be
    absent. *)
Record Schema : Type := mkSchema {
  required_columns : option (list string);
  column_types : option (list (string * string))
}.

Record RawTable : Type := mkRawTable {
  rt_id : Z;
  rt_name : string;
  schema_definition : Schema
}.

Record Feature : Type := mkFeature {
  f_id : Z;
  f_name : string;
  raw_table_id : Z;
  computation_logic : string
}.

Record FeatureVersion : Type := mkFeatureVersion {
  fv_id : Z;
  feature_id : Z;
  version : string;
  status : string;
  computed_at : Z;
  version_metadata : option PyVal
}.

Record FeatureValue : Type := mkFeatureValue {
  val_id : Z;
  feature_version_id : Z;
  entity_id : string;
  value : string
}.

(** What is committed. *)
Record Db : Type := mkDb {
  raw_tables : list RawTable;
  features : list Feature;
  feature_versions : list FeatureVersion;
  feature_values : list FeatureValue
}.

(** An object handed to [db.add], before the database gives it an id. *)
Inductive Pending : Type :=
| NewVersion (feature : Z) (label status : string) (metadata : option PyVal)
| NewValue (version_id : Z) (entity value : string).

(** A session: the committed tables and the objects added since the
    last commit. *)
Record Session : Type := mkSession {
  committed : Db;
  pending : list Pending
}.

Definition next_id (ids : list Z) : Z := 1 + fold_right Z.max 0 ids.

Definition add (s : Session) (p : Pending) : Session :=
  mkSession (committed s) (pending s ++ [p]).

(** The row the database writes for a new version: the next id, and
    its own time as [computed_at]. *)
Definition version_row (now : Z) (d : Db) (f : Z) (label st : string)
    (meta : option PyVal) : FeatureVersion :=
  mkFeatureVersion (next_id (List.map fv_id (feature_versions d))) f label st now meta.

(** One pending object written to its table. *)
Definition flush (now : Z) (d : Db) (p : Pending) : Db :=
  match p with
  | NewVersion f label st meta =>
      mkDb (raw_tables d) (features d)
           (feature_versions d ++ [version_row now d f label st meta])
           (feature_values d)
  | NewValue vid e v =>
      mkDb (raw_tables d) (features d) (feature_versions d)
           (feature_values d
              ++ [mkFeatureValue (next_id (List.map val_id (feature_values d)))
                                 vid e v])
  end.

(** [db.commit()]. *)
Definition commit (now : Z) (s : Session) : Session :=
  mkSession (fold_left (flush now) (pending s) (committed s)) [].

(** [db.rollback()]: what was added and not committed is dropped. *)
Definition rollback (s : Session) : Session :=
  mkSession (committed s) [].

End Models.

(** ** Exceptions and their messages *)

Module Exceptions.

(** The text of an error.  A message that prints a [set] of names holds
    the set itself: Python fixes no order for its elements. *)
Inductive message : Type :=
| Text (s : string)
| TextAndSet (s : string) (names : gset string).

Definition prepend (prefix : string) (m : message) : message :=
  match m with
  | Text s => Text (prefix ++ s)
  | TextAndSet s names => TextAndSet (prefix ++ s) names
  end.

(** The instances of [Exception] the code raises or catches; [Other]
    stands for any other class. *)
Inductive exn : Type :=
| ValueError (m : message)
| NameError (m : message)
| Other (class : string) (m : message).

(** [str(e)]. *)
Definition str_exn (e : exn) : message :=
  match e with
  | ValueError m | NameError m | Other _ m => m
  end.

Definition is_ValueError (e : exn) : bool :=
  match e with
  | ValueError _ => true
  | _ => false
  end.

End Exceptions.
Import Exceptions.

(** ** compute.py *)

Module Compute.
Import Pandas Models.

(** The names bound in the module: its imports and its three functions. *)
Definition globals : list string :=
  ["pd"; "Session"; "Dict"; "Any"; "List"; "json"; "hashlib";
   "compute_feature"; "store_feature_values"; "validate_raw_data_schema"].

Definition bound (name : string) : bool := existsb (String.eqb name) globals.

(** What a name of the execution namespace can hold, as far as
    [compute_feature] tells them apart. *)
Inductive PyObject : Type :=
| ObjSeries (s : Series)
| ObjDataFrame (d : DataFrame)
| ObjOther.

(** [exec(computation_logic, {"__builtins__": {}}, safe_dict)] where
    [safe_dict] binds [pd], [df] and [raw_data]: the logic raises, or
    it runs to its end and leaves [safe_dict] with its assignments. *)
Inductive ExecOutcome : Type :=
| Raised (e : exn)
| Finished (safe_dict : gmap string PyObject).

(** The interpreter, which the model takes as given. *)
Definition Interp : Type := string -> DataFrame -> ExecOutcome.

(** The body of the [try] of [compute_feature], after [exec]. *)
Definition extract_result (safe_dict : gmap string PyObject) : Series + exn :=
  match safe_dict !! "result" with
  | None =>
      inr (ValueError
             (Text "Computation logic must assign result to 'result' variable"))
  | Some (ObjSeries result) => inl result
  | Some (ObjDataFrame result) =>
      match df_columns result with
      | [c] => inl (first_column result c)
      | _ => inr (ValueError (Text "Computation must return a single column"))
      end
  | Some ObjOther =>
      inr (ValueError (Text "Computation must return a pandas Series or DataFrame"))
  end.

Definition compute_feature (py_exec : Interp) (feature_id : Z) (version : string)
    (raw_data : DataFrame) (computation_logic : string) : Series + exn :=
  let body :=
    match py_exec computation_logic raw_data with
    | Raised e => inr e
    | Finished safe_dict => extract_result safe_dict
    end in
  match body with
  | inl result => inl result
  | inr e => inr (ValueError (prepend "Error computing feature: " (str_exn e)))
  end.

(** The text a value is stored as: JSON for a dict or a list, [str]
    for anything else. *)
Definition value_str (value : PyVal) : string :=
  if is_dict_or_list value then Json.dumps value else str_of value.

(** The loop of [store_feature_values]: the session as the loop leaves
    it, and the exception that ended it, if one did.  The name
    [FeatureValue] is looked up in the module at each turn. *)
Fixpoint store_loop (db : Session) (feature_version_id : Z)
    (items : Series) : Session * option exn :=
  match items with
  | [] => (db, None)
  | (entity_id, value) :: rest =>
      let text := value_str value in
      if bound "FeatureValue" then
        store_loop (add db (NewValue feature_version_id (str_of entity_id) text))
                   feature_version_id rest
      else (db, Some (NameError (Text "name 'FeatureValue' is not defined")))
  end.

Definition store_feature_values (now : Z) (db : Session) (feature_version_id : Z)
    (feature_values : Series) : Session * option exn :=
  match store_loop db feature_version_id feature_values with
  | (db', None) => (commit now db', None)
  | (db', Some e) => (db', Some e)
  end.

Definition get_default {A} (field : option A) (default : A) : A :=
  match field with
  | Some a => a
  | None => default
  end.

(** The loop over [column_types.items()]. *)
Fixpoint check_column_types (raw_data : DataFrame)
    (column_types : list (string * string)) : option exn :=
  match column_types with
  | [] => None
  | (col, expected_type) :: rest =>
      match get_column raw_data col with
      | None => check_column_types raw_data rest
      | Some column =>
          let actual_type := dtype_name (col_dtype column) in
          if String.eqb expected_type "numeric" && negb (is_numeric_dtype column)
          then Some (ValueError
                       (Text ("Column " ++ col ++ " expected numeric type, got "
                                ++ actual_type)))
          else if String.eqb expected_type "string"
                  && negb (is_string_dtype column)
          then
            if negb (is_object_dtype column)
            then Some (ValueError
                         (Text ("Column " ++ col ++ " expected string type, got "
                                  ++ actual_type)))
            else check_column_types raw_data rest
          else check_column_types raw_data rest
      end
  end.

Definition missing_columns (raw_data : DataFrame) (schema_definition : Schema)
    : gset string :=
  list_to_set (get_default (required_columns schema_definition) [])
    ∖ list_to_set (columns raw_data).

(** [inl true], or the [ValueError] raised. *)
Definition validate_raw_data_schema (raw_data : DataFrame)
    (schema_definition : Schema) : bool + exn :=
  let column_types := get_default (column_types schema_definition) [] in
  let missing := missing_columns raw_data schema_definition in
  if bool_decide (missing = ∅) then
    match check_column_types raw_data column_types with
    | Some e => inr e
    | None => inl true
    end
  else inr (ValueError (TextAndSet "Missing required columns: " missing)).

End Compute.

(** ** cache.py *)

Module Cache.
Import Cachetools.

(** The vector of an entity: a dict from feature name to decoded
    value. *)
Abbreviation FeatureVector := (gmap string Json.Decoded).

Record FeatureCache : Type := mkFeatureCache {
  cache : TTLCache FeatureVector
}.

(** [if feature_names:] and [if version:]: [None], the empty list and
    the empty string are false. *)
Definition truthy_list {A} (l : option (list A)) : bool :=
  match l with
  | Some (_ :: _) => true
  | _ => false
  end.

Definition truthy_str (s : option string) : bool :=
  match s with
  | Some (String _ _) => true
  | _ => false
  end.

(** The text that is hashed. *)
Definition key_str (entity_id : string) (feature_names : option (list string))
    (version : option string) : string :=
  let key_parts := [entity_id] in
  let key_parts :=
    if truthy_list feature_names
    then (key_parts ++ [join "," (sorted (Compute.get_default feature_names []))])%list
    else key_parts in
  let key_parts :=
    if truthy_str version
    then (key_parts ++ [Compute.get_default version ""])%list
    else key_parts in
  join "|" key_parts.

Definition _make_key (entity_id : string) (feature_names : option (list string))
    (version : option string) : string :=
  Hashlib.md5_hexdigest (Hashlib.encode (key_str entity_id feature_names version)).

Definition get (self : FeatureCache) (now : Z) (entity_id : string)
    (feature_names : option (list string)) (version : option string)
    : option FeatureVector * FeatureCache :=
  let key := _make_key entity_id feature_names version in
  let '(found, c) := Cachetools.get (cache self) now key in
  (found, mkFeatureCache c).

Definition set (self : FeatureCache) (now : Z) (entity_id : string)
    (features : FeatureVector) (feature_names : option (list string))
    (version : option string) : FeatureCache :=
  let key := _make_key entity_id feature_names version in
  mkFeatureCache (Cachetools.setitem (cache self) now key features).

Definition clear (self : FeatureCache) : FeatureCache :=
  mkFeatureCache (Cachetools.clear (cache self)).

(** The global instance, as the module creates it. *)
Definition feature_cache : FeatureCache :=
  mkFeatureCache (mkTTLCache 1000%nat 3600 []).

End Cache.

(** ** main.py *)

Module Main.
Import Pandas Models Compute Cache.

(** *** Requests and responses (schemas.py) *)

Record FeatureVersionCompute : Type := mkFeatureVersionCompute {
  rq_version : string;
  rq_metadata : option PyVal;
  rq_data : list record;
  rq_entity_id_column : string
}.

Record FeatureVectorRequest : Type := mkFeatureVectorRequest {
  rq_entity_id : string;
  rq_feature_names : option (list string);
  rq_feature_version : option string
}.

Record FeatureVectorResponse : Type := mkFeatureVectorResponse {
  rs_entity_id : string;
  rs_features : FeatureVector;
  rs_retrieved_at : Z
}.

(** What an endpoint answers: its return value, or the [HTTPException]
    it raises. *)
Inductive Response (A : Type) : Type :=
| Returned (a : A)
| HTTPException (status_code : Z) (detail : message).
Arguments Returned {A} a.
Arguments HTTPException {A} status_code detail.

(** The state the endpoints share: the database and the global cache. *)
Record World : Type := mkWorld {
  db : Db;
  the_cache : FeatureCache
}.

(** An exception no handler catches. *)
Definition internal_server_error {A} : Response A :=
  HTTPException 500 (Text "Internal Server Error").

(** *** [compute_feature_version] *)

(** The first [try]: the records as a table, labelled by the entity
    column. *)
Definition to_dataframe (request : FeatureVersionCompute) : DataFrame + exn :=
  let df := DataFrame_of_records (rq_data request) in
  match set_index df (rq_entity_id_column request) with
  | None =>
      inr (ValueError
             (Text ("Entity ID column '" ++ rq_entity_id_column request
                      ++ "' not found in data")))
  | Some df' => inl df'
  end.

Definition find_feature (d : Db) (id : Z) : option Feature :=
  List.find (fun f => f_id f =? id) (features d).

Definition find_version (d : Db) (id : Z) (label : string) : option FeatureVersion :=
  List.find (fun v => (feature_id v =? id) && String.eqb (version v) label)
            (feature_versions d).

(** [feature.raw_table]. *)
Definition raw_table_of (d : Db) (f : Feature) : option RawTable :=
  List.find (fun t => rt_id t =? raw_table_id f) (raw_tables d).

Definition compute_feature_version (py_exec : Interp) (now : Z) (w : World)
    (feature_id : Z) (request : FeatureVersionCompute)
    : Response FeatureVersion * World :=
  match find_feature (db w) feature_id with
  | None =>
      (HTTPException 404
         (Text ("Feature with ID " ++ str_of_Z feature_id ++ " not found")), w)
  | Some feature =>
  match find_version (db w) feature_id (rq_version request) with
  | Some _ =>
      (HTTPException 400
         (Text ("Version '" ++ rq_version request ++ "' already exists for feature "
                  ++ str_of_Z feature_id)), w)
  | None =>
  match to_dataframe request with
  | inr e => (HTTPException 400 (prepend "Invalid raw data format: " (str_exn e)), w)
  | inl df =>
  match raw_table_of (db w) feature with
  | None => (internal_server_error, w)
  | Some raw_table =>
  match validate_raw_data_schema df (schema_definition raw_table) with
  | inr e =>
      if is_ValueError e
      then (HTTPException 400 (prepend "Schema validation failed: " (str_exn e)), w)
      else (internal_server_error, w)
  | inl _ =>
  match compute_feature py_exec feature_id (rq_version request) df
                        (computation_logic feature) with
  | inr e =>
      (HTTPException 500 (prepend "Feature computation failed: " (str_exn e)), w)
  | inl feature_values =>
      (* db.add(db_version); db.commit(); db.refresh(db_version) *)
      let db_version :=
        version_row now (db w) feature_id (rq_version request) "active"
                    (rq_metadata request) in
      let session :=
        commit now
          (add (mkSession (db w) [])
               (NewVersion feature_id (rq_version request) "active"
                           (rq_metadata request))) in
      match store_feature_values now session (fv_id db_version) feature_values with
      | (session', Some e) =>
          let session'' := rollback session' in
          (HTTPException 500
             (prepend "Failed to store feature values: " (str_exn e)),
           mkWorld (committed session'') (the_cache w))
      | (session', None) =>
          (Returned db_version, mkWorld (committed session') (the_cache w))
      end
  end end end end end end.

(** *** [get_feature_vector] *)

Definition results : Type := list (FeatureValue * FeatureVersion * Feature).

(** [Feature.name.in_(request.feature_names)], when names are given. *)
Definition named (feature_names : option (list string)) (f : Feature) : bool :=
  if truthy_list feature_names
  then existsb (String.eqb (f_name f)) (get_default feature_names [])
  else true.

(** The join of the three tables for an explicit version, in the order
    of the tables. *)
Definition query_version (d : Db) (entity : string) (label : string)
    (feature_names : option (list string)) : results :=
  flat_map
    (fun val =>
       if String.eqb (entity_id val) entity then
         flat_map
           (fun ver =>
              if (fv_id ver =? feature_version_id val)
                 && String.eqb (version ver) label
              then
                flat_map
                  (fun f =>
                     if (f_id f =? feature_id ver) && named feature_names f
                     then [(val, ver, f)] else [])
                  (features d)
              else [])
           (feature_versions d)
       else [])
    (feature_values d).

(** [order_by(FeatureVersion.computed_at.desc())]: the later first. *)
Fixpoint insert_desc (v : FeatureVersion) (l : list FeatureVersion)
    : list FeatureVersion :=
  match l with
  | [] => [v]
  | v' :: l' =>
      if computed_at v' <=? computed_at v then v :: l else v' :: insert_desc v l'
  end.

Definition order_by_computed_at_desc (l : list FeatureVersion)
    : list FeatureVersion :=
  fold_right insert_desc [] l.

Definition is_active_of (id : Z) (v : FeatureVersion) : bool :=
  (feature_id v =? id) && String.eqb (status v) "active".

(** The query of the loop: the active versions of a feature, the latest
    first, [.first()]. *)
Definition latest_version (d : Db) (id : Z) : option FeatureVersion :=
  List.head
    (order_by_computed_at_desc (List.filter (is_active_of id) (feature_versions d))).

Definition feature_value_of (d : Db) (version_id : Z) (entity : string)
    : option FeatureValue :=
  List.find
    (fun val => (feature_version_id val =? version_id)
                && String.eqb (entity_id val) entity)
    (feature_values d).

(** What one feature adds to [results] in the loop. *)
Definition latest_result (d : Db) (entity : string) (feature : Feature) : results :=
  match latest_version d (f_id feature) with
  | Some latest =>
      match feature_value_of d (fv_id latest) entity with
      | Some feature_value => [(feature_value, latest, feature)]
      | None => []
      end
  | None => []
  end.

Definition latest_results (d : Db) (entity : string)
    (feature_names : option (list string)) : results :=
  flat_map (latest_result d entity)
           (List.filter (named feature_names) (features d)).

(** [json.loads] first, the stored text itself when it is not JSON. *)
Definition parse_value (text : string) : Json.Decoded :=
  match Json.loads text with
  | Json.Loaded v => Json.Value v
  | Json.Unmodelled => Json.ValueOf text
  | Json.JSONDecodeError => Json.Value (Atom (PyStr text))
  end.

Definition build_vector (rs : results) : FeatureVector :=
  fold_left
    (fun feature_vector r =>
       let '(feature_value, _, feature) := r in
       <[f_name feature := parse_value (value feature_value)]> feature_vector)
    rs ∅.

(** [if cached:]: a dict that is there and not empty. *)
Definition truthy_dict (cached : option FeatureVector) : bool :=
  match cached with
  | Some m => bool_decide (m ≠ ∅)
  | None => false
  end.

Definition get_feature_vector (now : Z) (w : World) (request : FeatureVectorRequest)
    : Response FeatureVectorResponse * World :=
  let entity := rq_entity_id request in
  let names := rq_feature_names request in
  let label := rq_feature_version request in
  let '(cached, c) := Cache.get (the_cache w) now entity names label in
  if truthy_dict cached then
    (Returned (mkFeatureVectorResponse entity (get_default cached ∅) now),
     mkWorld (db w) c)
  else
    let rs :=
      if truthy_str label
      then query_version (db w) entity (get_default label "") names
      else latest_results (db w) entity names in
    match rs with
    | [] =>
        (HTTPException 404
           (Text ("No feature vectors found for entity '" ++ entity ++ "'")),
         mkWorld (db w) c)
    | _ :: _ =>
        let feature_vector := build_vector rs in
        (Returned (mkFeatureVectorResponse entity feature_vector now),
         mkWorld (db w) (Cache.set c now entity feature_vector names label))
    end.

End Main.

(** ** main.py: the raw table and feature endpoints *)

Module Registry.
Import Pandas Models Compute Cache Main.

(** [RawTableCreate] and [FeatureCreate] (schemas.py).  The rows of the
    model keep the columns the code reads: the description of a row,
    the type of a feature and the timestamps are written and returned,
    and never looked at. *)
Record RawTableCreate : Type := mkRawTableCreate {
  rtc_name : string;
  rtc_description : option string;
  rtc_schema_definition : Schema
}.

Record FeatureCreate : Type := mkFeatureCreate {
  fc_name : string;
  fc_description : option string;
  fc_raw_table_id : Z;
  fc_computation_logic : string;
  fc_feature_type : string
}.

(** [db.query(RawTable).filter(RawTable.name == name).first()]. *)
Definition find_raw_table_named (d : Db) (name : string) : option RawTable :=
  List.find (fun t => String.eqb (rt_name t) name) (raw_tables d).

(** [db.query(RawTable).filter(RawTable.id == id).first()]. *)
Definition find_raw_table (d : Db) (id : Z) : option RawTable :=
  List.find (fun t => rt_id t =? id) (raw_tables d).

Definition register_raw_table (w : World) (raw_table : RawTableCreate)
    : Response RawTable * World :=
  match find_raw_table_named (db w) (rtc_name raw_table) with
  | Some _ =>
      (HTTPException 400
         (Text ("Raw table with name '" ++ rtc_name raw_table ++ "' already exists")),
       w)
  | None =>
      (* db.add(db_raw_table); db.commit(); db.refresh(db_raw_table) *)
      let db_raw_table :=
        mkRawTable (next_id (List.map rt_id (raw_tables (db w))))
                   (rtc_name raw_table) (rtc_schema_definition raw_table) in
      (Returned db_raw_table,
       mkWorld (mkDb (raw_tables (db w) ++ [db_raw_table]) (features (db w))
                     (feature_versions (db w)) (feature_values (db w)))
               (the_cache w))
  end.

Definition get_raw_table (d : Db) (table_id : Z) : Response RawTable :=
  match find_raw_table d table_id with
  | None =>
      HTTPException 404
        (Text ("Raw table with ID " ++ str_of_Z table_id ++ " not found"))
  | Some raw_table => Returned raw_table
  end.

Definition create_feature (w : World) (feature : FeatureCreate)
    : Response Feature * World :=
  match find_raw_table (db w) (fc_raw_table_id feature) with
  | None =>
      (HTTPException 404
         (Text ("Raw table with ID " ++ str_of_Z (fc_raw_table_id feature)
                  ++ " not found")),
       w)
  | Some _ =>
      (* db.add(db_feature); db.commit(); db.refresh(db_feature) *)
      let db_feature :=
        mkFeature (next_id (List.map f_id (features (db w))))
                  (fc_name feature) (fc_raw_table_id feature)
                  (fc_computation_logic feature) in
      (Returned db_feature,
       mkWorld (mkDb (raw_tables (db w)) (features (db w) ++ [db_feature])
                     (feature_versions (db w)) (feature_values (db w)))
               (the_cache w))
  end.

Definition get_feature (d : Db) (feature_id : Z) : Response Feature :=
  match find_feature d feature_id with
  | None =>
      HTTPException 404
        (Text ("Feature with ID " ++ str_of_Z feature_id ++ " not found"))
  | Some feature => Returned feature
  end.

Definition list_feature_versions (d : Db) (id : Z) : Response (list FeatureVersion) :=
  match find_feature d id with
  | None =>
      HTTPException 404 (Text ("Feature with ID " ++ str_of_Z id ++ " not found"))
  | Some _ =>
      Returned (List.filter (fun v => feature_id v =? id) (feature_versions d))
  end.

End Registry.

(** ** The service: requests served one after the other *)

Module Service.
Import Pandas Models Compute Cache Main Registry.

(** A request to one of the endpoints that write: to the database, or,
    for [get_feature_vector], to the cache.  The other endpoints only
    read. *)
Inductive Call : Type :=
| RegisterRawTable (raw_table : RawTableCreate)
| CreateFeature (feature : FeatureCreate)
| ComputeFeatureVersion (py_exec : Interp) (feature_id : Z)
                        (request : FeatureVersionCompute)
| GetFeatureVector (request : FeatureVectorRequest).

(** The world after a call has been served at the time it carries. *)
Definition serve (w : World) (timed : Z * Call) : World :=
  match timed with
  | (_, RegisterRawTable raw_table) => snd (register_raw_table w raw_table)
  | (_, CreateFeature feature) => snd (create_feature w feature)
  | (now, ComputeFeatureVersion py_exec feature_id request) =>
      snd (compute_feature_version py_exec now w feature_id request)
  | (now, GetFeatureVector request) => snd (get_feature_vector now w request)
  end.

Definition run (w : World) (calls : list (Z * Call)) : World :=
  fold_left serve calls w.

End Service.

(** * Properties *)

(** ** Shapes and measures the statements use *)

Module Shape.
Import Json.




(** The text after a value in what [dumps] writes. *)
Definition delimited (s : string) : bool :=
  match s with
  | EmptyString => true
  | String c _ => Ascii.eqb c "," || Ascii.eqb c "]" || Ascii.eqb c "}"
  end.


(** Induction on a value, with the hypothesis for every item of a list
    and every value of a dict. *)
Section PyVal_induction.
Variable P : PyVal -> Prop.
Hypothesis P_atom : forall a, P (Atom a).
Hypothesis P_list : forall items, Forall P items -> P (PyList items).
Hypothesis P_dict : forall items, Forall (fun kv => P (snd kv)) items -> P (PyDict items).

End PyVal_induction.








(** A scan that succeeds reads at least one character, and succeeds
    with any fuel that is no less than the number it reads. *)
Definition settled {A} (run : nat -> string -> scan A) (fuel : nat) : Prop :=
  forall s a r,
    run fuel s = Got a r ->
    (String.length r < String.length s)%nat
    /\ forall f, (String.length s - String.length r <= f)%nat -> run f s = Got a r.

End Shape.

(** ** What the statements about validation and storage speak of *)

Module Words.
Import Pandas Models Compute Main.

(** The check [validate_raw_data_schema] makes on one column with a
    declared type. *)
Definition conforms (c : Column) (expected_type : string) : bool :=
  if String.eqb expected_type "numeric" then is_numeric_dtype c
  else if String.eqb expected_type "string"
       then is_string_dtype c || is_object_dtype c
  else true.

(** A cell that holds a number, a boolean or nothing. *)
Definition numeric_cell (v : PyVal) : bool :=
  match v with
  | Atom (PyStr _) | PyList _ | PyDict _ => false
  | Atom _ => true
  end.

(** The spec's word: a value is numeric-coercible when it is a number
    or a text that reads as one. *)
Definition numeric_coercible (v : PyVal) : bool :=
  match v with
  | Atom (PyInt _) | Atom (PyFloat _) | Atom (PyBool _) => true
  | Atom (PyStr s) =>
      match Json.scan_number s with
      | Json.Got _ EmptyString => true
      | _ => false
      end
  | _ => false
  end.

(** Names in ascending order. *)
Definition ascending : list string -> Prop :=
  Sorted (fun a b => String.leb a b = true).

(** The stored values of a version. *)
Definition values_of (d : Db) (v : FeatureVersion) : list FeatureValue :=
  List.filter (fun val => feature_version_id val =? fv_id v) (feature_values d).

(** The foreign key of [feature_values]: every value belongs to a
    version of the table. *)
Definition referential (d : Db) : Prop :=
  forall val, In val (feature_values d) ->
  In (feature_version_id val) (List.map fv_id (feature_versions d)).

(** The latest among the listed versions. *)
Definition latest_of (l : list FeatureVersion) (v : FeatureVersion) : Prop :=
  In v l /\ forall u, In u l -> computed_at u <= computed_at v.

Definition feature_of (r : FeatureValue * FeatureVersion * Feature) : Feature := snd r.

Definition value_of (r : FeatureValue * FeatureVersion * Feature) : FeatureValue :=
  fst (fst r).

(** The vector of an answer; empty for a failure. *)
Definition rs_features_of (r : Response FeatureVectorResponse) : Cache.FeatureVector :=
  match r with
  | Returned response => rs_features response
  | HTTPException _ _ => ∅
  end.

(** One turn of the loop that builds the vector. *)
Definition put (feature_vector : Cache.FeatureVector)
    (r : FeatureValue * FeatureVersion * Feature) : Cache.FeatureVector :=
  let '(feature_value, _, feature) := r in
  <[f_name feature := parse_value (value feature_value)]> feature_vector.



End Words.

(** ** Sample data: the scenario of the transaction totals *)

Module Sample.
Import Pandas Models Compute Cache Main.

(** A raw table that requires a numeric column [amount]. *)
Definition transactions : RawTable :=
  mkRawTable 1 "transactions"
    (mkSchema (Some ["amount"]) (Some [("amount", "numeric")])).

Definition total : Feature :=
  mkFeature 1 "total" 1 "result = df.groupby(level=0)['amount'].sum()".

Definition empty_db : Db := mkDb [transactions] [total] [] [].

Definition fresh : World := mkWorld empty_db feature_cache.

(** Two records of the entity [x]: 5 and 7. *)
Definition two_records : list record :=
  [ [("id", Atom (PyStr "x")); ("amount", Atom (PyInt 5))];
    [("id", Atom (PyStr "x")); ("amount", Atom (PyInt 7))] ].

Definition submit_v1 : FeatureVersionCompute :=
  mkFeatureVersionCompute "v1" None two_records "id".

(** The amounts as texts. *)
Definition submit_texts : FeatureVersionCompute :=
  mkFeatureVersionCompute "v1" None
    [ [("id", Atom (PyStr "x")); ("amount", Atom (PyStr "5"))];
      [("id", Atom (PyStr "x")); ("amount", Atom (PyStr "7"))] ] "id".

(** An amount beyond 64 bits. *)
Definition submit_large : FeatureVersionCompute :=
  mkFeatureVersionCompute "v1" None
    [ [("id", Atom (PyStr "x")); ("amount", Atom (PyInt (2 ^ 70)))] ] "id".


(** An interpreter for the logic of [total]: the sum per entity, 12 for
    [x]. *)
Definition sums : Interp :=
  fun _ _ => Finished {[ "result" := ObjSeries [(Atom (PyStr "x"), Atom (PyInt 12))] ]}.

(** An interpreter whose logic always fails. *)
Definition fails : Interp :=
  fun _ _ => Raised (Other "ZeroDivisionError" (Text "division by zero")).

(** A database that holds values: [total] with versions [v1] (time 10)
    and [v2] (time 20), both active, and [count], whose only version is
    archived. *)
Definition count : Feature := mkFeature 2 "count" 1 "result = df['amount'].count()".

Definition v1 : FeatureVersion := mkFeatureVersion 1 1 "v1" "active" 10 None.
Definition v2 : FeatureVersion := mkFeatureVersion 2 1 "v2" "active" 20 None.
Definition v2_deprecated : FeatureVersion :=
  mkFeatureVersion 2 1 "v2" "deprecated" 20 None.
Definition count_v1 : FeatureVersion := mkFeatureVersion 3 2 "v1" "archived" 20 None.

Definition stored : list FeatureValue :=
  [ mkFeatureValue 1 1 "x" "12";
    mkFeatureValue 2 2 "x" "19";
    mkFeatureValue 3 3 "x" "2" ].

Definition served_db : Db :=
  mkDb [transactions] [total; count] [v1; v2; count_v1] stored.

Definition served_db_v2_deprecated : Db :=
  mkDb [transactions] [total; count] [v1; v2_deprecated; count_v1] stored.

Definition served : World := mkWorld served_db feature_cache.

Definition ask_x : FeatureVectorRequest := mkFeatureVectorRequest "x" None None.

(** The world after [ask_x] has been answered at time 5. *)
Definition cached_world : World := snd (get_feature_vector 5 served ask_x).

Definition submit_v3 : FeatureVersionCompute :=
  mkFeatureVersionCompute "v3" None two_records "id".

End Sample.

(** ** What the statements about the tables and the cache speak of *)

Module Consistency.
Import Pandas Models Compute Cachetools Cache Main Registry.

(** What makes a version unique: its feature and its label. *)
Definition version_key (v : FeatureVersion) : Z * string :=
  (feature_id v, version v).

(** Every feature refers to a registered raw table, every version to a
    feature. *)
Definition features_refer (d : Db) : Prop :=
  forall f, In f (features d) -> In (raw_table_id f) (List.map rt_id (raw_tables d)).

Definition versions_refer (d : Db) : Prop :=
  forall v, In v (feature_versions d) -> In (feature_id v) (List.map f_id (features d)).

(** The constraints of models.py and the checks of the endpoints, as
    one property of the tables. *)
Record consistent (d : Db) : Prop := mkConsistent {
  raw_table_ids_distinct : NoDup (List.map rt_id (raw_tables d));
  raw_table_names_distinct : NoDup (List.map rt_name (raw_tables d));
  feature_ids_distinct : NoDup (List.map f_id (features d));
  version_ids_distinct : NoDup (List.map fv_id (feature_versions d));
  version_keys_distinct : NoDup (List.map version_key (feature_versions d));
  every_feature_refers : features_refer d;
  every_version_refers : versions_refer d;
  every_value_refers : Words.referential d
}.

(** The tables with one more raw table, feature or version. *)
Definition with_raw_table (d : Db) (t : RawTable) : Db :=
  mkDb (raw_tables d ++ [t]) (features d) (feature_versions d) (feature_values d).

Definition with_feature (d : Db) (f : Feature) : Db :=
  mkDb (raw_tables d) (features d ++ [f]) (feature_versions d) (feature_values d).

Definition with_version (d : Db) (v : FeatureVersion) : Db :=
  mkDb (raw_tables d) (features d) (feature_versions d ++ [v]) (feature_values d).

(** The row [compute_feature_version] writes for a request. *)
Definition new_version (now : Z) (d : Db) (id : Z)
    (request : FeatureVersionCompute) : FeatureVersion :=
  version_row now d id (rq_version request) "active" (rq_metadata request).

(** The two answers that come after the version has been committed:
    the version itself, and the failure to store its values. *)
Definition version_created (answer : Response FeatureVersion) : Prop :=
  match answer with
  | Returned _ => True
  | HTTPException status_code detail =>
      status_code = 500
      /\ exists m, detail = prepend "Failed to store feature values: " m
  end.

(** No row is removed or changed: each table of [d'] starts with the
    rows of [d]. *)
Definition grows (d d' : Db) : Prop :=
  raw_tables d `prefix_of` raw_tables d'
  /\ features d `prefix_of` features d'
  /\ feature_versions d `prefix_of` feature_versions d'
  /\ feature_values d `prefix_of` feature_values d'.

(** The results [get_feature_vector] gathers from the tables when the
    cache does not answer, and the answer it builds from them. *)
Definition results_of (d : Db) (request : FeatureVectorRequest) : results :=
  if truthy_str (rq_feature_version request)
  then query_version d (rq_entity_id request)
                     (get_default (rq_feature_version request) "")
                     (rq_feature_names request)
  else latest_results d (rq_entity_id request) (rq_feature_names request).

Definition resolved (now : Z) (d : Db) (request : FeatureVectorRequest)
    : Response FeatureVectorResponse :=
  match results_of d request with
  | [] =>
      HTTPException 404
        (Text ("No feature vectors found for entity '" ++ rq_entity_id request ++ "'"))
  | rs => Returned (mkFeatureVectorResponse (rq_entity_id request) (build_vector rs) now)
  end.

(** What validation can see of a table: the names of its columns with
    their dtypes. *)
Definition signature (df : DataFrame) : list (string * Dtype) :=
  List.map (fun c => (col_name c, col_dtype c)) (df_columns df).

(** A record that has an integer of 64 bits under a key, or lacks the
    key. *)
Definition int64_or_absent (key : string) (r : record) : bool :=
  match dict_get String.eqb key r with
  | None => true
  | Some (Atom (PyInt z)) => (INT64_MIN <=? z) && (z <=? INT64_MAX)
  | Some _ => false
  end.

(** A cache that holds no more than [maxsize] entries. *)
Definition within_maxsize (self : FeatureCache) : Prop :=
  (length (links (cache self)) <= maxsize (cache self))%nat.

(** The requests of [get_feature_vector] for an entity. *)
Definition ask (entity : string) (names : option (list string))
    (label : option string) : FeatureVectorRequest :=
  mkFeatureVectorRequest entity names label.

End Consistency.

(** ** More sample data *)

Module Cases.
Import Pandas Models Compute Cache Main Registry Service.

Definition events : RawTableCreate :=
  mkRawTableCreate "events" (Some "Click events") (mkSchema None None).

Definition clicks : FeatureCreate :=
  mkFeatureCreate "clicks" None 1 "result = df['n']" "numeric".

(** A raw table that lists the entity column among the required ones. *)
Definition keyed : RawTable :=
  mkRawTable 1 "transactions" (mkSchema (Some ["id"; "amount"]) None).

Definition keyed_world : World :=
  mkWorld (mkDb [keyed] [Sample.total] [] []) feature_cache.


(** Two batches with an object column [amount]: texts in one, lists in
    the other, under different labels. *)
Definition texts : DataFrame :=
  mkDataFrame [Atom (PyStr "x")]
    [mkColumn "amount" object_ [Atom (PyStr "5")]].

Definition lists : DataFrame :=
  mkDataFrame [Atom (PyStr "y"); Atom (PyStr "z")]
    [mkColumn "amount" object_ [PyList []; PyList [Atom (PyInt 1)]]].

(** A schema with two declared types, and a batch in which both columns
    are of another type. *)
Definition two_types : Schema :=
  mkSchema None (Some [("amount", "numeric"); ("name", "string")]).

Definition both_wrong : DataFrame :=
  mkDataFrame [Atom (PyStr "x")]
    [mkColumn "name" int64 [Atom (PyInt 1)];
     mkColumn "amount" object_ [Atom (PyStr "5")]].

(** Two features that bear the name [total], each with a value for
    [x]. *)
Definition total_again : Feature := mkFeature 2 "total" 1 "result = df['amount']".

Definition twins : results :=
  [ (mkFeatureValue 1 1 "x" "12", Sample.v1, Sample.total);
    (mkFeatureValue 2 3 "x" "7", mkFeatureVersion 3 2 "v1" "active" 20 None,
     total_again) ].

(** Three records, of which the second has no [amount]. *)
Definition with_a_gap : FeatureVersionCompute :=
  mkFeatureVersionCompute "v1" None
    [ [("id", Atom (PyStr "x")); ("amount", Atom (PyInt 5))];
      [("id", Atom (PyStr "y"))];
      [("id", Atom (PyStr "z")); ("amount", Atom (PyInt 7))] ] "id".

(** A day of the service: a table and a feature are registered, a
    version of [total] is computed, and the vector of [x] is asked for
    before and after. *)
Definition a_day : list (Z * Service.Call) :=
  [ (10, Service.RegisterRawTable events);
    (20, Service.CreateFeature clicks);
    (30, Service.GetFeatureVector Sample.ask_x);
    (40, Service.ComputeFeatureVersion Sample.sums 1 Sample.submit_v1);
    (50, Service.GetFeatureVector Sample.ask_x) ].

End Cases.

(** ** [json]: what [dumps] writes, [loads] reads back *)

Module JsonFacts.
Import Json Shape.


Lemma append_cons (x : ascii) (a b : string) : String x a ++ b = String x (a ++ b).
Proof. reflexivity. Qed.




Lemma scan_digits_cons (c : ascii) (k acc : N) (count : nat) (s : string) :
  digit_value c = Some k ->
  scan_digits acc count (String c s) = scan_digits (10 * acc + k) (S count) s.
Proof. intros H. simpl. rewrite H. reflexivity. Qed.



















Lemma delimited_skip_ws (s : string) : delimited s = true -> skip_ws s = s.
Proof.
  destruct s as [|c s]; [reflexivity|].
  destruct c as [[] [] [] [] [] [] [] []]; simpl; intros H; try discriminate; reflexivity.
Qed.
















Lemma length_append (a b : string) :
  String.length (a ++ b) = (String.length a + String.length b)%nat.
Proof.
  induction a as [|x a IH]; [reflexivity|].
  rewrite append_cons. simpl. now rewrite IH.
Qed.





End JsonFacts.

(** ** [json.loads] does not depend on its fuel *)

Module FuelFacts.
Import Json Shape.

Lemma length_skip_ws (s : string) : (String.length (skip_ws s) <= String.length s)%nat.
Proof.
  induction s as [|c s IH]; simpl; [lia|]. destruct (is_ws c); simpl; lia.
Qed.

Lemma scanstring_shorter (s : string) : forall st a r,
  scanstring st s = Got a r -> (String.length r < String.length s)%nat.
Proof.
  induction s as [|c s IH]; intros st a r H; [discriminate H|].
  assert (Hpush : forall c' st', push c' (scanstring st' s) = Got a r ->
                                 (String.length r < S (String.length s))%nat).
  { intros c' st' Hp. destruct (scanstring st' s) as [[x|] r'|] eqn:Hs;
      simpl in Hp; try discriminate Hp; injection Hp as _ <-;
      specialize (IH _ _ _ Hs); lia. }
  assert (Hwide : forall st', wide (scanstring st' s) = Got a r ->
                              (String.length r < S (String.length s))%nat).
  { intros st' Hp. destruct (scanstring st' s) as [x r'|] eqn:Hs;
      simpl in Hp; try discriminate Hp; injection Hp as _ <-;
      specialize (IH _ _ _ Hs); lia. }
  simpl in H |- *. destruct st as [| |more v].
  - destruct (Ascii.eqb c dquote); [injection H as _ <-; lia|].
    destruct (Ascii.eqb c backslash); [specialize (IH _ _ _ H); lia|].
    destruct (code c <? 32)%N; [discriminate H|]. eapply Hpush, H.
  - destruct (Ascii.eqb c "u"); [specialize (IH _ _ _ H); lia|].
    destruct (unescape c); [|discriminate H]. eapply Hpush, H.
  - destruct (hex_value c); [|discriminate H].
    destruct more; [|specialize (IH _ _ _ H); lia].
    destruct (_ <? 256)%N; [eapply Hpush, H | eapply Hwide, H].
Qed.

Lemma strip_prefix_length (w s r : string) :
  strip_prefix w s = Some r ->
  (String.length r + String.length w = String.length s)%nat.
Proof.
  revert s. induction w as [|a w IH]; intros s H; simpl in *.
  - injection H as <-. lia.
  - destruct s as [|b s]; [discriminate H|].
    destruct (Ascii.eqb a b); [|discriminate H]. specialize (IH _ H). simpl. lia.
Qed.

Lemma scan_digits_length (s : string) : forall acc count,
  (String.length (snd (scan_digits acc count s)) <= String.length s)%nat.
Proof.
  induction s as [|c s IH]; intros acc count; simpl; [lia|].
  destruct (digit_value c); simpl; [|lia].
  specialize (IH (10 * acc + n)%N (S count)). lia.
Qed.

Lemma scan_int_shorter (s r : string) (z : Z) :
  scan_int s = Some (z, r) -> (String.length r < String.length s)%nat.
Proof.
  unfold scan_int. intros H.
  set (p := match s with
            | String c s' => if Ascii.eqb c "-" then (true, s') else (false, s)
            | EmptyString => (false, s)
            end) in H.
  assert (Hp : (String.length (snd p) <= String.length s)%nat).
  { unfold p. destruct s as [|c s']; simpl; [lia|].
    destruct (Ascii.eqb c "-"); simpl; lia. }
  destruct p as [neg s1]. simpl in Hp.
  destruct s1 as [|c s2]; [discriminate H|].
  destruct (digit_value c) as [d|] eqn:Hd; [|discriminate H].
  destruct d as [|d].
  - injection H as _ <-. simpl in Hp. lia.
  - rewrite (JsonFacts.scan_digits_cons c _ 0 0 s2 Hd) in H.
    pose proof (scan_digits_length s2 (10 * 0 + N.pos d)%N 1%nat) as Hl.
    destruct (scan_digits (10 * 0 + N.pos d) 1 s2) as [[n count] rest].
    injection H as _ <-. simpl in *. lia.
Qed.

Lemma scan_frac_shorter (s r : string) :
  scan_frac s = Some r -> (String.length r < String.length s)%nat.
Proof.
  unfold scan_frac. destruct s as [|c s]; [discriminate|].
  destruct (Ascii.eqb c "."); [|discriminate].
  pose proof (scan_digits_length s 0%N 0%nat) as Hl.
  destruct (scan_digits 0 0 s) as [[n count] rest].
  destruct count; [discriminate|]. intros H. injection H as <-. simpl in *. lia.
Qed.

Lemma scan_exp_shorter (s r : string) :
  scan_exp s = Some r -> (String.length r < String.length s)%nat.
Proof.
  unfold scan_exp. destruct s as [|c s]; [discriminate|].
  destruct (Ascii.eqb c "e" || Ascii.eqb c "E"); [|discriminate].
  set (s'' := match s with
              | String g t => if Ascii.eqb g "-" || Ascii.eqb g "+" then t else s
              | EmptyString => s
              end).
  assert (Hs : (String.length s'' <= String.length s)%nat).
  { unfold s''. destruct s as [|g t]; simpl; [lia|].
    destruct (Ascii.eqb g "-" || Ascii.eqb g "+"); simpl; lia. }
  pose proof (scan_digits_length s'' 0%N 0%nat) as Hl.
  destruct (scan_digits 0 0 s'') as [[n count] rest].
  destruct count; [discriminate|]. intros H. injection H as <-. simpl in *. lia.
Qed.

Lemma scan_number_shorter (s r : string) (a : option Scalar) :
  scan_number s = Got a r -> (String.length r < String.length s)%nat.
Proof.
  unfold scan_number. destruct (scan_int s) as [[z r0]|] eqn:Hi; [|discriminate].
  apply scan_int_shorter in Hi.
  destruct (scan_frac r0) as [r1|] eqn:Hf.
  - apply scan_frac_shorter in Hf.
    destruct (scan_exp r1) as [r2|] eqn:He.
    + apply scan_exp_shorter in He. simpl. intros H. injection H as _ <-. lia.
    + simpl. intros H. injection H as _ <-. lia.
  - destruct (scan_exp r0) as [r2|] eqn:He.
    + apply scan_exp_shorter in He. simpl. intros H. injection H as _ <-. lia.
    + simpl. intros H. injection H as _ <-. lia.
Qed.

Lemma scan_literal_shorter (s r : string) (a : option Scalar) :
  scan_literal s = Got a r -> (String.length r < String.length s)%nat.
Proof.
  unfold scan_literal.
  repeat match goal with
  | |- context [strip_prefix ?w s] =>
      let H := fresh "Hp" in
      destruct (strip_prefix w s) eqn:H;
      [apply strip_prefix_length in H; simpl in H;
       intros Hg; injection Hg as _ <-; lia|]
  | |- context [scan_number s] =>
      let H := fresh "Hn" in
      destruct (scan_number s) eqn:H;
      [apply scan_number_shorter in H; intros Hg; injection Hg as _ <-; lia|]
  end.
  discriminate.
Qed.


Lemma skip_ws_cons (s r : string) (c : ascii) :
  skip_ws s = String c r -> (S (String.length r) <= String.length s)%nat.
Proof.
  intros H. pose proof (length_skip_ws s) as Hl. rewrite H in Hl. exact Hl.
Qed.

Lemma settled_all (fuel : nat) :
  settled scan_once fuel /\ settled array_items fuel /\ settled object_items fuel.
Proof.
  induction fuel as [|fuel (IHs & IHa & IHo)].
  { repeat split; discriminate. }
  split; [|split].
  - intros s a r H. destruct s as [|c s']; [discriminate H|].
    cbn [scan_once] in H.
    destruct (Ascii.eqb c dquote) eqn:Hq.
    { destruct (scanstring Plain s') as [str rest|] eqn:Hs; [|discriminate H].
      injection H as <- <-. apply scanstring_shorter in Hs as Hl.
      split; [simpl; lia|]. intros f Hf. destruct f as [|f]; [simpl in Hf; lia|].
      cbn [scan_once]. rewrite Hq, Hs. reflexivity. }
    destruct (Ascii.eqb c "[") eqn:Hb.
    { destruct (skip_ws s') as [|c1 s1] eqn:Hw; [discriminate H|].
      apply skip_ws_cons in Hw as Hl.
      destruct (Ascii.eqb c1 "]") eqn:Hc.
      - injection H as <- <-. split; [simpl; lia|].
        intros f Hf. destruct f as [|f]; [simpl in Hf; lia|].
        cbn [scan_once]. rewrite Hq, Hb, Hw, Hc. reflexivity.
      - destruct (array_items fuel (String c1 s1)) as [items rest|] eqn:Ha;
          [|discriminate H].
        injection H as <- <-. destruct (IHa _ _ _ Ha) as [Hr Hf'].
        simpl in Hr. split; [simpl; lia|].
        intros f Hf. destruct f as [|f]; [simpl in Hf; lia|].
        cbn [scan_once]. rewrite Hq, Hb, Hw, Hc, Hf'; [reflexivity|].
        simpl in Hf |- *. lia. }
    destruct (Ascii.eqb c "{") eqn:Ho.
    { destruct (skip_ws s') as [|c1 s1] eqn:Hw; [discriminate H|].
      apply skip_ws_cons in Hw as Hl.
      destruct (Ascii.eqb c1 "}") eqn:Hc.
      - injection H as <- <-. split; [simpl; lia|].
        intros f Hf. destruct f as [|f]; [simpl in Hf; lia|].
        cbn [scan_once]. rewrite Hq, Hb, Ho, Hw, Hc. reflexivity.
      - destruct (object_items fuel (String c1 s1)) as [pairs rest|] eqn:Ha;
          [|discriminate H].
        injection H as <- <-. destruct (IHo _ _ _ Ha) as [Hr Hf'].
        simpl in Hr. split; [simpl; lia|].
        intros f Hf. destruct f as [|f]; [simpl in Hf; lia|].
        cbn [scan_once]. rewrite Hq, Hb, Ho, Hw, Hc, Hf'; [reflexivity|].
        simpl in Hf |- *. lia. }
    destruct (scan_literal (String c s')) as [x rest|] eqn:Hlit; [|discriminate H].
    injection H as <- <-. apply scan_literal_shorter in Hlit as Hl.
    split; [exact Hl|]. intros f Hf. destruct f as [|f]; [lia|].
    cbn [scan_once]. rewrite Hq, Hb, Ho, Hlit. reflexivity.
  - intros s a r H. cbn [array_items] in H.
    destruct (scan_once fuel s) as [v r0|] eqn:Hv; [|discriminate H].
    destruct (IHs _ _ _ Hv) as [Hr0 Hf0].
    destruct (skip_ws r0) as [|c r1] eqn:Hw; [discriminate H|].
    apply skip_ws_cons in Hw as Hl.
    destruct (Ascii.eqb c ",") eqn:Hc.
    + destruct (array_items fuel (skip_ws r1)) as [vs rest|] eqn:Ha; [|discriminate H].
      injection H as <- <-. destruct (IHa _ _ _ Ha) as [Hr Hf'].
      pose proof (length_skip_ws r1) as Hl1.
      split; [lia|]. intros f Hf. destruct f as [|f]; [lia|].
      cbn [array_items]. rewrite Hf0 by lia. rewrite Hw, Hc, Hf' by lia. reflexivity.
    + destruct (Ascii.eqb c "]") eqn:Hc'; [|discriminate H].
      injection H as <- <-. split; [lia|].
      intros f Hf. destruct f as [|f]; [lia|].
      cbn [array_items]. rewrite Hf0 by lia. rewrite Hw, Hc, Hc'. reflexivity.
  - intros s a r H. cbn [object_items] in H.
    destruct s as [|c s']; [discriminate H|].
    destruct (Ascii.eqb c dquote) eqn:Hq; [|discriminate H].
    destruct (scanstring Plain s') as [key r0|] eqn:Hk; [|discriminate H].
    apply scanstring_shorter in Hk as Hlk.
    destruct (skip_ws r0) as [|c1 r1] eqn:Hw0; [discriminate H|].
    apply skip_ws_cons in Hw0 as Hl0.
    destruct (Ascii.eqb c1 ":") eqn:Hc1; [|discriminate H].
    destruct (scan_once fuel (skip_ws r1)) as [v r2|] eqn:Hv; [|discriminate H].
    destruct (IHs _ _ _ Hv) as [Hr2 Hf2].
    pose proof (length_skip_ws r1) as Hl1.
    cbv zeta in H.
    destruct (skip_ws r2) as [|c2 r3] eqn:Hw2; [discriminate H|].
    apply skip_ws_cons in Hw2 as Hl2.
    destruct (Ascii.eqb c2 ",") eqn:Hc2.
    + destruct (object_items fuel (skip_ws r3)) as [kvs rest|] eqn:Ha; [|discriminate H].
      injection H as <- <-. destruct (IHo _ _ _ Ha) as [Hr Hf'].
      pose proof (length_skip_ws r3) as Hl3.
      split; [simpl; lia|]. intros f Hf. destruct f as [|f]; [simpl in Hf; lia|].
      simpl in Hf. cbn [object_items]. rewrite Hq, Hk, Hw0, Hc1.
      rewrite Hf2 by lia. cbv zeta. rewrite Hw2, Hc2, Hf' by lia. reflexivity.
    + destruct (Ascii.eqb c2 "}") eqn:Hc2'; [|discriminate H].
      injection H as <- <-. split; [simpl; lia|].
      intros f Hf. destruct f as [|f]; [simpl in Hf; lia|].
      simpl in Hf. cbn [object_items]. rewrite Hq, Hk, Hw0, Hc1.
      rewrite Hf2 by lia. cbv zeta. rewrite Hw2, Hc2, Hc2'. reflexivity.
Qed.

(** More fuel than [loads] starts with changes nothing: where the
    model says [JSONDecodeError], no amount of fuel reads a value. *)
Theorem scan_once_fuel (text : string) (fuel : nat) :
  (String.length text < fuel)%nat ->
  scan_once fuel text = scan_once (S (String.length text)) text.
Proof.
  intros Hfuel.
  destruct (scan_once fuel text) as [a r|] eqn:H1.
  - destruct (settled_all fuel) as (Hs & _). destruct (Hs _ _ _ H1) as [Hr Hf].
    symmetry. apply Hf. lia.
  - destruct (scan_once (S (String.length text)) text) as [a r|] eqn:H2; [|reflexivity].
    destruct (settled_all (S (String.length text))) as (Hs & _).
    destruct (Hs _ _ _ H2) as [Hr Hf]. rewrite Hf in H1 by lia. discriminate H1.
Qed.


Theorem loads_fuel (text : string) (fuel : nat) :
  (String.length text < fuel)%nat -> loads_with fuel text = loads text.
Proof.
  intros Hfuel. unfold loads, loads_with.
  pose proof (length_skip_ws text) as Hl.
  rewrite (scan_once_fuel (skip_ws text) fuel) by lia.
  rewrite (scan_once_fuel (skip_ws text) (S (String.length text))) by lia.
  reflexivity.
Qed.

End FuelFacts.

(** ** [sorted]: the order of the names does not matter *)

Module SortedFacts.

Lemma compare_le_trans (s1 s2 s3 : string) :
  String.compare s1 s2 <> Gt -> String.compare s2 s3 <> Gt ->
  String.compare s1 s3 <> Gt.
Proof.
  revert s2 s3.
  induction s1 as [|a s1 IH]; intros [|b s2] [|c s3]; simpl; try congruence.
  unfold Ascii.compare.
  destruct (N.compare_spec (N_of_ascii a) (N_of_ascii b)) as [Hab|Hab|Hab];
    destruct (N.compare_spec (N_of_ascii b) (N_of_ascii c)) as [Hbc|Hbc|Hbc];
    destruct (N.compare_spec (N_of_ascii a) (N_of_ascii c)) as [Hac|Hac|Hac];
    try congruence; try lia.
  apply IH.
Qed.

Lemma leb_trans (s1 s2 s3 : string) :
  String.leb s1 s2 = true -> String.leb s2 s3 = true -> String.leb s1 s3 = true.
Proof.
  unfold String.leb. intros H12 H23.
  pose proof (compare_le_trans s1 s2 s3) as H.
  destruct (String.compare s1 s2), (String.compare s2 s3), (String.compare s1 s3);
    try reflexivity; try discriminate; exfalso; apply H; congruence.
Qed.

Lemma leb_false_le (x y : string) : String.leb x y = false -> String.leb y x = true.
Proof.
  intros H. destruct (String.leb_total x y) as [H'|H']; congruence.
Qed.

Lemma insert_sorted_comm (x y : string) (l : list string) :
  insert_sorted x (insert_sorted y l) = insert_sorted y (insert_sorted x l).
Proof.
  induction l as [|a l IH]; simpl.
  - destruct (String.leb x y) eqn:Hxy, (String.leb y x) eqn:Hyx; try reflexivity.
    + rewrite (String.leb_antisym _ _ Hxy Hyx). reflexivity.
    + apply leb_false_le in Hxy. congruence.
  - destruct (String.leb y a) eqn:Hya, (String.leb x a) eqn:Hxa; simpl;
      rewrite ?Hya, ?Hxa.
    + destruct (String.leb x y) eqn:Hxy, (String.leb y x) eqn:Hyx; try reflexivity.
      * rewrite (String.leb_antisym _ _ Hxy Hyx). reflexivity.
      * apply leb_false_le in Hxy. congruence.
    + destruct (String.leb x y) eqn:Hxy.
      * rewrite (leb_trans _ _ _ Hxy Hya) in Hxa. discriminate.
      * reflexivity.
    + destruct (String.leb y x) eqn:Hyx.
      * rewrite (leb_trans _ _ _ Hyx Hxa) in Hya. discriminate.
      * reflexivity.
    + rewrite IH. reflexivity.
Qed.

Lemma sorted_Permutation (l1 l2 : list string) :
  Permutation l1 l2 -> sorted l1 = sorted l2.
Proof.
  induction 1 as [|x l l' _ IH|x y l|l l' l'' _ IH1 _ IH2]; simpl.
  - reflexivity.
  - rewrite IH. reflexivity.
  - apply insert_sorted_comm.
  - congruence.
Qed.

(** [sorted] is a sort: the same names, in ascending order. *)
Lemma insert_sorted_Permutation (x : string) (l : list string) :
  Permutation (x :: l) (insert_sorted x l).
Proof.
  induction l as [|a l IH]; simpl; [reflexivity|].
  destruct (String.leb x a); [reflexivity|].
  rewrite perm_swap. now apply perm_skip.
Qed.

Lemma sorted_is_Permutation (l : list string) : Permutation l (sorted l).
Proof.
  induction l as [|x l IH]; simpl; [reflexivity|].
  rewrite <- insert_sorted_Permutation. now apply perm_skip.
Qed.

Lemma insert_sorted_ascending (x : string) (l : list string) :
  Words.ascending l -> Words.ascending (insert_sorted x l).
Proof.
  unfold Words.ascending. induction 1 as [|a l Hl IH Ha]; simpl.
  - repeat constructor.
  - destruct (String.leb x a) eqn:Hxa.
    + repeat constructor; assumption.
    + constructor; [exact IH|].
      destruct Ha as [|b l Hab]; simpl.
      * constructor. now apply leb_false_le.
      * destruct (String.leb x b); constructor; auto using leb_false_le.
Qed.

Lemma sorted_ascending (l : list string) : Words.ascending (sorted l).
Proof.
  induction l as [|x l IH]; simpl; [constructor | now apply insert_sorted_ascending].
Qed.

End SortedFacts.

(** ** [validate_raw_data_schema] *)

Module ValidateFacts.
Import Pandas Models Compute Main Words.

Lemma missing_columns_spec (raw_data : DataFrame) (schema : Schema) (c : string) :
  c ∈ missing_columns raw_data schema
  <-> In c (get_default (required_columns schema) []) /\ ~ In c (columns raw_data).
Proof.
  unfold missing_columns.
  rewrite elem_of_difference, !elem_of_list_to_set, !list_elem_of_In. reflexivity.
Qed.

Lemma conforms_numeric (c : Column) :
  conforms c "numeric" = true <-> col_dtype c <> object_.
Proof.
  unfold conforms, is_numeric_dtype. simpl.
  destruct (col_dtype c); split; intros H; congruence.
Qed.

Lemma conforms_string (c : Column) :
  conforms c "string" = true <-> col_dtype c = object_.
Proof.
  unfold conforms, is_string_dtype, is_object_dtype. simpl.
  destruct (col_dtype c); simpl; split; intros H; try congruence.
  apply orb_true_r.
Qed.

Lemma check_column_types_step (raw_data : DataFrame) (col expected : string)
    (rest : list (string * string)) (c : Column) :
  get_column raw_data col = Some c ->
  check_column_types raw_data ((col, expected) :: rest)
  = if conforms c expected then check_column_types raw_data rest
    else Some (ValueError
                 (Text ("Column " ++ col ++ " expected " ++ expected ++ " type, got "
                          ++ dtype_name (col_dtype c)))).
Proof.
  intros Hc. simpl. rewrite Hc. unfold conforms.
  destruct (String.eqb_spec expected "numeric") as [->|Hn].
  - simpl. destruct (is_numeric_dtype c); reflexivity.
  - simpl. destruct (String.eqb_spec expected "string") as [->|Hs].
    + simpl. destruct (is_string_dtype c); simpl; [reflexivity|].
      destruct (is_object_dtype c); reflexivity.
    + reflexivity.
Qed.

Lemma check_column_types_None (raw_data : DataFrame) (types : list (string * string)) :
  check_column_types raw_data types = None
  <-> forall col expected c,
        In (col, expected) types -> get_column raw_data col = Some c ->
        conforms c expected = true.
Proof.
  induction types as [|[col expected] rest IH].
  - split; [intros _ ? ? ? []|reflexivity].
  - destruct (get_column raw_data col) as [c|] eqn:Hc.
    + rewrite (check_column_types_step _ _ _ _ _ Hc).
      destruct (conforms c expected) eqn:Hconf.
      * rewrite IH. split.
        -- intros H col' e' c' [Heq|Hin] Hc'; [|eauto].
           injection Heq as <- <-. congruence.
        -- intros H col' e' c' Hin. apply H. now right.
      * split; [discriminate|]. intros H.
        specialize (H col expected c (or_introl eq_refl) Hc). congruence.
    + simpl. rewrite Hc, IH. split.
      * intros H col' e' c' [Heq|Hin] Hc'; [|eauto].
        injection Heq as <- <-. congruence.
      * intros H col' e' c' Hin. apply H. now right.
Qed.

Lemma check_column_types_Some (raw_data : DataFrame) (types : list (string * string))
    (e : exn) :
  check_column_types raw_data types = Some e ->
  exists col expected c,
    In (col, expected) types /\ get_column raw_data col = Some c
    /\ conforms c expected = false
    /\ e = ValueError
             (Text ("Column " ++ col ++ " expected " ++ expected ++ " type, got "
                      ++ dtype_name (col_dtype c))).
Proof.
  induction types as [|[col expected] rest IH]; [discriminate|].
  destruct (get_column raw_data col) as [c|] eqn:Hc.
  - rewrite (check_column_types_step _ _ _ _ _ Hc).
    destruct (conforms c expected) eqn:Hconf.
    + intros H. destruct (IH H) as (col' & e' & c' & Hin & Hrest).
      exists col', e', c'. split; [now right | exact Hrest].
    + intros H. injection H as <-. exists col, expected, c.
      repeat split; auto. now left.
  - simpl. rewrite Hc. intros H.
    destruct (IH H) as (col' & e' & c' & Hin & Hrest).
    exists col', e', c'. split; [now right | exact Hrest].
Qed.

(** Once a cell that is no number has been seen, the column is an
    object column. *)
Lemma see_object_sticky (cells : list PyVal) (s : Seen) :
  sobject_ s = true -> sobject_ (fold_left see cells s) = true.
Proof.
  revert s. induction cells as [|v cells IH]; intros s Hs; [exact Hs|].
  simpl. apply IH. unfold see. destruct s. simpl in Hs. subst. reflexivity.
Qed.

Lemma see_not_numeric (s : Seen) (v : PyVal) :
  numeric_cell v = false -> sobject_ (see s v) = true.
Proof.
  intros Hv. unfold see. destruct s as [? ? ? ? ? ? ? []]; [reflexivity|].
  destruct v as [[]| |]; try discriminate Hv; reflexivity.
Qed.

Lemma fold_see_numeric (cells : list PyVal) (s : Seen) :
  sobject_ (fold_left see cells s) = false -> forallb numeric_cell cells = true.
Proof.
  revert s. induction cells as [|v cells IH]; intros s H; [reflexivity|].
  simpl in *. destruct (numeric_cell v) eqn:Hv.
  - simpl. eapply IH, H.
  - rewrite see_object_sticky in H; [discriminate|]. now apply see_not_numeric.
Qed.

Lemma infer_dtype_numeric (cells : list PyVal) :
  infer_dtype cells <> object_ -> forallb numeric_cell cells = true.
Proof.
  unfold infer_dtype, dtype_of_seen. intros H.
  destruct (sobject_ (fold_left see cells nothing_seen)) eqn:Hs; [congruence|].
  eapply fold_see_numeric, Hs.
Qed.

End ValidateFacts.

(** ** Storing and the session *)

Module StoreFacts.
Import Pandas Models Compute Main Words.

Lemma store_loop_committed (items : Series) (s : Session) (id : Z) :
  committed (fst (store_loop s id items)) = committed s.
Proof.
  revert s. induction items as [|[entity value] items IH]; intros s; [reflexivity|].
  cbn [store_loop]. destruct (bound "FeatureValue"); [|reflexivity].
  rewrite IH. reflexivity.
Qed.

Lemma store_failure_committed (now : Z) (s s' : Session) (id : Z) (items : Series)
    (e : exn) :
  store_feature_values now s id items = (s', Some e) -> committed s' = committed s.
Proof.
  unfold store_feature_values.
  pose proof (store_loop_committed items s id) as H.
  destruct (store_loop s id items) as [s0 [e0|]]; intros Heq; [|discriminate Heq].
  injection Heq as <- _. exact H.
Qed.

Lemma le_next_id (ids : list Z) (i : Z) : In i ids -> i < next_id ids.
Proof.
  unfold next_id. induction ids as [|j ids IH]; intros []; simpl.
  - subst. lia.
  - specialize (IH H). lia.
Qed.

Lemma filter_none {A} (f : A -> bool) (l : list A) :
  (forall x, In x l -> f x = false) -> List.filter f l = [].
Proof.
  induction l as [|x l IH]; intros H; [reflexivity|].
  simpl. rewrite (H x (or_introl eq_refl)). apply IH. intros y Hy. apply H. now right.
Qed.

Lemma prepend_store_not_compute (m m' : message) :
  prepend "Feature computation failed: " m'
  <> prepend "Failed to store feature values: " m.
Proof.
  destruct m, m'; intros H; cbv in H; discriminate H.
Qed.

Lemma prepend_store_not_internal (m : message) :
  Text "Internal Server Error" <> prepend "Failed to store feature values: " m.
Proof.
  destruct m; intros H; cbv in H; discriminate H.
Qed.

End StoreFacts.

(** ** Resolving the latest version and building the vector *)

Module ResolveFacts.
Import Pandas Models Compute Cache Main Words.

Lemma is_active_of_spec (id : Z) (v : FeatureVersion) :
  is_active_of id v = true <-> feature_id v = id /\ status v = "active".
Proof.
  unfold is_active_of. rewrite andb_true_iff, Z.eqb_eq, String.eqb_eq. reflexivity.
Qed.

Lemma insert_desc_In (v x : FeatureVersion) (l : list FeatureVersion) :
  In x (insert_desc v l) <-> x = v \/ In x l.
Proof.
  induction l as [|a l IH]; simpl.
  - intuition.
  - destruct (computed_at a <=? computed_at v); simpl; [intuition|].
    rewrite IH. intuition.
Qed.

Lemma order_by_In (x : FeatureVersion) (l : list FeatureVersion) :
  In x (order_by_computed_at_desc l) <-> In x l.
Proof.
  induction l as [|a l IH]; simpl; [reflexivity|].
  rewrite insert_desc_In, IH. intuition.
Qed.

(** The first of the ordered versions is a latest one. *)
Lemma head_order_by (l : list FeatureVersion) :
  match List.head (order_by_computed_at_desc l) with
  | None => l = []
  | Some h => latest_of l h
  end.
Proof.
  induction l as [|v l IH]; [reflexivity|].
  simpl. destruct (order_by_computed_at_desc l) as [|h s] eqn:Hs; simpl in *.
  - subst l. split; [now left|]. intros u [<-|[]]. lia.
  - destruct IH as [Hin Hmax].
    destruct (computed_at h <=? computed_at v) eqn:Hle; simpl.
    + apply Z.leb_le in Hle. split; [now left|].
      intros u [<-|Hu]; [lia|]. specialize (Hmax u Hu). lia.
    + apply Z.leb_gt in Hle. split; [now right|].
      intros u [<-|Hu]; [lia|]. exact (Hmax u Hu).
Qed.

Lemma latest_version_None (d : Db) (id : Z) :
  latest_version d id = None
  <-> forall v, In v (feature_versions d) -> is_active_of id v = false.
Proof.
  unfold latest_version.
  pose proof (head_order_by (List.filter (is_active_of id) (feature_versions d))) as H.
  destruct (List.head _) as [h|]; split.
  - discriminate.
  - intros Hall. destruct H as [Hin _]. apply filter_In in Hin as [Hin Hact].
    rewrite (Hall h Hin) in Hact. discriminate.
  - intros _ v Hv. destruct (is_active_of id v) eqn:Hact; [|reflexivity].
    assert (Hin : In v (List.filter (is_active_of id) (feature_versions d)))
      by (apply filter_In; auto).
    rewrite H in Hin. destruct Hin.
  - reflexivity.
Qed.

Lemma latest_version_Some (d : Db) (id : Z) (v : FeatureVersion) :
  latest_version d id = Some v ->
  In v (feature_versions d) /\ feature_id v = id /\ status v = "active"
  /\ forall u, In u (feature_versions d) -> is_active_of id u = true ->
               computed_at u <= computed_at v.
Proof.
  unfold latest_version. intros Hv.
  pose proof (head_order_by (List.filter (is_active_of id) (feature_versions d))) as H.
  rewrite Hv in H. destruct H as [Hin Hmax].
  apply filter_In in Hin as [Hin Hact]. apply is_active_of_spec in Hact as [Hf Hs].
  repeat split; auto. intros u Hu Hua. apply Hmax, filter_In. auto.
Qed.

Lemma latest_version_strict (d : Db) (id : Z) (v : FeatureVersion) :
  In v (feature_versions d) -> is_active_of id v = true ->
  (forall u, In u (feature_versions d) -> is_active_of id u = true ->
             u = v \/ computed_at u < computed_at v) ->
  latest_version d id = Some v.
Proof.
  intros Hin Hact Hstrict.
  destruct (latest_version d id) as [h|] eqn:Hl.
  - destruct (latest_version_Some d id h Hl) as (Hh & Hf & Hs & Hmax).
    specialize (Hmax v Hin Hact).
    assert (Hha : is_active_of id h = true) by (apply is_active_of_spec; auto).
    f_equal. destruct (Hstrict h Hh Hha) as [->|Hlt]; [reflexivity | lia].
  - rewrite latest_version_None in Hl. rewrite (Hl v Hin) in Hact. discriminate.
Qed.

Lemma latest_result_In (d : Db) (entity : string) (feature : Feature)
    (r : FeatureValue * FeatureVersion * Feature) :
  In r (latest_result d entity feature)
  <-> exists latest val,
        r = (val, latest, feature)
        /\ latest_version d (f_id feature) = Some latest
        /\ feature_value_of d (fv_id latest) entity = Some val.
Proof.
  unfold latest_result.
  destruct (latest_version d (f_id feature)) as [latest|] eqn:Hlatest.
  - destruct (feature_value_of d (fv_id latest) entity) as [val|] eqn:Hval; simpl.
    + split.
      * intros [<-|[]]. eauto.
      * intros (l & x & Hr & Hl & Hx). subst r.
        injection Hl as Hl. subst l. rewrite Hval in Hx. injection Hx as Hx. subst.
        left. reflexivity.
    + split; [intros []|]. intros (l & x & _ & Hl & Hx).
      injection Hl as Hl. subst l. rewrite Hval in Hx. discriminate.
  - split; [intros []|]. intros (l & x & _ & Hl & _). discriminate.
Qed.

Lemma latest_results_In (d : Db) (entity : string) (names : option (list string))
    (r : FeatureValue * FeatureVersion * Feature) :
  In r (latest_results d entity names)
  <-> exists feature latest val,
        r = (val, latest, feature)
        /\ In feature (features d) /\ named names feature = true
        /\ latest_version d (f_id feature) = Some latest
        /\ feature_value_of d (fv_id latest) entity = Some val.
Proof.
  unfold latest_results. rewrite in_flat_map. split.
  - intros (feature & Hf & Hr). apply filter_In in Hf as [Hf Hn].
    apply latest_result_In in Hr as (latest & val & -> & Hl & Hv).
    exists feature, latest, val. auto.
  - intros (feature & latest & val & -> & Hf & Hn & Hl & Hv).
    exists feature. split; [apply filter_In; auto|].
    apply latest_result_In. eauto.
Qed.

Lemma put_lookup (m : FeatureVector) (r : FeatureValue * FeatureVersion * Feature)
    (name : string) :
  put m r !! name
  = if decide (f_name (feature_of r) = name)
    then Some (parse_value (value (value_of r))) else m !! name.
Proof.
  destruct r as [[val ver] f]. unfold put, feature_of, value_of. simpl.
  destruct (decide (f_name f = name)) as [<-|Hne].
  - apply lookup_insert_eq.
  - apply lookup_insert_ne, Hne.
Qed.

Lemma fold_put_is_Some (rs : results) (m : FeatureVector) (name : string) :
  is_Some (fold_left put rs m !! name)
  <-> is_Some (m !! name) \/ exists r, In r rs /\ f_name (feature_of r) = name.
Proof.
  revert m. induction rs as [|r rs IH]; intros m; simpl.
  - split; [auto|]. intros [H|(r & [] & _)]. exact H.
  - rewrite IH, put_lookup. destruct (decide (f_name (feature_of r) = name)) as [He|Hne].
    + split; [|intros _; left; eauto]. intros _. right. exists r. auto.
    + split.
      * intros [H|(r' & Hr' & Hn)]; [auto|]. right. exists r'. auto.
      * intros [H|(r' & [<-|Hr'] & Hn)]; [auto|congruence|]. right. eauto.
Qed.

Lemma fold_put_agree (rs : results) (m : FeatureVector) (name : string)
    (x : Json.Decoded) :
  (forall r, In r rs -> f_name (feature_of r) = name ->
             parse_value (value (value_of r)) = x) ->
  (m !! name = Some x \/ exists r, In r rs /\ f_name (feature_of r) = name) ->
  fold_left put rs m !! name = Some x.
Proof.
  revert m. induction rs as [|r rs IH]; intros m Hall Hex; simpl.
  - destruct Hex as [H|(r & [] & _)]. exact H.
  - apply IH; [intros r' Hr'; apply Hall; now right|].
    rewrite put_lookup. destruct (decide (f_name (feature_of r) = name)) as [He|Hne].
    + left. f_equal. apply Hall; [now left | exact He].
    + destruct Hex as [H|(r' & [<-|Hr'] & Hn)]; [auto|congruence|]. right. eauto.
Qed.

Lemma build_vector_fold (rs : results) : build_vector rs = fold_left put rs ∅.
Proof. reflexivity. Qed.


End ResolveFacts.

(** * The properties of the specification *)

Import Pandas Models Compute Cache Main Shape Words.

(** C1 does not hold of the code.  Whenever [compute_feature_version]
    answers that storing the values failed, the version it created is
    still committed, active, and has no value: [db.commit()] made it
    durable before [store_feature_values] ran, and [db.rollback()] only
    drops what was added after that commit. *)
Theorem C1_storage_failure_leaves_orphan_version
    (py_exec : Interp) (now : Z) (w w' : World) (id : Z)
    (request : FeatureVersionCompute) (m : message) :
  referential (db w) ->
  compute_feature_version py_exec now w id request
  = (HTTPException 500 (prepend "Failed to store feature values: " m), w') ->
  let created :=
    version_row now (db w) id (rq_version request) "active" (rq_metadata request) in
  feature_versions (db w') = (feature_versions (db w) ++ [created])%list
  /\ status created = "active"
  /\ values_of (db w') created = [].
Proof.
  intros Href H created. unfold compute_feature_version in H.
  destruct (find_feature (db w) id) as [feature|]; [|discriminate H].
  destruct (find_version (db w) id (rq_version request)); [discriminate H|].
  destruct (to_dataframe request) as [df|e]; [|discriminate H].
  destruct (raw_table_of (db w) feature) as [raw_table|].
  2: { injection H as H _. exfalso. exact (StoreFacts.prepend_store_not_internal m H). }
  destruct (validate_raw_data_schema df (schema_definition raw_table)) as [ok|e].
  2: { destruct (is_ValueError e); [discriminate H|].
       injection H as H _. exfalso. exact (StoreFacts.prepend_store_not_internal m H). }
  destruct (compute_feature py_exec id (rq_version request) df
              (computation_logic feature)) as [feature_values|e].
  2: { injection H as H _. exfalso. exact (StoreFacts.prepend_store_not_compute m _ H). }
  fold created in H.
  destruct (store_feature_values now _ (fv_id created) feature_values)
    as [session' [e|]] eqn:Hstore; [|discriminate H].
  apply StoreFacts.store_failure_committed in Hstore.
  injection H as _ <-. simpl db. rewrite Hstore. simpl.
  split; [reflexivity|]. split; [reflexivity|].
  unfold values_of. simpl.
  apply StoreFacts.filter_none. intros val Hval. apply Z.eqb_neq.
  pose proof (StoreFacts.le_next_id _ _ (Href val Hval)). simpl. lia.
Qed.

(** C1 at the two records of the scenario: the version [v1] stays, with
    no value. *)
Lemma C1_witness :
  feature_versions
    (db (snd (compute_feature_version Sample.sums 100 Sample.fresh 1 Sample.submit_v1)))
  = [mkFeatureVersion 1 1 "v1" "active" 100 None]
  /\ values_of
       (db (snd (compute_feature_version Sample.sums 100 Sample.fresh 1 Sample.submit_v1)))
       (mkFeatureVersion 1 1 "v1" "active" 100 None)
     = [].
Proof.
  assert (Href : referential (db Sample.fresh)) by (intros val []).
  destruct (C1_storage_failure_leaves_orphan_version
              Sample.sums 100 Sample.fresh
              (snd (compute_feature_version Sample.sums 100 Sample.fresh 1 Sample.submit_v1))
              1 Sample.submit_v1 (Text "name 'FeatureValue' is not defined")
              Href eq_refl) as (H1 & _ & H3).
  split; [exact H1 | exact H3].
Defined.






(** C5, as stated, fails on the code.  Both batches below hold only
    numeric-coercible amounts, the texts [5] and [7] in the first and
    the integer [2^70] in the second; each makes an object column, and
    validation rejects it as not numeric. *)
Lemma C5_counterexample :
  (exists df c,
     to_dataframe Sample.submit_texts = inl df
     /\ get_column df "amount" = Some c
     /\ forallb numeric_coercible (col_values c) = true
     /\ validate_raw_data_schema df (schema_definition Sample.transactions)
        = inr (ValueError (Text "Column amount expected numeric type, got object")))
  /\ (exists df c,
        to_dataframe Sample.submit_large = inl df
        /\ get_column df "amount" = Some c
        /\ forallb numeric_coercible (col_values c) = true
        /\ validate_raw_data_schema df (schema_definition Sample.transactions)
           = inr (ValueError (Text "Column amount expected numeric type, got object"))).
Proof.
  split; eexists _, _; repeat split; reflexivity.
Qed.

(** C5, amended.  Validation checks the dtype of a column, not its
    values.  With no required column missing, validation passes exactly
    when every column that has a declared type and is present in the
    batch conforms; otherwise it fails with an error that names such a
    column, the expected type and the dtype found.  A [numeric] column
    conforms exactly when its dtype is not [object], which, in a table
    built from records, implies that every cell is a number, a boolean
    or missing; a [string] column conforms exactly when its dtype is
    [object], whatever its cells hold. *)
Theorem C5_validation_checks_dtypes (raw_data : DataFrame) (schema : Schema) :
  missing_columns raw_data schema = ∅ ->
  let types := get_default (column_types schema) [] in
  (validate_raw_data_schema raw_data schema = inl true
   <-> forall col expected c,
         In (col, expected) types -> get_column raw_data col = Some c ->
         conforms c expected = true)
  /\ (forall e,
        validate_raw_data_schema raw_data schema = inr e ->
        exists col expected c,
          In (col, expected) types /\ get_column raw_data col = Some c
          /\ conforms c expected = false
          /\ e = ValueError
                   (Text ("Column " ++ col ++ " expected " ++ expected
                            ++ " type, got " ++ dtype_name (col_dtype c))))
  /\ (forall c, conforms c "numeric" = true <-> col_dtype c <> object_)
  /\ (forall c, conforms c "string" = true <-> col_dtype c = object_)
  /\ (forall records key,
        conforms (column_of records key) "numeric" = true ->
        forallb numeric_cell (col_values (column_of records key)) = true).
Proof.
  intros Hmissing types. unfold validate_raw_data_schema.
  rewrite Hmissing. rewrite bool_decide_eq_true_2 by reflexivity. fold types.
  repeat split.
  - intros H. apply ValidateFacts.check_column_types_None.
    destruct (check_column_types raw_data types); [discriminate | reflexivity].
  - intros H. apply ValidateFacts.check_column_types_None in H. rewrite H. reflexivity.
  - intros e H.
    destruct (check_column_types raw_data types) as [e'|] eqn:Hc; [|discriminate].
    injection H as <-. eapply ValidateFacts.check_column_types_Some, Hc.
  - apply ValidateFacts.conforms_numeric.
  - apply ValidateFacts.conforms_numeric.
  - apply ValidateFacts.conforms_string.
  - apply ValidateFacts.conforms_string.
  - intros records key H. apply ValidateFacts.conforms_numeric in H.
    apply ValidateFacts.infer_dtype_numeric. exact H.
Qed.

(** C5 on the batch of the two integer amounts. *)
Lemma C5_witness :
  validate_raw_data_schema
    (mkDataFrame [Atom (PyStr "x"); Atom (PyStr "x")]
       [mkColumn "amount" int64 [Atom (PyInt 5); Atom (PyInt 7)]])
    (schema_definition Sample.transactions)
  = inl true.
Proof.
  refine (proj2 (proj1 (C5_validation_checks_dtypes _ _ _)) _).
  - reflexivity.
  - intros col expected c [Heq|[]] Hc. injection Heq as <- <-.
    injection Hc as <-. reflexivity.
Defined.




(** C7.  Cache key derivation does not depend on the order of the
    feature names: for every entity, every version and any two lists of
    names that are permutations of each other, [_make_key] gives the
    same key, so both requests read the same cache entry. *)
Theorem C7_make_key_order_independent
    (e : string) (names1 names2 : list string) (v : option string) :
  Permutation names1 names2 ->
  _make_key e (Some names1) v = _make_key e (Some names2) v
  /\ forall (self : FeatureCache) (now : Z),
       fst (Cache.get self now e (Some names1) v)
       = fst (Cache.get self now e (Some names2) v).
Proof.
  intros Hperm.
  assert (Hkey : key_str e (Some names1) v = key_str e (Some names2) v).
  { unfold key_str.
    assert (Ht : truthy_list (Some names1) = truthy_list (Some names2)).
    { destruct names1 as [|a l1], names2 as [|b l2]; try reflexivity.
      - apply Permutation_nil in Hperm. discriminate.
      - symmetry in Hperm. apply Permutation_nil in Hperm. discriminate. }
    rewrite Ht. simpl get_default.
    rewrite (SortedFacts.sorted_Permutation names1 names2 Hperm). reflexivity. }
  assert (Hmk : _make_key e (Some names1) v = _make_key e (Some names2) v).
  { unfold _make_key. rewrite Hkey. reflexivity. }
  split; [exact Hmk|].
  intros self now. unfold Cache.get. rewrite Hmk. reflexivity.
Qed.

(** C7 at the lists of the spec: [b, a] and [a, b]. *)
Lemma C7_witness :
  _make_key "x" (Some ["b"; "a"]) (Some "v1") = _make_key "x" (Some ["a"; "b"]) (Some "v1").
Proof.
  exact (proj1 (C7_make_key_order_independent "x" ["b"; "a"] ["a"; "b"] (Some "v1")
                  (perm_swap "a" "b" []))).
Defined.



(** C9.  [compute_feature_version] leaves the cache as it was, whatever
    it answers; so a request whose entry is in the cache and live is
    answered after the computation as before it, with the cached
    vector. *)
Theorem C9_compute_leaves_cache
    (py_exec : Interp) (now : Z) (w : World) (id : Z)
    (request : FeatureVersionCompute)
    (later : Z) (ask : FeatureVectorRequest) (cached : FeatureVector) :
  fst (Cache.get (the_cache w) later (rq_entity_id ask) (rq_feature_names ask)
                 (rq_feature_version ask)) = Some cached ->
  cached <> ∅ ->
  let w' := snd (compute_feature_version py_exec now w id request) in
  the_cache w' = the_cache w
  /\ fst (get_feature_vector later w' ask)
     = Returned (mkFeatureVectorResponse (rq_entity_id ask) cached later)
  /\ fst (get_feature_vector later w' ask) = fst (get_feature_vector later w ask).
Proof.
  intros Hget Hne w'.
  assert (Hcache : the_cache w' = the_cache w).
  { unfold w', compute_feature_version. repeat case_match; reflexivity. }
  assert (Hans : forall u, the_cache u = the_cache w ->
            fst (get_feature_vector later u ask)
            = Returned (mkFeatureVectorResponse (rq_entity_id ask) cached later)).
  { intros u Hu. unfold get_feature_vector. rewrite Hu.
    destruct (Cache.get (the_cache w) later (rq_entity_id ask) (rq_feature_names ask)
                (rq_feature_version ask)) as [found c].
    simpl in Hget. subst found. simpl truthy_dict.
    rewrite bool_decide_eq_true_2 by exact Hne. reflexivity. }
  split; [exact Hcache|]. split; [apply Hans, Hcache|].
  rewrite (Hans w' Hcache), (Hans w eq_refl). reflexivity.
Qed.

(** C9 in the scenario: the vector of [x] is resolved and cached at
    time 5, a version [v3] of [total] is computed at time 30, and at
    time 40 the answer is the cached one. *)
Lemma C9_witness :
  fst (get_feature_vector 40
         (snd (compute_feature_version Sample.sums 30 Sample.cached_world 1
                 Sample.submit_v3))
         Sample.ask_x)
  = fst (get_feature_vector 40 Sample.cached_world Sample.ask_x).
Proof.
  refine (proj2 (proj2 (C9_compute_leaves_cache Sample.sums 30 Sample.cached_world 1
                          Sample.submit_v3 40 Sample.ask_x
                          (build_vector (latest_results Sample.served_db "x" None))
                          _ _))).
  - vm_compute. reflexivity.
  - intros H. apply (f_equal (fun m => m !! "total")) in H. vm_compute in H.
    discriminate H.
Defined.

(** C10, as stated, fails for the empty version: an empty string is
    no version to [_make_key], so the key of [("x|", no names, no
    version)] is the digest of [x|] and the key of [("x", no names,
    version "")] the digest of [x]. *)
Lemma C10_counterexample :
  _make_key ("x" ++ "|" ++ "") None None <> _make_key "x" None (Some "").
Proof.
  intros H. vm_compute in H. discriminate H.
Qed.

(** C10, amended.  The key is not injective: for every entity [e] and
    every version [v] that is not empty, the request for entity
    [e|v] with no names and no version and the request for entity [e]
    with no names and version [v] are different requests with the same
    key, so each reads and overwrites the cache entry of the other. *)
Theorem C10_make_key_not_injective (e v : string) :
  v <> "" ->
  e ++ "|" ++ v <> e
  /\ _make_key (e ++ "|" ++ v) None None = _make_key e None (Some v)
  /\ forall (self : FeatureCache) (now : Z) (features : FeatureVector),
       Cache.get self now (e ++ "|" ++ v) None None = Cache.get self now e None (Some v)
       /\ Cache.set self now (e ++ "|" ++ v) features None None
          = Cache.set self now e features None (Some v).
Proof.
  intros Hv.
  assert (Hkey : _make_key (e ++ "|" ++ v) None None = _make_key e None (Some v)).
  { unfold _make_key, key_str. destruct v as [|c v]; [congruence|]. reflexivity. }
  split; [|split; [exact Hkey|]].
  - intros H. apply (f_equal String.length) in H.
    rewrite !JsonFacts.length_append in H. simpl in H. lia.
  - intros self now features. unfold Cache.get, Cache.set. rewrite Hkey. auto.
Qed.

(** C10 at entity [x] and version [v1]. *)
Lemma C10_witness :
  _make_key ("x" ++ "|" ++ "v1") None None = _make_key "x" None (Some "v1").
Proof.
  refine (proj1 (proj2 (C10_make_key_not_injective "x" "v1" _))).
  discriminate.
Defined.

(** The scenario, end to end: the vector of [x] has the value of [v2]
    for [total]; once [v2] is deprecated it has the value of [v1]. *)
Example latest_wins :
  rs_features_of (fst (get_feature_vector 5 Sample.served Sample.ask_x)) !! "total"
  = Some (Json.Value (Atom (PyInt 19)))
  /\ rs_features_of
       (fst (get_feature_vector 5
               (mkWorld Sample.served_db_v2_deprecated feature_cache) Sample.ask_x))
     !! "total"
     = Some (Json.Value (Atom (PyInt 12))).
Proof. split; vm_compute; reflexivity. Qed.

(** * Further properties of the code *)

Import Cachetools Registry Service Consistency.

Module FrameFacts.

Lemma union_keys_In (keys seen : list string) (k : string) :
  In k (union_keys seen keys) <-> In k seen \/ In k keys.
Proof.
  revert seen. induction keys as [|k' keys IH]; intros seen; simpl.
  - tauto.
  - destruct (existsb (String.eqb k') seen) eqn:He.
    + rewrite IH. apply existsb_exists in He as (x & Hx & Heq).
      apply String.eqb_eq in Heq. subst x. split; [tauto|].
      intros [H|[<-|H]]; auto.
    + rewrite IH, in_app_iff. simpl. tauto.
Qed.

Lemma keys_of_In (records : list record) (k : string) :
  In k (keys_of records) <-> exists r, In r records /\ In k (List.map fst r).
Proof.
  unfold keys_of. rewrite union_keys_In, in_concat. split.
  - intros [[]|(ks & Hks & Hk)]. apply in_map_iff in Hks as (r & <- & Hr). eauto.
  - intros (r & Hr & Hk). right. exists (List.map fst r). split; [|exact Hk].
    apply in_map_iff. eauto.
Qed.

Lemma find_None_iff {A} (f : A -> bool) (l : list A) :
  List.find f l = None <-> forall x, In x l -> f x = false.
Proof.
  split; [apply find_none|].
  induction l as [|a l IH]; intros H; [reflexivity|].
  simpl. rewrite (H a (or_introl eq_refl)). apply IH. intros x Hx. apply H. now right.
Qed.



(** The table handed to validation has lost the entity column. *)
Lemma to_dataframe_columns (request : FeatureVersionCompute) (df : DataFrame) :
  to_dataframe request = inl df ->
  ~ In (rq_entity_id_column request) (columns df).
Proof.
  unfold to_dataframe, set_index.
  destruct (get_column _ _) as [c|]; [|discriminate].
  intros H. injection H as <-. unfold columns. simpl.
  rewrite in_map_iff. intros (c' & Hname & Hin).
  apply filter_In in Hin as [_ Hne]. rewrite Hname, String.eqb_refl in Hne.
  discriminate Hne.
Qed.

Lemma store_feature_values_outcome (now : Z) (s : Session) (id : Z) (items : Series) :
  store_feature_values now s id items
  = match items with
    | [] => (commit now s, None)
    | _ :: _ => (s, Some (NameError (Text "name 'FeatureValue' is not defined")))
    end.
Proof. destruct items as [|[entity value] items]; reflexivity. Qed.

End FrameFacts.

Module VersionFacts.
Import FrameFacts.

(** Every way [compute_feature_version] can end: it answers an error
    and leaves the world as it was, or it has committed the version. *)
Lemma compute_feature_version_cases (py_exec : Interp) (now : Z) (w : World) (id : Z)
    (request : FeatureVersionCompute) :
  let created := new_version now (db w) id request in
  let w' := mkWorld (with_version (db w) created) (the_cache w) in
  (exists status_code detail,
     compute_feature_version py_exec now w id request
     = (HTTPException status_code detail, w)
     /\ (status_code = 404 \/ status_code = 400
         \/ status_code = 500
            /\ (detail = Text "Internal Server Error"
                \/ exists m, detail = prepend "Feature computation failed: " m)))
  \/ (exists feature,
        find_feature (db w) id = Some feature
        /\ find_version (db w) id (rq_version request) = None
        /\ (compute_feature_version py_exec now w id request = (Returned created, w')
            \/ compute_feature_version py_exec now w id request
               = (HTTPException 500
                    (Text "Failed to store feature values: name 'FeatureValue' is not defined"),
                  w'))).
Proof.
  intros created w'. unfold compute_feature_version.
  destruct (find_feature (db w) id) as [feature|] eqn:Hf; [|left; eauto 6].
  destruct (find_version (db w) id (rq_version request)) eqn:Hv; [left; eauto 6|].
  destruct (to_dataframe request) as [df|e]; [|left; eauto 6].
  destruct (raw_table_of (db w) feature) as [raw_table|]; [|left; eauto 8].
  destruct (validate_raw_data_schema df (schema_definition raw_table)) as [ok|e].
  2: { destruct (is_ValueError e); left; eauto 8. }
  destruct (compute_feature py_exec id (rq_version request) df
              (computation_logic feature)) as [series|e]; [|left; eauto 10].
  right. exists feature. split; [reflexivity|]. split; [reflexivity|].
  rewrite store_feature_values_outcome. destruct series; [left|right]; reflexivity.
Qed.

Lemma version_created_world (py_exec : Interp) (now : Z) (w : World) (id : Z)
    (request : FeatureVersionCompute) :
  version_created (fst (compute_feature_version py_exec now w id request)) ->
  snd (compute_feature_version py_exec now w id request)
  = mkWorld (with_version (db w) (new_version now (db w) id request)) (the_cache w)
  /\ find_feature (db w) id <> None
  /\ find_version (db w) id (rq_version request) = None.
Proof.
  destruct (compute_feature_version_cases py_exec now w id request)
    as [(code & detail & -> & Hcode)|(feature & Hf & Hv & [->| ->])]; simpl.
  - intros [-> (m & ->)]. exfalso.
    destruct Hcode as [H|[H|[_ [H|(m' & H)]]]]; try discriminate H.
    + exact (StoreFacts.prepend_store_not_internal m (eq_sym H)).
    + exact (StoreFacts.prepend_store_not_compute m m' (eq_sym H)).
  - intros _. rewrite Hf. repeat split; congruence.
  - intros _. rewrite Hf. repeat split; congruence.
Qed.

Lemma find_app_Some {A} (f : A -> bool) (l k : list A) (x : A) :
  List.find f l = Some x -> List.find f (l ++ k) = Some x.
Proof.
  induction l as [|a l IH]; [discriminate|]. simpl.
  destruct (f a); [auto | exact IH].
Qed.

Lemma find_app_None {A} (f : A -> bool) (l k : list A) :
  List.find f l = None -> List.find f (l ++ k) = List.find f k.
Proof.
  induction l as [|a l IH]; [reflexivity|]. simpl.
  destruct (f a); [discriminate | exact IH].
Qed.

End VersionFacts.

Module RegistryFacts.
Import FrameFacts VersionFacts.

Lemma find_feature_In (d : Db) (id : Z) (f : Feature) :
  find_feature d id = Some f -> In f (features d) /\ f_id f = id.
Proof.
  intros H. apply find_some in H as [Hin Hid]. apply Z.eqb_eq in Hid. auto.
Qed.

Lemma find_feature_None (d : Db) (id : Z) :
  find_feature d id = None <-> ~ In id (List.map f_id (features d)).
Proof.
  unfold find_feature. rewrite find_None_iff, in_map_iff. split.
  - intros H (f & Hid & Hin). specialize (H f Hin). apply Z.eqb_neq in H. auto.
  - intros H f Hin. apply Z.eqb_neq. intros Hid. apply H. eauto.
Qed.

Lemma find_raw_table_None (d : Db) (id : Z) :
  find_raw_table d id = None <-> ~ In id (List.map rt_id (raw_tables d)).
Proof.
  unfold find_raw_table. rewrite find_None_iff, in_map_iff. split.
  - intros H (t & Hid & Hin). specialize (H t Hin). apply Z.eqb_neq in H. auto.
  - intros H t Hin. apply Z.eqb_neq. intros Hid. apply H. eauto.
Qed.

Lemma find_raw_table_named_None (d : Db) (name : string) :
  find_raw_table_named d name = None <-> ~ In name (List.map rt_name (raw_tables d)).
Proof.
  unfold find_raw_table_named. rewrite find_None_iff, in_map_iff. split.
  - intros H (t & Hn & Hin). specialize (H t Hin). apply String.eqb_neq in H. auto.
  - intros H t Hin. apply String.eqb_neq. intros Hn. apply H. eauto.
Qed.

Lemma find_version_None (d : Db) (id : Z) (label : string) :
  find_version d id label = None
  <-> ~ In (id, label) (List.map version_key (feature_versions d)).
Proof.
  unfold find_version. rewrite find_None_iff, in_map_iff. split.
  - intros H (v & Hk & Hin). specialize (H v Hin). injection Hk as Hi Hl.
    rewrite Hi, Hl, Z.eqb_refl, String.eqb_refl in H. discriminate H.
  - intros H v Hin. apply andb_false_iff.
    destruct (Z.eqb_spec (feature_id v) id) as [Hi|Hi]; [right|now left].
    apply String.eqb_neq. intros Hl. apply H. exists v. unfold version_key.
    rewrite Hi, Hl. auto.
Qed.




Lemma next_id_fresh (ids : list Z) : ~ In (next_id ids) ids.
Proof. intros H. apply StoreFacts.le_next_id in H. lia. Qed.

Lemma NoDup_snoc {A} (l : list A) (x : A) : NoDup l -> ~ In x l -> NoDup (l ++ [x]).
Proof.
  intros Hl Hx. apply NoDup_app. split; [exact Hl|]. split; [|apply NoDup_singleton].
  intros y Hy Hyx. apply list_elem_of_singleton in Hyx. subst y.
  apply Hx, list_elem_of_In, Hy.
Qed.

End RegistryFacts.

(** ** The cache *)

Module CacheFacts.
Import FrameFacts.

Section Links.

Context {V : Type}.

Lemma find_without (k : string) (ls : list (Link V)) :
  List.find (is_key k) (without k ls) = None.
Proof.
  apply find_None_iff. intros l Hl. apply filter_In in Hl as [_ Hl].
  apply negb_true_iff, Hl.
Qed.

Lemma find_without_snoc (k : string) (ls : list (Link V)) (l : Link V) :
  is_key k l = true -> List.find (is_key k) (without k ls ++ [l]) = Some l.
Proof.
  intros Hl. rewrite VersionFacts.find_app_None by apply find_without.
  simpl. rewrite Hl. reflexivity.
Qed.

Lemma length_without (k : string) (ls : list (Link V)) :
  (length (without k ls) <= length ls)%nat.
Proof.
  induction ls as [|l ls IH]; simpl; [lia|].
  destruct (negb (is_key k l)); simpl; lia.
Qed.

Lemma length_without_key (k : string) (ls : list (Link V)) :
  existsb (is_key k) ls = true -> (length (without k ls) < length ls)%nat.
Proof.
  induction ls as [|l ls IH]; simpl; [discriminate|].
  pose proof (length_without k ls) as Hle. unfold without in *.
  destruct (is_key k l); simpl; [intros _; lia|]. intros H. specialize (IH H). lia.
Qed.

Lemma length_expire (now : Z) (ls : list (Link V)) :
  (length (expire now ls) <= length ls)%nat.
Proof.
  induction ls as [|l ls IH]; simpl; [lia|].
  destruct (live now l); simpl; lia.
Qed.

Lemma get_setitem (c : TTLCache V) (now later : Z) (k : string) (v : V) :
  fst (Cachetools.get (setitem c now k v) later k)
  = if later <? now + ttl c then Some v else None.
Proof.
  unfold Cachetools.get, setitem. simpl links.
  rewrite find_without_snoc by apply String.eqb_refl.
  unfold live. simpl. destruct (later <? now + ttl c); reflexivity.
Qed.

Lemma get_settings (c : TTLCache V) (now : Z) (k : string) :
  maxsize (snd (Cachetools.get c now k)) = maxsize c
  /\ ttl (snd (Cachetools.get c now k)) = ttl c.
Proof.
  unfold Cachetools.get. destruct (List.find (is_key k) (links c)) as [l|]; [|auto].
  destruct (live now l); auto.
Qed.

Lemma length_get (c : TTLCache V) (now : Z) (k : string) :
  (length (links (snd (Cachetools.get c now k))) <= length (links c))%nat.
Proof.
  unfold Cachetools.get.
  destruct (List.find (is_key k) (links c)) as [l|] eqn:Hfind; [|simpl; lia].
  destruct (live now l); [|simpl; lia]. simpl.
  rewrite length_app. simpl.
  assert (H : existsb (is_key k) (links c) = true).
  { apply existsb_exists. exists l. apply find_some in Hfind. exact Hfind. }
  apply length_without_key in H. lia.
Qed.

Lemma length_setitem (c : TTLCache V) (now : Z) (k : string) (v : V) :
  (1 <= maxsize c)%nat -> (length (links c) <= maxsize c)%nat ->
  (length (links (setitem c now k v)) <= maxsize c)%nat.
Proof.
  intros Hpos Hle. unfold setitem. simpl. rewrite length_app. simpl.
  pose proof (length_expire now (links c)) as Hexp.
  destruct (existsb (is_key k) (expire now (links c))) eqn:Hk.
  - apply length_without_key in Hk. lia.
  - pose proof (length_without k
                  (skipn (length (expire now (links c)) + 1 - maxsize c)
                         (expire now (links c)))) as Hw.
    rewrite length_skipn in Hw. lia.
Qed.

(** A key that misses keeps missing as time goes on. *)
Lemma get_miss_later (c : TTLCache V) (now later : Z) (k : string) :
  now <= later ->
  fst (Cachetools.get c now k) = None ->
  fst (Cachetools.get (snd (Cachetools.get c now k)) later k) = None.
Proof.
  intros Hlater. unfold Cachetools.get.
  destruct (List.find (is_key k) (links c)) as [l|] eqn:Hfind.
  - destruct (live now l) eqn:Hlive; [discriminate|]. intros _. simpl.
    rewrite Hfind. unfold live in *. apply Z.ltb_ge in Hlive.
    destruct (later <? link_expires l) eqn:Hl; [|reflexivity].
    apply Z.ltb_lt in Hl. lia.
  - intros _. simpl. rewrite Hfind. reflexivity.
Qed.

(** After a hit, the entry is the one found at any time. *)
Lemma get_hit_later (c : TTLCache V) (now later : Z) (k : string) (v : V) :
  fst (Cachetools.get c now k) = Some v ->
  fst (Cachetools.get (snd (Cachetools.get c now k)) later k) = Some v
  \/ fst (Cachetools.get (snd (Cachetools.get c now k)) later k) = None.
Proof.
  unfold Cachetools.get.
  destruct (List.find (is_key k) (links c)) as [l|] eqn:Hfind; [|discriminate].
  destruct (live now l) eqn:Hlive; [|discriminate]. intros H. injection H as <-.
  simpl. apply find_some in Hfind as [_ Hk]. rewrite (find_without_snoc k _ l Hk).
  destruct (live later l); auto.
Qed.

(** Asked again at the same time, the cache answers as it did. *)
Lemma get_again (c : TTLCache V) (now : Z) (k : string) :
  fst (Cachetools.get (snd (Cachetools.get c now k)) now k)
  = fst (Cachetools.get c now k).
Proof.
  unfold Cachetools.get.
  destruct (List.find (is_key k) (links c)) as [l|] eqn:Hfind.
  - destruct (live now l) eqn:Hlive; simpl.
    + apply find_some in Hfind as [_ Hk]. rewrite (find_without_snoc k _ l Hk), Hlive.
      reflexivity.
    + rewrite Hfind, Hlive. reflexivity.
  - simpl. rewrite Hfind. reflexivity.
Qed.

End Links.

Lemma cache_get_fst (self : FeatureCache) (now : Z) (entity : string)
    (names : option (list string)) (label : option string) :
  Cache.get self now entity names label
  = (fst (Cachetools.get (cache self) now (_make_key entity names label)),
     mkFeatureCache (snd (Cachetools.get (cache self) now (_make_key entity names label)))).
Proof.
  unfold Cache.get. destruct (Cachetools.get _ _ _). reflexivity.
Qed.

(** What [get_feature_vector] does, by the answer of the cache. *)
Lemma get_feature_vector_hit (now : Z) (w : World) (request : FeatureVectorRequest) :
  truthy_dict
    (fst (Cache.get (the_cache w) now (rq_entity_id request)
            (rq_feature_names request) (rq_feature_version request))) = true ->
  get_feature_vector now w request
  = (Returned
       (mkFeatureVectorResponse (rq_entity_id request)
          (get_default
             (fst (Cache.get (the_cache w) now (rq_entity_id request)
                     (rq_feature_names request) (rq_feature_version request))) ∅)
          now),
     mkWorld (db w)
       (snd (Cache.get (the_cache w) now (rq_entity_id request)
               (rq_feature_names request) (rq_feature_version request)))).
Proof.
  unfold get_feature_vector.
  destruct (Cache.get (the_cache w) now (rq_entity_id request)
              (rq_feature_names request) (rq_feature_version request)) as [cached c].
  simpl. intros ->. reflexivity.
Qed.

Lemma get_feature_vector_miss (now : Z) (w : World) (request : FeatureVectorRequest) :
  truthy_dict
    (fst (Cache.get (the_cache w) now (rq_entity_id request)
            (rq_feature_names request) (rq_feature_version request))) = false ->
  let c := snd (Cache.get (the_cache w) now (rq_entity_id request)
                  (rq_feature_names request) (rq_feature_version request)) in
  get_feature_vector now w request
  = (resolved now (db w) request,
     match results_of (db w) request with
     | [] => mkWorld (db w) c
     | rs =>
         mkWorld (db w)
           (Cache.set c now (rq_entity_id request) (build_vector rs)
              (rq_feature_names request) (rq_feature_version request))
     end).
Proof.
  unfold get_feature_vector, resolved, results_of.
  destruct (Cache.get (the_cache w) now (rq_entity_id request)
              (rq_feature_names request) (rq_feature_version request)) as [cached c].
  simpl. intros ->.
  destruct (if truthy_str (rq_feature_version request) then _ else _); reflexivity.
Qed.

(** A vector built from at least one result is not empty. *)
Lemma build_vector_not_empty (r : FeatureValue * FeatureVersion * Feature)
    (rs : results) :
  build_vector (r :: rs) <> ∅.
Proof.
  intros H.
  assert (Hsome : is_Some (build_vector (r :: rs) !! f_name (feature_of r))).
  { rewrite ResolveFacts.build_vector_fold. apply ResolveFacts.fold_put_is_Some.
    right. exists r. split; [now left | reflexivity]. }
  rewrite H, lookup_empty in Hsome. destruct Hsome as [x Hx]. discriminate Hx.
Qed.

(** The rows of the join for an explicit version. *)
Lemma query_version_In (d : Db) (entity label : string) (names : option (list string))
    (val : FeatureValue) (ver : FeatureVersion) (f : Feature) :
  In (val, ver, f) (query_version d entity label names)
  <-> In val (feature_values d) /\ In ver (feature_versions d) /\ In f (features d)
      /\ entity_id val = entity /\ feature_version_id val = fv_id ver
      /\ version ver = label /\ feature_id ver = f_id f
      /\ named names f = true.
Proof.
  unfold query_version. rewrite in_flat_map. split.
  - intros (val' & Hval & H).
    destruct (String.eqb_spec (entity_id val') entity) as [He|]; [|destruct H].
    apply in_flat_map in H as (ver' & Hver & H).
    destruct (Z.eqb_spec (fv_id ver') (feature_version_id val')) as [Hid|];
      [|destruct H].
    destruct (String.eqb_spec (version ver') label) as [Hl|]; [|destruct H].
    simpl in H. apply in_flat_map in H as (f' & Hf & H).
    destruct (Z.eqb_spec (f_id f') (feature_id ver')) as [Hfid|]; [|destruct H].
    destruct (named names f') eqn:Hnamed; [|destruct H].
    destruct H as [H|[]]. injection H as <- <- <-. auto 10.
  - intros (Hval & Hver & Hf & He & Hid & Hl & Hfid & Hnamed).
    exists val. split; [exact Hval|]. rewrite He, String.eqb_refl.
    apply in_flat_map. exists ver. split; [exact Hver|].
    rewrite Hid, Z.eqb_refl, Hl, String.eqb_refl. simpl.
    apply in_flat_map. exists f. split; [exact Hf|].
    rewrite Hfid, Z.eqb_refl, Hnamed. now left.
Qed.

(** Every result is of a feature the request names. *)
Lemma results_of_named (d : Db) (request : FeatureVectorRequest)
    (r : FeatureValue * FeatureVersion * Feature) :
  In r (results_of d request) ->
  In (feature_of r) (features d) /\ named (rq_feature_names request) (feature_of r) = true.
Proof.
  unfold results_of. destruct (truthy_str (rq_feature_version request)).
  - destruct r as [[val ver] f]. rewrite query_version_In. unfold feature_of. simpl.
    tauto.
  - rewrite ResolveFacts.latest_results_In.
    intros (f & latest & val & -> & Hf & Hnamed & _). auto.
Qed.

End CacheFacts.

(** ** The service as a whole *)

Module ServiceFacts.
Import FrameFacts VersionFacts RegistryFacts CacheFacts.

Lemma register_raw_table_db (w : World) (raw_table : RawTableCreate) :
  the_cache (snd (register_raw_table w raw_table)) = the_cache w
  /\ (db (snd (register_raw_table w raw_table)) = db w
      \/ ~ In (rtc_name raw_table) (List.map rt_name (raw_tables (db w)))
         /\ db (snd (register_raw_table w raw_table))
            = with_raw_table (db w)
                (mkRawTable (next_id (List.map rt_id (raw_tables (db w))))
                   (rtc_name raw_table) (rtc_schema_definition raw_table))).
Proof.
  unfold register_raw_table.
  destruct (find_raw_table_named (db w) (rtc_name raw_table)) eqn:Hfind; simpl; [auto|].
  split; [reflexivity|]. right. split; [|reflexivity].
  apply find_raw_table_named_None, Hfind.
Qed.

Lemma create_feature_db (w : World) (feature : FeatureCreate) :
  the_cache (snd (create_feature w feature)) = the_cache w
  /\ (db (snd (create_feature w feature)) = db w
      \/ In (fc_raw_table_id feature) (List.map rt_id (raw_tables (db w)))
         /\ db (snd (create_feature w feature))
            = with_feature (db w)
                (mkFeature (next_id (List.map f_id (features (db w))))
                   (fc_name feature) (fc_raw_table_id feature)
                   (fc_computation_logic feature))).
Proof.
  unfold create_feature.
  destruct (find_raw_table (db w) (fc_raw_table_id feature)) as [t|] eqn:Hfind; simpl;
    [|auto].
  split; [reflexivity|]. right. split; [|reflexivity].
  apply find_some in Hfind as [Hin Hid]. apply Z.eqb_eq in Hid. rewrite <- Hid.
  apply in_map, Hin.
Qed.

Lemma compute_feature_version_db (py_exec : Interp) (now : Z) (w : World) (id : Z)
    (request : FeatureVersionCompute) :
  the_cache (snd (compute_feature_version py_exec now w id request)) = the_cache w
  /\ (db (snd (compute_feature_version py_exec now w id request)) = db w
      \/ In id (List.map f_id (features (db w)))
         /\ ~ In (id, rq_version request)
                 (List.map version_key (feature_versions (db w)))
         /\ db (snd (compute_feature_version py_exec now w id request))
            = with_version (db w) (new_version now (db w) id request)).
Proof.
  destruct (compute_feature_version_cases py_exec now w id request)
    as [(code & detail & -> & _)|(feature & Hf & Hv & [->| ->])]; simpl; auto.
  - split; [reflexivity|]. right. apply find_feature_In in Hf as [Hin <-].
    apply find_version_None in Hv. split; [apply in_map, Hin|]. auto.
  - split; [reflexivity|]. right. apply find_feature_In in Hf as [Hin <-].
    apply find_version_None in Hv. split; [apply in_map, Hin|]. auto.
Qed.

Lemma get_feature_vector_db (now : Z) (w : World) (request : FeatureVectorRequest) :
  db (snd (get_feature_vector now w request)) = db w.
Proof.
  destruct (truthy_dict
              (fst (Cache.get (the_cache w) now (rq_entity_id request)
                      (rq_feature_names request) (rq_feature_version request))))
    eqn:Hhit.
  - rewrite (get_feature_vector_hit now w request Hhit). reflexivity.
  - rewrite (get_feature_vector_miss now w request Hhit). simpl.
    destruct (results_of (db w) request); reflexivity.
Qed.

Lemma In_map_app {A B} (f : A -> B) (l k : list A) (y : B) :
  In y (List.map f l) -> In y (List.map f (l ++ k)).
Proof. rewrite map_app. intros H. apply in_or_app. now left. Qed.

Lemma consistent_with_raw_table (d : Db) (t : RawTable) :
  consistent d ->
  ~ In (rt_id t) (List.map rt_id (raw_tables d)) ->
  ~ In (rt_name t) (List.map rt_name (raw_tables d)) ->
  consistent (with_raw_table d t).
Proof.
  intros [H1 H2 H3 H4 H5 H6 H7 H8] Hid Hname. constructor; simpl; auto.
  - rewrite map_app. apply NoDup_snoc; assumption.
  - rewrite map_app. apply NoDup_snoc; assumption.
  - intros g Hg. simpl. apply In_map_app, H6, Hg.
Qed.

Lemma consistent_with_feature (d : Db) (f : Feature) :
  consistent d ->
  ~ In (f_id f) (List.map f_id (features d)) ->
  In (raw_table_id f) (List.map rt_id (raw_tables d)) ->
  consistent (with_feature d f).
Proof.
  intros [H1 H2 H3 H4 H5 H6 H7 H8] Hid Hrt. constructor; simpl; auto.
  - rewrite map_app. apply NoDup_snoc; assumption.
  - intros g Hg. simpl in *. apply in_app_or in Hg as [Hg|[<-|[]]]; auto.
  - intros v Hv. simpl. apply In_map_app, H7, Hv.
Qed.

Lemma consistent_with_version (d : Db) (v : FeatureVersion) :
  consistent d ->
  ~ In (fv_id v) (List.map fv_id (feature_versions d)) ->
  ~ In (version_key v) (List.map version_key (feature_versions d)) ->
  In (feature_id v) (List.map f_id (features d)) ->
  consistent (with_version d v).
Proof.
  intros [H1 H2 H3 H4 H5 H6 H7 H8] Hid Hkey Hfeature. constructor; simpl; auto.
  - rewrite map_app. apply NoDup_snoc; assumption.
  - rewrite map_app. apply NoDup_snoc; assumption.
  - intros u Hu. simpl in *. apply in_app_or in Hu as [Hu|[<-|[]]]; auto.
  - intros val Hval. simpl in *. apply In_map_app, H8, Hval.
Qed.

Lemma serve_consistent (w : World) (timed : Z * Call) :
  consistent (db w) -> consistent (db (serve w timed)).
Proof.
  intros Hc. destruct timed as [now [raw_table|feature|py_exec id request|request]];
    simpl.
  - destruct (register_raw_table_db w raw_table) as [_ [-> | [Hname ->]]]; [exact Hc|].
    apply consistent_with_raw_table; [exact Hc | apply next_id_fresh | exact Hname].
  - destruct (create_feature_db w feature) as [_ [-> | [Hrt ->]]]; [exact Hc|].
    apply consistent_with_feature; [exact Hc | apply next_id_fresh | exact Hrt].
  - destruct (compute_feature_version_db py_exec now w id request)
      as [_ [-> | (Hf & Hkey & ->)]]; [exact Hc|].
    apply consistent_with_version; [exact Hc | apply next_id_fresh | exact Hkey | exact Hf].
  - rewrite get_feature_vector_db. exact Hc.
Qed.

Lemma grows_refl (d : Db) : grows d d.
Proof. repeat split; reflexivity. Qed.

Lemma grows_trans (a b c : Db) : grows a b -> grows b c -> grows a c.
Proof.
  intros (H1 & H2 & H3 & H4) (G1 & G2 & G3 & G4).
  repeat split; etransitivity; eassumption.
Qed.

(** What one call adds at most: rows at the end of the tables, a
    version being active, and no value. *)
Lemma serve_grows (w : World) (timed : Z * Call) :
  grows (db w) (db (serve w timed))
  /\ feature_values (db (serve w timed)) = feature_values (db w)
  /\ forall v, In v (feature_versions (db (serve w timed))) ->
               In v (feature_versions (db w)) \/ status v = "active".
Proof.
  destruct timed as [now [raw_table|feature|py_exec id request|request]]; simpl.
  - destruct (register_raw_table_db w raw_table) as [_ [-> | [_ ->]]];
      [split; [apply grows_refl | auto]|].
    split; [|simpl; auto]. repeat split; simpl; try reflexivity. apply prefix_app_r.
    reflexivity.
  - destruct (create_feature_db w feature) as [_ [-> | [_ ->]]];
      [split; [apply grows_refl | auto]|].
    split; [|simpl; auto]. repeat split; simpl; try reflexivity. apply prefix_app_r.
    reflexivity.
  - destruct (compute_feature_version_db py_exec now w id request)
      as [_ [-> | (_ & _ & ->)]]; [split; [apply grows_refl | auto]|].
    split; [|split; [reflexivity|]].
    + repeat split; simpl; try reflexivity. apply prefix_app_r. reflexivity.
    + simpl. intros v Hv. apply in_app_or in Hv as [Hv|[<-|[]]]; auto.
  - rewrite get_feature_vector_db. split; [apply grows_refl | auto].
Qed.

Lemma flat_map_nil {A B} (f : A -> list B) (l : list A) :
  (forall x, f x = []) -> flat_map f l = [].
Proof.
  intros H. induction l as [|a l IH]; [reflexivity|]. simpl. rewrite H, IH. reflexivity.
Qed.

(** With no stored value there is no result, whatever is asked. *)
Lemma results_of_no_values (d : Db) (request : FeatureVectorRequest) :
  feature_values d = [] -> results_of d request = [].
Proof.
  intros Hnone. unfold results_of.
  destruct (truthy_str (rq_feature_version request)).
  - unfold query_version. rewrite Hnone. reflexivity.
  - unfold latest_results. apply flat_map_nil. intros f. unfold latest_result.
    destruct (latest_version d (f_id f)); [|reflexivity].
    unfold feature_value_of. rewrite Hnone. reflexivity.
Qed.

Lemma get_feature_vector_no_values (now : Z) (w : World)
    (request : FeatureVectorRequest) :
  feature_values (db w) = [] -> links (cache (the_cache w)) = [] ->
  fst (get_feature_vector now w request)
  = HTTPException 404
      (Text ("No feature vectors found for entity '" ++ rq_entity_id request ++ "'"))
  /\ links (cache (the_cache (snd (get_feature_vector now w request)))) = [].
Proof.
  intros Hnone Hempty.
  assert (Hget : Cache.get (the_cache w) now (rq_entity_id request)
                   (rq_feature_names request) (rq_feature_version request)
                 = (None, mkFeatureCache (cache (the_cache w)))).
  { unfold Cache.get, Cachetools.get. rewrite Hempty. reflexivity. }
  rewrite get_feature_vector_miss by (rewrite Hget; reflexivity).
  unfold resolved. rewrite (results_of_no_values (db w) request Hnone), Hget.
  simpl. auto.
Qed.

Lemma serve_no_values (w : World) (timed : Z * Call) :
  feature_values (db w) = [] -> links (cache (the_cache w)) = [] ->
  feature_values (db (serve w timed)) = []
  /\ links (cache (the_cache (serve w timed))) = [].
Proof.
  intros Hnone Hempty. destruct (serve_grows w timed) as (_ & Hvalues & _).
  split; [congruence|].
  destruct timed as [now [raw_table|feature|py_exec id request|request]]; simpl.
  - destruct (register_raw_table_db w raw_table) as [-> _]. exact Hempty.
  - destruct (create_feature_db w feature) as [-> _]. exact Hempty.
  - destruct (compute_feature_version_db py_exec now w id request) as [-> _].
    exact Hempty.
  - apply get_feature_vector_no_values; assumption.
Qed.

End ServiceFacts.

(** ** What validation looks at *)

Module SignatureFacts.

Lemma get_column_signature (a b : list Column) (name : string) :
  List.map (fun c => (col_name c, col_dtype c)) a
  = List.map (fun c => (col_name c, col_dtype c)) b ->
  match List.find (fun c => String.eqb (col_name c) name) a,
        List.find (fun c => String.eqb (col_name c) name) b with
  | Some ca, Some cb => col_dtype ca = col_dtype cb
  | None, None => True
  | _, _ => False
  end.
Proof.
  revert b. induction a as [|c a IH]; intros [|c' b] H; try discriminate H; [exact I|].
  simpl in H. injection H as Hname Hdtype Hrest. simpl. rewrite <- Hname.
  destruct (String.eqb (col_name c) name); [exact Hdtype | apply IH, Hrest].
Qed.

Lemma conforms_dtype (c c' : Column) (expected : string) :
  col_dtype c = col_dtype c' -> conforms c expected = conforms c' expected.
Proof.
  intros H. unfold conforms, is_numeric_dtype, is_string_dtype, is_object_dtype.
  rewrite <- H. destruct (col_dtype c); simpl; try reflexivity;
    destruct (String.eqb expected "numeric"); try reflexivity;
    destruct (String.eqb expected "string"); try reflexivity;
    rewrite !orb_true_r; reflexivity.
Qed.

Lemma check_column_types_signature (a b : DataFrame) (types : list (string * string)) :
  signature a = signature b ->
  check_column_types a types = check_column_types b types.
Proof.
  intros H. induction types as [|[col expected] rest IH]; [reflexivity|].
  pose proof (get_column_signature (df_columns a) (df_columns b) col H) as Hcol.
  fold (get_column a col) in Hcol. fold (get_column b col) in Hcol.
  destruct (get_column a col) as [ca|] eqn:Ha, (get_column b col) as [cb|] eqn:Hb;
    try contradiction.
  - rewrite (ValidateFacts.check_column_types_step a col expected rest ca Ha).
    rewrite (ValidateFacts.check_column_types_step b col expected rest cb Hb).
    rewrite (conforms_dtype ca cb expected Hcol), Hcol, IH. reflexivity.
  - simpl. rewrite Ha, Hb. exact IH.
Qed.

Lemma columns_signature (a b : DataFrame) :
  signature a = signature b -> columns a = columns b.
Proof.
  unfold signature, columns. intros H.
  apply (f_equal (List.map fst)) in H. rewrite !List.map_map in H. exact H.
Qed.

Lemma check_column_types_first (df : DataFrame) (pre post : list (string * string))
    (col expected : string) (c : Column) :
  (forall col' expected' c',
     In (col', expected') pre -> get_column df col' = Some c' ->
     conforms c' expected' = true) ->
  get_column df col = Some c ->
  conforms c expected = false ->
  check_column_types df (pre ++ (col, expected) :: post)
  = Some (ValueError
            (Text ("Column " ++ col ++ " expected " ++ expected ++ " type, got "
                     ++ dtype_name (col_dtype c)))).
Proof.
  intros Hpre Hcol Hbad. induction pre as [|[col' expected'] pre IH].
  - simpl app. rewrite (ValidateFacts.check_column_types_step df col expected post c Hcol).
    rewrite Hbad. reflexivity.
  - change (((col', expected') :: pre) ++ (col, expected) :: post)%list
      with ((col', expected') :: (pre ++ (col, expected) :: post))%list.
    destruct (get_column df col') as [c'|] eqn:Hc'.
    + rewrite (ValidateFacts.check_column_types_step df col' expected' _ c' Hc').
      rewrite (Hpre col' expected' c' (or_introl eq_refl) Hc').
      apply IH. intros x y z Hin. apply Hpre. now right.
    + simpl. rewrite Hc'. apply IH. intros x y z Hin. apply Hpre. now right.
Qed.

(** The columns of the table that is validated: the keys of the
    records, the entity column apart. *)
Lemma to_dataframe_In_columns (request : FeatureVersionCompute) (df : DataFrame)
    (c : string) :
  to_dataframe request = inl df ->
  In c (columns df)
  <-> c <> rq_entity_id_column request
      /\ exists r, In r (rq_data request) /\ In c (List.map fst r).
Proof.
  unfold to_dataframe, set_index.
  destruct (get_column _ _) as [c0|]; [|discriminate].
  intros H. injection H as <-. unfold columns. simpl.
  rewrite <- FrameFacts.keys_of_In, in_map_iff. split.
  - intros (col & <- & Hin). apply filter_In in Hin as [Hin Hne].
    apply in_map_iff in Hin as (k & <- & Hk). simpl in *.
    apply negb_true_iff, String.eqb_neq in Hne. auto.
  - intros [Hne Hk]. exists (column_of (rq_data request) c). split; [reflexivity|].
    apply filter_In. split; [apply in_map, Hk|]. simpl.
    apply negb_true_iff, String.eqb_neq, Hne.
Qed.

Lemma get_column_to_dataframe (request : FeatureVersionCompute) (df : DataFrame)
    (c : string) :
  to_dataframe request = inl df ->
  In c (columns df) ->
  get_column df c = Some (column_of (rq_data request) c).
Proof.
  intros Hdf Hin. pose proof (proj1 (to_dataframe_In_columns request df c Hdf) Hin)
    as [Hne Hk]. apply FrameFacts.keys_of_In in Hk. clear Hin.
  revert Hdf. unfold to_dataframe, set_index.
  destruct (get_column _ _) as [c0|]; [|discriminate].
  intros H. injection H as <-. unfold get_column. simpl.
  induction (keys_of (rq_data request)) as [|k ks IH]; [destruct Hk|].
  simpl. destruct (String.eqb_spec k (rq_entity_id_column request)) as [He|He]; simpl.
  - destruct Hk as [Hk|Hk]; [congruence|]. apply IH, Hk.
  - destruct (String.eqb_spec k c) as [->|Hkc]; [reflexivity|].
    destruct Hk as [Hk|Hk]; [congruence|]. apply IH, Hk.
Qed.

(** The flags after a run of integers of 64 bits and gaps. *)
Lemma see_int64_or_absent (key : string) (records : list record) (s : Seen) :
  forallb (int64_or_absent key) records = true ->
  sobject_ s = false -> sbool_ s = false -> null_ s = false -> uint_ s = false ->
  let s' := fold_left see (List.map (cell key) records) s in
  sobject_ s' = false /\ sbool_ s' = false /\ null_ s' = false /\ uint_ s' = false
  /\ (int_ s = true \/ nan_ s = true \/ records <> [] ->
      int_ s' = true \/ nan_ s' = true).
Proof.
  revert s. induction records as [|r records IH]; intros s Hall Ho Hb Hn Hu; simpl.
  - repeat split; auto; intros [H|[H|H]]; auto; congruence.
  - simpl in Hall. apply andb_true_iff in Hall as [Hr Hall].
    assert (Hstep : sobject_ (see s (cell key r)) = false
                    /\ sbool_ (see s (cell key r)) = false
                    /\ null_ (see s (cell key r)) = false
                    /\ uint_ (see s (cell key r)) = false
                    /\ (int_ (see s (cell key r)) = true
                        \/ nan_ (see s (cell key r)) = true)).
    { unfold int64_or_absent in Hr. unfold cell.
      destruct s as [null nan bool_seen float_seen int_seen uint sint object_seen].
      simpl in Ho, Hb, Hn, Hu. subst.
      destruct (dict_get String.eqb key r) as [[[| | z | |]| |]|]; try discriminate Hr.
      - apply andb_true_iff in Hr as [Hlo Hhi]. unfold see.
        apply Z.leb_le in Hlo, Hhi.
        assert (H1 : (INT64_MAX <? z) = false) by (apply Z.ltb_ge; lia).
        assert (H2 : (UINT64_MAX <? z) = false)
          by (apply Z.ltb_ge; unfold UINT64_MAX, INT64_MAX in *; lia).
        assert (H3 : (z <? INT64_MIN) = false) by (apply Z.ltb_ge; lia).
        rewrite H1, H2, H3. simpl. auto 10.
      - simpl. auto 10. }
    destruct Hstep as (Ho' & Hb' & Hn' & Hu' & Hseen).
    destruct (IH (see s (cell key r)) Hall Ho' Hb' Hn' Hu') as (A & B & C & D & E).
    repeat split; auto. intros _. apply E. tauto.
Qed.

Lemma column_of_int64_or_absent (key : string) (records : list record) :
  forallb (int64_or_absent key) records = true ->
  records <> [] ->
  is_numeric_dtype (column_of records key) = true.
Proof.
  intros Hall Hne. unfold is_numeric_dtype, column_of. simpl. unfold infer_dtype.
  destruct (see_int64_or_absent key records nothing_seen Hall eq_refl eq_refl eq_refl
              eq_refl) as (Ho & Hb & Hn & Hu & Hseen).
  specialize (Hseen (or_intror (or_intror Hne))).
  unfold dtype_of_seen. rewrite Ho, Hb, Hn, Hu. simpl.
  destruct (nan_ _) eqn:Hnan.
  - rewrite !orb_true_r. reflexivity.
  - destruct (float_ _); [reflexivity|].
    destruct Hseen as [->|H]; [reflexivity | discriminate H].
Qed.

End SignatureFacts.

(** ** The properties *)

Import FrameFacts VersionFacts RegistryFacts CacheFacts ServiceFacts SignatureFacts.


(** X2.  The entity column labels the rows and is no column of the
    table that is validated.  So when the raw table of a feature lists
    it among its required columns, every batch is answered 400 and
    nothing is written: a batch that has the column fails validation
    with the column reported missing. *)
Theorem X2_required_entity_column_never_validates
    (py_exec : Interp) (now : Z) (w : World) (id : Z)
    (request : FeatureVersionCompute) (feature : Feature) (raw_table : RawTable)
    (required : list string) :
  find_feature (db w) id = Some feature ->
  find_version (db w) id (rq_version request) = None ->
  raw_table_of (db w) feature = Some raw_table ->
  required_columns (schema_definition raw_table) = Some required ->
  In (rq_entity_id_column request) required ->
  (exists detail,
     compute_feature_version py_exec now w id request = (HTTPException 400 detail, w))
  /\ forall df,
       to_dataframe request = inl df ->
       ~ In (rq_entity_id_column request) (columns df)
       /\ rq_entity_id_column request ∈ missing_columns df (schema_definition raw_table)
       /\ compute_feature_version py_exec now w id request
          = (HTTPException 400
               (TextAndSet "Schema validation failed: Missing required columns: "
                  (missing_columns df (schema_definition raw_table))),
             w).
Proof.
  intros Hf Hv Hrt Hreq Hin.
  assert (Hdf : forall df,
            to_dataframe request = inl df ->
            ~ In (rq_entity_id_column request) (columns df)
            /\ rq_entity_id_column request ∈ missing_columns df (schema_definition raw_table)
            /\ compute_feature_version py_exec now w id request
               = (HTTPException 400
                    (TextAndSet "Schema validation failed: Missing required columns: "
                       (missing_columns df (schema_definition raw_table))),
                  w)).
  { intros df Hdf. pose proof (to_dataframe_columns request df Hdf) as Hcol.
    assert (Hmiss : rq_entity_id_column request
                      ∈ missing_columns df (schema_definition raw_table)).
    { apply ValidateFacts.missing_columns_spec. rewrite Hreq. auto. }
    split; [exact Hcol|]. split; [exact Hmiss|].
    unfold compute_feature_version. rewrite Hf, Hv, Hdf, Hrt.
    unfold validate_raw_data_schema. case_bool_decide as He; [|reflexivity].
    rewrite He in Hmiss. exfalso. exact (not_elem_of_empty _ Hmiss). }
  split; [|exact Hdf].
  destruct (to_dataframe request) as [df|e] eqn:Hto.
  - destruct (Hdf df eq_refl) as (_ & _ & ->). eauto.
  - unfold compute_feature_version. rewrite Hf, Hv, Hto. eauto.
Qed.

(** X2 on the two records of the scenario, with a raw table that
    requires [id] and [amount]. *)
Lemma X2_witness :
  exists detail,
    compute_feature_version Sample.sums 100 Cases.keyed_world 1 Sample.submit_v1
    = (HTTPException 400 detail, Cases.keyed_world).
Proof.
  refine (proj1 (X2_required_entity_column_never_validates
                   Sample.sums 100 Cases.keyed_world 1 Sample.submit_v1
                   Sample.total Cases.keyed ["id"; "amount"]
                   eq_refl eq_refl eq_refl eq_refl _)).
  simpl. auto.
Defined.


(** X4.  [compute_feature_version] writes one row at most, the new
    version at the end of its table: the raw tables, the features and
    the stored values are never touched, and an answer 404 or 400, or
    the failure of the computation, leaves the whole database as it
    was. *)
Theorem X4_compute_writes_one_version_at_most
    (py_exec : Interp) (now : Z) (w : World) (id : Z)
    (request : FeatureVersionCompute) :
  let answer := fst (compute_feature_version py_exec now w id request) in
  let w' := snd (compute_feature_version py_exec now w id request) in
  raw_tables (db w') = raw_tables (db w)
  /\ features (db w') = features (db w)
  /\ feature_values (db w') = feature_values (db w)
  /\ (feature_versions (db w') = feature_versions (db w)
      \/ feature_versions (db w')
         = (feature_versions (db w) ++ [new_version now (db w) id request])%list)
  /\ (forall status_code detail,
        answer = HTTPException status_code detail ->
        status_code = 404 \/ status_code = 400 -> w' = w)
  /\ (forall m,
        answer = HTTPException 500 (prepend "Feature computation failed: " m) ->
        w' = w).
Proof.
  intros answer w'. subst answer w'.
  destruct (compute_feature_version_cases py_exec now w id request)
    as [(code & detail & -> & Hcode)|(feature & Hf & Hv & [->| ->])]; simpl;
    repeat split; auto.
  - intros code detail H [-> | ->]; discriminate H.
  - intros m H. discriminate H.
  - intros code detail H [-> | ->]; discriminate H.
  - intros m H. injection H as H. exfalso.
    exact (StoreFacts.prepend_store_not_compute
             (Text "name 'FeatureValue' is not defined") m (eq_sym H)).
Qed.

(** X5.  Once [compute_feature_version] has created a version, be it
    returned or left behind by the failure to store its values, the
    same label cannot be submitted again for the feature: every later
    request with that label, whatever its data and whenever it comes,
    is answered 400 and changes nothing. *)
Theorem X5_retry_answers_already_exists
    (py_exec : Interp) (now : Z) (w : World) (id : Z)
    (request : FeatureVersionCompute) :
  version_created (fst (compute_feature_version py_exec now w id request)) ->
  let w' := snd (compute_feature_version py_exec now w id request) in
  forall (py_exec' : Interp) (later : Z) (request' : FeatureVersionCompute),
    rq_version request' = rq_version request ->
    compute_feature_version py_exec' later w' id request'
    = (HTTPException 400
         (Text ("Version '" ++ rq_version request ++ "' already exists for feature "
                  ++ str_of_Z id)),
       w').
Proof.
  intros Hcreated w' py_exec' later request' Hlabel.
  destruct (version_created_world py_exec now w id request Hcreated) as (Hw & Hf & Hv).
  subst w'. rewrite Hw. unfold compute_feature_version. simpl db.
  unfold find_feature in *. simpl features.
  destruct (List.find (fun f => f_id f =? id) (features (db w))) as [feature|];
    [|congruence].
  unfold find_version in *. simpl feature_versions. rewrite Hlabel.
  rewrite (find_app_None _ _ _ Hv). simpl.
  rewrite Z.eqb_refl, String.eqb_refl. reflexivity.
Qed.

(** X5 in the scenario: [v1] of [total], which the failure to store the
    values left behind at time 100, is submitted again at time 200. *)
Lemma X5_witness :
  fst (compute_feature_version Sample.fails 200
         (snd (compute_feature_version Sample.sums 100 Sample.fresh 1 Sample.submit_v1))
         1 Sample.submit_v1)
  = HTTPException 400 (Text "Version 'v1' already exists for feature 1").
Proof.
  assert (H : version_created
                (fst (compute_feature_version Sample.sums 100 Sample.fresh 1
                        Sample.submit_v1))).
  { split; [reflexivity|]. exists (Text "name 'FeatureValue' is not defined").
    reflexivity. }
  rewrite (X5_retry_answers_already_exists Sample.sums 100 Sample.fresh 1
             Sample.submit_v1 H Sample.fails 200 Sample.submit_v1 eq_refl).
  reflexivity.
Defined.

(** X6.  A version that [compute_feature_version] has created at a time
    later than the active versions of its feature is at once the latest
    active version, and it has no stored value; so from then on the
    feature is in no vector resolved from the latest versions, whatever
    values its older versions hold. *)
Theorem X6_new_version_hides_older_values
    (py_exec : Interp) (now : Z) (w : World) (id : Z)
    (request : FeatureVersionCompute) :
  referential (db w) ->
  (forall v, In v (feature_versions (db w)) -> is_active_of id v = true ->
             computed_at v < now) ->
  version_created (fst (compute_feature_version py_exec now w id request)) ->
  let created := new_version now (db w) id request in
  let w' := snd (compute_feature_version py_exec now w id request) in
  latest_version (db w') id = Some created
  /\ (forall entity, feature_value_of (db w') (fv_id created) entity = None)
  /\ forall entity names r,
       In r (latest_results (db w') entity names) -> f_id (feature_of r) <> id.
Proof.
  intros Href Hlater Hcreated created w'.
  destruct (version_created_world py_exec now w id request Hcreated) as (Hw & _ & _).
  subst w'. rewrite Hw. simpl db. fold created.
  assert (Hlatest : latest_version (with_version (db w) created) id = Some created).
  { apply ResolveFacts.latest_version_strict.
    - simpl. apply in_or_app. right. now left.
    - unfold is_active_of. simpl. rewrite Z.eqb_refl. reflexivity.
    - simpl. intros u Hu Hact. apply in_app_or in Hu as [Hu|[<-|[]]]; [right|now left].
      exact (Hlater u Hu Hact). }
  assert (Hnone : forall entity,
            feature_value_of (with_version (db w) created) (fv_id created) entity = None).
  { intros entity. unfold feature_value_of. apply find_None_iff. simpl.
    intros val Hval. apply andb_false_iff. left. apply Z.eqb_neq.
    pose proof (StoreFacts.le_next_id _ _ (Href val Hval)). lia. }
  split; [exact Hlatest|]. split; [exact Hnone|].
  intros entity names r Hr Hid.
  apply ResolveFacts.latest_results_In in Hr as (f & latest & val & -> & _ & _ & Hl & Hval).
  unfold feature_of in Hid. simpl in Hid. rewrite Hid, Hlatest in Hl.
  injection Hl as <-. rewrite Hnone in Hval. discriminate Hval.
Qed.

(** X6 in the scenario: [total] has the values 12 and 19 under [v1] and
    [v2]; [v3], submitted at time 30 and left without values, is its
    latest version from then on. *)
Lemma X6_witness :
  latest_version
    (db (snd (compute_feature_version Sample.sums 30 Sample.served 1 Sample.submit_v3)))
    1
  = Some (mkFeatureVersion 4 1 "v3" "active" 30 None).
Proof.
  assert (Href : referential (db Sample.served)).
  { intros val [<-|[<-|[<-|[]]]]; simpl; auto. }
  assert (Hlater : forall v, In v (feature_versions (db Sample.served)) ->
                             is_active_of 1 v = true -> computed_at v < 30).
  { intros v [<-|[<-|[<-|[]]]] Hv; simpl; lia. }
  assert (Hcreated : version_created
                       (fst (compute_feature_version Sample.sums 30 Sample.served 1
                               Sample.submit_v3))).
  { split; [reflexivity|]. exists (Text "name 'FeatureValue' is not defined").
    reflexivity. }
  exact (proj1 (X6_new_version_hides_older_values
                  Sample.sums 30 Sample.served 1 Sample.submit_v3
                  Href Hlater Hcreated)).
Defined.



(** X8.  [register_raw_table] turns a name down, with 400 and no
    change, exactly when a registered table bears it; otherwise it
    appends the table under an id no table has.  So the names of the
    raw tables stay distinct, and so do their ids. *)
Theorem X8_register_raw_table_keeps_names_distinct
    (w : World) (raw_table : RawTableCreate) :
  let name := rtc_name raw_table in
  let row :=
    mkRawTable (next_id (List.map rt_id (raw_tables (db w)))) name
               (rtc_schema_definition raw_table) in
  let w' := snd (register_raw_table w raw_table) in
  (In name (List.map rt_name (raw_tables (db w))) ->
   register_raw_table w raw_table
   = (HTTPException 400 (Text ("Raw table with name '" ++ name ++ "' already exists")),
      w))
  /\ (~ In name (List.map rt_name (raw_tables (db w))) ->
      register_raw_table w raw_table
      = (Returned row, mkWorld (with_raw_table (db w) row) (the_cache w)))
  /\ (forall t, In t (raw_tables (db w)) -> rt_id t < rt_id row)
  /\ (NoDup (List.map rt_name (raw_tables (db w))) ->
      NoDup (List.map rt_name (raw_tables (db w'))))
  /\ (NoDup (List.map rt_id (raw_tables (db w))) ->
      NoDup (List.map rt_id (raw_tables (db w')))).
Proof.
  intros name row w'. subst w'. unfold register_raw_table. fold name. fold row.
  pose proof (find_raw_table_named_None (db w) name) as Hnone.
  destruct (find_raw_table_named (db w) name) as [t|]; simpl.
  - assert (Hin : In name (List.map rt_name (raw_tables (db w)))).
    { destruct (in_dec string_dec name (List.map rt_name (raw_tables (db w))))
        as [H|H]; [exact H|]. apply Hnone in H. discriminate H. }
    repeat split; auto; try tauto.
    intros t0 Ht0. apply StoreFacts.le_next_id, in_map, Ht0.
  - assert (Hout : ~ In name (List.map rt_name (raw_tables (db w))))
      by (apply Hnone; reflexivity).
    repeat split; try tauto.
    + intros t0 Ht0. apply StoreFacts.le_next_id, in_map, Ht0.
    + intros Hd. rewrite map_app. simpl. apply NoDup_snoc; assumption.
    + intros Hd. rewrite map_app. simpl. apply NoDup_snoc; [assumption|].
      apply next_id_fresh.
Qed.

(** X9.  A raw table that has been registered is found again: under
    the id it was given, by [get_raw_table] and by [create_feature],
    and under its name, which is from then on taken.  The tables
    registered before are found as before. *)
Theorem X9_registered_raw_table_is_found
    (w w' : World) (raw_table : RawTableCreate) (t : RawTable) :
  register_raw_table w raw_table = (Returned t, w') ->
  rt_name t = rtc_name raw_table
  /\ schema_definition t = rtc_schema_definition raw_table
  /\ get_raw_table (db w') (rt_id t) = Returned t
  /\ (forall id t0, get_raw_table (db w) id = Returned t0 ->
                    get_raw_table (db w') id = Returned t0)
  /\ (forall feature, fc_raw_table_id feature = rt_id t ->
                      exists f u, create_feature w' feature = (Returned f, u))
  /\ (forall again, rtc_name again = rtc_name raw_table ->
        register_raw_table w' again
        = (HTTPException 400
             (Text ("Raw table with name '" ++ rtc_name raw_table ++ "' already exists")),
           w')).
Proof.
  unfold register_raw_table.
  destruct (find_raw_table_named (db w) (rtc_name raw_table)) eqn:Hnamed; [discriminate|].
  intros H. injection H as <- <-. simpl.
  assert (Hfound : find_raw_table
                     (with_raw_table (db w)
                        (mkRawTable (next_id (List.map rt_id (raw_tables (db w))))
                           (rtc_name raw_table) (rtc_schema_definition raw_table)))
                     (next_id (List.map rt_id (raw_tables (db w))))
                   = Some (mkRawTable (next_id (List.map rt_id (raw_tables (db w))))
                             (rtc_name raw_table) (rtc_schema_definition raw_table))).
  { unfold find_raw_table. simpl. rewrite find_app_None.
    - simpl. rewrite Z.eqb_refl. reflexivity.
    - apply (find_raw_table_None (db w)), next_id_fresh. }
  repeat split.
  - unfold get_raw_table. fold (with_raw_table (db w)
      (mkRawTable (next_id (List.map rt_id (raw_tables (db w))))
         (rtc_name raw_table) (rtc_schema_definition raw_table))).
    rewrite Hfound. reflexivity.
  - intros id t0. unfold get_raw_table, find_raw_table. simpl.
    destruct (List.find (fun t => rt_id t =? id) (raw_tables (db w))) as [t1|] eqn:Hid;
      [|discriminate].
    intros H. rewrite (find_app_Some _ _ _ _ Hid). exact H.
  - intros feature Hid. unfold create_feature. simpl db. rewrite Hid.
    fold (with_raw_table (db w)
      (mkRawTable (next_id (List.map rt_id (raw_tables (db w))))
         (rtc_name raw_table) (rtc_schema_definition raw_table))).
    rewrite Hfound. eauto.
  - intros again Hagain. unfold register_raw_table, find_raw_table_named. simpl.
    rewrite Hagain. unfold find_raw_table_named in Hnamed.
    rewrite (find_app_None _ _ _ Hnamed). simpl. rewrite String.eqb_refl. reflexivity.
Qed.

(** X9 in the scenario: the table [events] is registered beside
    [transactions] and gets the id 2. *)
Lemma X9_witness :
  get_raw_table (db (snd (register_raw_table Sample.fresh Cases.events))) 2
  = Returned (mkRawTable 2 "events" (mkSchema None None)).
Proof.
  exact (proj1 (proj2 (proj2
           (X9_registered_raw_table_is_found
              Sample.fresh (snd (register_raw_table Sample.fresh Cases.events))
              Cases.events (mkRawTable 2 "events" (mkSchema None None)) eq_refl)))).
Defined.

(** X10.  [create_feature] answers 404, and changes nothing, exactly
    when no raw table has the id the feature names; otherwise it
    appends the feature under an id no feature has.  It does not look
    at the name: a second feature of the same name is accepted. *)
Theorem X10_create_feature_needs_raw_table (w : World) (feature : FeatureCreate) :
  let row :=
    mkFeature (next_id (List.map f_id (features (db w)))) (fc_name feature)
              (fc_raw_table_id feature) (fc_computation_logic feature) in
  (~ In (fc_raw_table_id feature) (List.map rt_id (raw_tables (db w))) ->
   create_feature w feature
   = (HTTPException 404
        (Text ("Raw table with ID " ++ str_of_Z (fc_raw_table_id feature)
                 ++ " not found")),
      w))
  /\ (In (fc_raw_table_id feature) (List.map rt_id (raw_tables (db w))) ->
      create_feature w feature
      = (Returned row, mkWorld (with_feature (db w) row) (the_cache w))
      /\ forall again,
           fc_name again = fc_name feature ->
           fc_raw_table_id again = fc_raw_table_id feature ->
           exists f u',
             create_feature (snd (create_feature w feature)) again = (Returned f, u')
             /\ f_name f = f_name row /\ f_id f <> f_id row)
  /\ (forall f, In f (features (db w)) -> f_id f < f_id row).
Proof.
  intros row. unfold create_feature.
  pose proof (find_raw_table_None (db w) (fc_raw_table_id feature)) as Hnone.
  destruct (find_raw_table (db w) (fc_raw_table_id feature)) as [t|] eqn:Hfind.
  - assert (Hin : In (fc_raw_table_id feature) (List.map rt_id (raw_tables (db w)))).
    { destruct (in_dec Z.eq_dec (fc_raw_table_id feature)
                  (List.map rt_id (raw_tables (db w)))) as [H|H]; [exact H|].
      apply Hnone in H. discriminate H. }
    split; [tauto|]. split.
    + intros _. split; [reflexivity|]. intros again Hname Hid.
      unfold create_feature. simpl. rewrite Hid.
      unfold find_raw_table in Hfind |- *. simpl. rewrite Hfind.
      eexists _, _. split; [reflexivity|]. simpl. split; [exact Hname|].
      pose proof (next_id_fresh (List.map f_id (features (db w) ++ [row]))) as Hfresh.
      intros Heq. apply Hfresh.
      replace (next_id (List.map f_id (features (db w) ++ [row]))) with (f_id row)
        by (symmetry; exact Heq).
      rewrite map_app. apply in_or_app. right. now left.
    + intros f Hf. apply StoreFacts.le_next_id, in_map, Hf.
  - split; [reflexivity|]. split.
    + intros Hin. exfalso. apply Hnone; [reflexivity | exact Hin].
    + intros f Hf. apply StoreFacts.le_next_id, in_map, Hf.
Qed.

(** X11.  A feature that has been created is found again under its id,
    together with its raw table; the features created before are found
    as before; and, in a database where every version refers to a
    feature, the new feature has no version yet. *)
Theorem X11_created_feature_is_found
    (w w' : World) (feature : FeatureCreate) (f : Feature) :
  create_feature w feature = (Returned f, w') ->
  f_name f = fc_name feature
  /\ computation_logic f = fc_computation_logic feature
  /\ get_feature (db w') (f_id f) = Returned f
  /\ (exists t, raw_table_of (db w') f = Some t /\ rt_id t = fc_raw_table_id feature)
  /\ (forall id f0, get_feature (db w) id = Returned f0 ->
                    get_feature (db w') id = Returned f0)
  /\ (versions_refer (db w) -> list_feature_versions (db w') (f_id f) = Returned []).
Proof.
  unfold create_feature.
  destruct (find_raw_table (db w) (fc_raw_table_id feature)) as [t|] eqn:Hfind;
    [|discriminate].
  intros H. injection H as <- <-. simpl.
  assert (Hfound : find_feature
                     (with_feature (db w)
                        (mkFeature (next_id (List.map f_id (features (db w))))
                           (fc_name feature) (fc_raw_table_id feature)
                           (fc_computation_logic feature)))
                     (next_id (List.map f_id (features (db w))))
                   = Some (mkFeature (next_id (List.map f_id (features (db w))))
                             (fc_name feature) (fc_raw_table_id feature)
                             (fc_computation_logic feature))).
  { unfold find_feature. simpl. rewrite find_app_None.
    - simpl. rewrite Z.eqb_refl. reflexivity.
    - apply (find_feature_None (db w)), next_id_fresh. }
  fold (with_feature (db w)
          (mkFeature (next_id (List.map f_id (features (db w))))
             (fc_name feature) (fc_raw_table_id feature)
             (fc_computation_logic feature))).
  repeat split.
  - unfold get_feature. rewrite Hfound. reflexivity.
  - exists t. unfold raw_table_of. simpl. unfold find_raw_table in Hfind.
    rewrite Hfind. split; [reflexivity|].
    apply find_some in Hfind as [_ Hid]. apply Z.eqb_eq, Hid.
  - intros id f0. unfold get_feature, find_feature. simpl.
    destruct (List.find (fun f => f_id f =? id) (features (db w))) as [f1|] eqn:Hid;
      [|discriminate].
    intros H. rewrite (find_app_Some _ _ _ _ Hid). exact H.
  - intros Hrefer. unfold list_feature_versions. rewrite Hfound. f_equal. simpl.
    apply StoreFacts.filter_none. intros v Hv. apply Z.eqb_neq.
    pose proof (StoreFacts.le_next_id _ _ (Hrefer v Hv)). lia.
Qed.

(** X11 in the scenario: [clicks] is created beside [total] and gets
    the id 2. *)
Lemma X11_witness :
  get_feature (db (snd (create_feature Sample.fresh Cases.clicks))) 2
  = Returned (mkFeature 2 "clicks" 1 "result = df['n']").
Proof.
  exact (proj1 (proj2 (proj2
           (X11_created_feature_is_found
              Sample.fresh (snd (create_feature Sample.fresh Cases.clicks))
              Cases.clicks (mkFeature 2 "clicks" 1 "result = df['n']") eq_refl)))).
Defined.



(** X14.  The cache never holds more than [maxsize] entries: a cache
    within its size is within it after [set], [get] and [clear], and
    after [get_feature_vector] has served a request. *)
Theorem X14_cache_stays_within_maxsize
    (self : FeatureCache) (now : Z) (entity : string)
    (features : FeatureVector) (names : option (list string)) (label : option string) :
  (1 <= maxsize (cache self))%nat ->
  within_maxsize self ->
  within_maxsize (Cache.set self now entity features names label)
  /\ within_maxsize (snd (Cache.get self now entity names label))
  /\ within_maxsize (Cache.clear self)
  /\ forall (d : Db) (request : FeatureVectorRequest),
       within_maxsize (the_cache (snd (get_feature_vector now (mkWorld d self) request))).
Proof.
  intros Hpos Hle. unfold within_maxsize in *.
  assert (Hset : forall c e f n l,
            maxsize (cache c) = maxsize (cache self) ->
            (length (links (cache c)) <= maxsize (cache c))%nat ->
            (length (links (cache (Cache.set c now e f n l)))
             <= maxsize (cache (Cache.set c now e f n l)))%nat).
  { intros c e f n l Hm Hc. simpl. apply length_setitem; [lia | exact Hc]. }
  assert (Hget : forall e n l,
            (length (links (cache (snd (Cache.get self now e n l))))
             <= maxsize (cache (snd (Cache.get self now e n l))))%nat).
  { intros e n l. rewrite cache_get_fst. simpl.
    pose proof (length_get (cache self) now (_make_key e n l)).
    destruct (get_settings (cache self) now (_make_key e n l)) as [-> _]. lia. }
  split; [apply Hset; auto|]. split; [apply Hget|]. split; [simpl; lia|].
  intros d request.
  destruct (truthy_dict
              (fst (Cache.get self now (rq_entity_id request) (rq_feature_names request)
                      (rq_feature_version request)))) eqn:Hhit.
  - rewrite (get_feature_vector_hit now (mkWorld d self) request Hhit). apply Hget.
  - rewrite (get_feature_vector_miss now (mkWorld d self) request Hhit). simpl.
    destruct (results_of d request); simpl the_cache; [apply Hget|].
    apply Hset; [|apply Hget]. rewrite cache_get_fst. simpl. apply get_settings.
Qed.

(** X14 for the cache of the module, empty and of size 1000. *)
Lemma X14_witness :
  within_maxsize (the_cache (snd (get_feature_vector 5 Sample.served Sample.ask_x))).
Proof.
  assert (Hpos : (1 <= maxsize (cache feature_cache))%nat) by (simpl; lia).
  assert (Hle : within_maxsize feature_cache) by (unfold within_maxsize; simpl; lia).
  exact (proj2 (proj2 (proj2
           (X14_cache_stays_within_maxsize feature_cache 5 "x" ∅ None None Hpos Hle)))
           Sample.served_db Sample.ask_x).
Defined.

(** X15.  A vector that [get_feature_vector] has resolved from the
    tables is cached: for less than [ttl] seconds from then on the same
    request is answered with that vector, whatever the tables hold by
    then. *)
Theorem X15_resolved_vector_is_served_from_cache
    (now : Z) (w w' : World) (request : FeatureVectorRequest)
    (response : FeatureVectorResponse) :
  truthy_dict
    (fst (Cache.get (the_cache w) now (rq_entity_id request)
            (rq_feature_names request) (rq_feature_version request))) = false ->
  get_feature_vector now w request = (Returned response, w') ->
  rs_features response = build_vector (results_of (db w) request)
  /\ forall (later : Z) (d' : Db),
       later < now + ttl (cache (the_cache w)) ->
       fst (get_feature_vector later (mkWorld d' (the_cache w')) request)
       = Returned
           (mkFeatureVectorResponse (rq_entity_id request) (rs_features response) later).
Proof.
  intros Hmiss. rewrite (get_feature_vector_miss now w request Hmiss). cbv zeta.
  unfold resolved. destruct (results_of (db w) request) as [|r rs] eqn:Hrs; [discriminate|].
  intros H. injection H as <- <-. split; [reflexivity|].
  intros later d' Hlater. simpl rs_features. simpl the_cache.
  set (c := snd (Cache.get (the_cache w) now (rq_entity_id request)
                   (rq_feature_names request) (rq_feature_version request))).
  set (w2 := mkWorld d' (Cache.set c now (rq_entity_id request) (build_vector (r :: rs))
                           (rq_feature_names request) (rq_feature_version request))).
  assert (Hfound : fst (Cache.get (the_cache w2) later (rq_entity_id request)
                          (rq_feature_names request) (rq_feature_version request))
                   = Some (build_vector (r :: rs))).
  { unfold w2. simpl the_cache. rewrite cache_get_fst. simpl fst. rewrite get_setitem.
    assert (Httl : ttl (cache c) = ttl (cache (the_cache w))).
    { unfold c. rewrite cache_get_fst. simpl. apply get_settings. }
    rewrite Httl. apply Z.ltb_lt in Hlater. rewrite Hlater. reflexivity. }
  rewrite get_feature_vector_hit; rewrite Hfound; simpl.
  - reflexivity.
  - apply bool_decide_eq_true_2, build_vector_not_empty.
Qed.

(** X15 in the scenario: the vector of [x] is resolved at time 5; at
    time 3604, with every table emptied, the answer is still that
    vector. *)
Lemma X15_witness :
  fst (get_feature_vector 3604
         (mkWorld (mkDb [] [] [] [])
                  (the_cache (snd (get_feature_vector 5 Sample.served Sample.ask_x))))
         Sample.ask_x)
  = Returned
      (mkFeatureVectorResponse "x"
         (build_vector (latest_results Sample.served_db "x" None)) 3604).
Proof.
  refine (proj2 (X15_resolved_vector_is_served_from_cache
                   5 Sample.served (snd (get_feature_vector 5 Sample.served Sample.ask_x))
                   Sample.ask_x
                   (mkFeatureVectorResponse "x"
                      (build_vector (latest_results Sample.served_db "x" None)) 5)
                   eq_refl _)
                3604 (mkDb [] [] [] []) _).
  - vm_compute. reflexivity.
  - simpl. lia.
Defined.

(** X16.  An answer 404 is not cached.  After [get_feature_vector] has
    answered an error, the same request at a later time is resolved
    from the tables as they then are, as if the cache were empty. *)
Theorem X16_not_found_is_not_cached
    (now : Z) (w : World) (request : FeatureVectorRequest)
    (status_code : Z) (detail : message) :
  fst (get_feature_vector now w request) = HTTPException status_code detail ->
  results_of (db w) request = []
  /\ forall (later : Z) (d' : Db),
       now <= later ->
       fst (get_feature_vector later
              (mkWorld d' (the_cache (snd (get_feature_vector now w request)))) request)
       = resolved later d' request.
Proof.
  destruct (truthy_dict
              (fst (Cache.get (the_cache w) now (rq_entity_id request)
                      (rq_feature_names request) (rq_feature_version request))))
    eqn:Hhit.
  { rewrite (get_feature_vector_hit now w request Hhit). discriminate. }
  rewrite (get_feature_vector_miss now w request Hhit). cbv zeta.
  unfold resolved at 1. destruct (results_of (db w) request) as [|r rs]; [|discriminate].
  intros _. split; [reflexivity|]. intros later d' Hlater. simpl snd. simpl the_cache.
  rewrite get_feature_vector_miss; [reflexivity|]. simpl the_cache.
  revert Hhit. rewrite !cache_get_fst. simpl fst. simpl snd. simpl cache.
  set (k := _make_key (rq_entity_id request) (rq_feature_names request)
              (rq_feature_version request)).
  destruct (fst (Cachetools.get (cache (the_cache w)) now k)) as [found|] eqn:Hfound.
  - intros Hfalsy.
    destruct (get_hit_later (cache (the_cache w)) now later k found Hfound) as [-> | ->];
      [exact Hfalsy | reflexivity].
  - intros _. rewrite (get_miss_later (cache (the_cache w)) now later k Hlater Hfound).
    reflexivity.
Qed.

(** X16 in the scenario: nothing is stored at time 5, so the answer is
    404; at time 6 the tables hold values, and the answer has them. *)
Lemma X16_witness :
  fst (get_feature_vector 6
         (mkWorld Sample.served_db
            (the_cache (snd (get_feature_vector 5 Sample.fresh Sample.ask_x))))
         Sample.ask_x)
  = resolved 6 Sample.served_db Sample.ask_x.
Proof.
  refine (proj2 (X16_not_found_is_not_cached 5 Sample.fresh Sample.ask_x 404
                   (Text "No feature vectors found for entity 'x'") eq_refl)
                6 Sample.served_db _).
  lia.
Defined.



(** X18.  An empty list of names is no list of names, and an empty
    version no version: [get_feature_vector] serves the request as it
    serves the one without them, with the same answer and the same
    cache entry.  No names means every feature, not none. *)
Theorem X18_empty_names_and_version_mean_none
    (now : Z) (w : World) (entity : string) (names : option (list string))
    (label : option string) :
  get_feature_vector now w (ask entity (Some []) label)
  = get_feature_vector now w (ask entity None label)
  /\ get_feature_vector now w (ask entity names (Some ""))
     = get_feature_vector now w (ask entity names None)
  /\ (forall f, named (Some []) f = true)
  /\ _make_key entity (Some []) (Some "") = _make_key entity None None.
Proof.
  repeat split.
Qed.

(** X19.  The endpoints keep the tables consistent.  If ids are
    distinct in each table, raw tables have distinct names, versions
    distinct pairs of feature and label, every feature refers to a raw
    table, every version to a feature and every value to a version,
    then the same holds after any sequence of calls served one after
    the other. *)
Theorem X19_endpoints_keep_tables_consistent (w : World) (calls : list (Z * Call)) :
  consistent (db w) -> consistent (db (run w calls)).
Proof.
  unfold run. revert w. induction calls as [|timed calls IH]; intros w Hc; [exact Hc|].
  simpl. apply IH, serve_consistent, Hc.
Qed.

(** X19 over a day of the service that starts with one raw table and
    one feature. *)
Lemma X19_witness : consistent (db (run Sample.fresh Cases.a_day)).
Proof.
  apply X19_endpoints_keep_tables_consistent.
  constructor; simpl; try apply NoDup_singleton; try apply NoDup_nil_2.
  - intros f [<-|[]]. simpl. auto.
  - intros v [].
  - intros val [].
Defined.

(** X20.  No endpoint removes or changes a row, none writes a value,
    and every version the service creates is active: after any
    sequence of calls each table starts with the rows it had, the
    table of values is the one it was, and a version that was not
    there before has the status [active]. *)
Theorem X20_tables_only_grow (w : World) (calls : list (Z * Call)) :
  grows (db w) (db (run w calls))
  /\ feature_values (db (run w calls)) = feature_values (db w)
  /\ forall v, In v (feature_versions (db (run w calls))) ->
               In v (feature_versions (db w)) \/ status v = "active".
Proof.
  unfold run. revert w. induction calls as [|timed calls IH]; intros w.
  - split; [apply grows_refl | auto].
  - simpl. destruct (serve_grows w timed) as (Hg & Hv & Hs).
    destruct (IH (serve w timed)) as (Hg' & Hv' & Hs').
    split; [eapply grows_trans; eassumption|]. split; [congruence|].
    intros v Hin. destruct (Hs' v Hin) as [H|H]; auto.
Qed.

(** X21.  In this source no vector is ever served from a store that
    starts without values: the endpoints write no value, so after any
    sequence of calls the table of values and the cache are empty and
    [get_feature_vector] answers 404, whatever is asked and
    whenever. *)
Theorem X21_no_vector_without_stored_values
    (w : World) (calls : list (Z * Call)) (now : Z) (request : FeatureVectorRequest) :
  feature_values (db w) = [] ->
  links (cache (the_cache w)) = [] ->
  feature_values (db (run w calls)) = []
  /\ links (cache (the_cache (run w calls))) = []
  /\ fst (get_feature_vector now (run w calls) request)
     = HTTPException 404
         (Text ("No feature vectors found for entity '" ++ rq_entity_id request ++ "'")).
Proof.
  intros Hnone Hempty.
  assert (H : feature_values (db (run w calls)) = []
              /\ links (cache (the_cache (run w calls))) = []).
  { unfold run. revert w Hnone Hempty.
    induction calls as [|timed calls IH]; intros w Hnone Hempty; [auto|].
    simpl. destruct (serve_no_values w timed Hnone Hempty) as [H1 H2]. apply IH; auto. }
  destruct H as [H1 H2]. split; [exact H1|]. split; [exact H2|].
  apply get_feature_vector_no_values; assumption.
Qed.

(** X21 after a day of the service, in which a version of [total] has
    been computed from two records of [x]. *)
Lemma X21_witness :
  fst (get_feature_vector 60 (run Sample.fresh Cases.a_day) Sample.ask_x)
  = HTTPException 404 (Text "No feature vectors found for entity 'x'").
Proof.
  exact (proj2 (proj2 (X21_no_vector_without_stored_values
                         Sample.fresh Cases.a_day 60 Sample.ask_x eq_refl eq_refl))).
Defined.

(** X22.  Validation looks at the names of the columns and at their
    dtypes, and at nothing else: neither at the cells nor at the labels
    of the rows.  Two tables with the same columns by name and dtype
    are both accepted, or both turned down with the same error. *)
Theorem X22_validation_reads_names_and_dtypes (a b : DataFrame) (schema : Schema) :
  signature a = signature b ->
  validate_raw_data_schema a schema = validate_raw_data_schema b schema.
Proof.
  intros H. unfold validate_raw_data_schema, missing_columns.
  rewrite (columns_signature a b H), (check_column_types_signature a b _ H).
  reflexivity.
Qed.

(** X22 on a column of texts and a column of lists: both are object
    columns, and both are turned down as not numeric. *)
Lemma X22_witness :
  validate_raw_data_schema Cases.texts (schema_definition Sample.transactions)
  = validate_raw_data_schema Cases.lists (schema_definition Sample.transactions).
Proof.
  exact (X22_validation_reads_names_and_dtypes Cases.texts Cases.lists
           (schema_definition Sample.transactions) eq_refl).
Defined.

(** X23.  When several columns are of another type than the declared
    one, the error names the first of them in the order of
    [column_types]; the declarations after it are not looked at. *)
Theorem X23_first_nonconforming_column_is_reported
    (df : DataFrame) (schema : Schema) (pre post : list (string * string))
    (col expected : string) (c : Column) :
  missing_columns df schema = ∅ ->
  column_types schema = Some (pre ++ (col, expected) :: post)%list ->
  (forall col' expected' c',
     In (col', expected') pre -> get_column df col' = Some c' ->
     conforms c' expected' = true) ->
  get_column df col = Some c ->
  conforms c expected = false ->
  validate_raw_data_schema df schema
  = inr (ValueError
           (Text ("Column " ++ col ++ " expected " ++ expected ++ " type, got "
                    ++ dtype_name (col_dtype c)))).
Proof.
  intros Hmissing Htypes Hpre Hcol Hbad. unfold validate_raw_data_schema.
  rewrite Hmissing, bool_decide_eq_true_2 by reflexivity.
  rewrite Htypes. simpl get_default.
  rewrite (check_column_types_first df pre post col expected c Hpre Hcol Hbad).
  reflexivity.
Qed.

(** X23 on a batch in which [amount] is no numeric column and [name]
    no string column: [amount], declared first, is the one named. *)
Lemma X23_witness :
  validate_raw_data_schema Cases.both_wrong Cases.two_types
  = inr (ValueError (Text "Column amount expected numeric type, got object")).
Proof.
  refine (X23_first_nonconforming_column_is_reported
            Cases.both_wrong Cases.two_types [] [("name", "string")]
            "amount" "numeric" (mkColumn "amount" object_ [Atom (PyStr "5")])
            eq_refl eq_refl _ eq_refl eq_refl).
  intros col' expected' c' [].
Defined.

(** X24.  A list of names and a version can stand for each other in
    the cache key: the request for the features [names] at the latest
    version and the request for every feature at the version whose
    label is the sorted names joined by commas have the same key.  So
    once the vector of the one has been resolved, the other is answered
    with it for [ttl] seconds. *)
Theorem X24_names_and_version_share_key
    (entity : string) (names : list string) (label : string) :
  names <> [] ->
  label <> "" ->
  join "," (sorted names) = label ->
  _make_key entity (Some names) None = _make_key entity None (Some label)
  /\ forall (now later : Z) (w w' : World) (d' : Db) (response : FeatureVectorResponse),
       truthy_dict (fst (Cache.get (the_cache w) now entity None (Some label))) = false ->
       get_feature_vector now w (ask entity None (Some label)) = (Returned response, w') ->
       later < now + ttl (cache (the_cache w)) ->
       fst (get_feature_vector later (mkWorld d' (the_cache w'))
              (ask entity (Some names) None))
       = Returned (mkFeatureVectorResponse entity (rs_features response) later).
Proof.
  intros Hnames Hlabel Hjoin.
  assert (Hkey : _make_key entity (Some names) None = _make_key entity None (Some label)).
  { unfold _make_key, key_str. destruct names as [|n names]; [congruence|].
    destruct label as [|ch label]; [congruence|]. simpl truthy_list. simpl truthy_str.
    cbv iota. simpl get_default. rewrite Hjoin. reflexivity. }
  split; [exact Hkey|].
  intros now later w w' d' response Hmiss.
  rewrite (get_feature_vector_miss now w (ask entity None (Some label)) Hmiss).
  cbv zeta. unfold resolved.
  destruct (results_of (db w) (ask entity None (Some label))) as [|r rs]; [discriminate|].
  intros H Hlater. injection H as <- <-. simpl rs_features. simpl the_cache.
  simpl rq_entity_id. simpl rq_feature_names. simpl rq_feature_version.
  set (c := snd (Cache.get (the_cache w) now entity None (Some label))).
  assert (Hfound : fst (Cache.get (Cache.set c now entity (build_vector (r :: rs)) None
                                     (Some label))
                          later entity (Some names) None)
                   = Some (build_vector (r :: rs))).
  { rewrite cache_get_fst. simpl fst. rewrite Hkey. simpl cache. rewrite get_setitem.
    assert (Httl : ttl (cache c) = ttl (cache (the_cache w))).
    { unfold c. rewrite cache_get_fst. simpl. apply get_settings. }
    rewrite Httl. apply Z.ltb_lt in Hlater. rewrite Hlater. reflexivity. }
  rewrite get_feature_vector_hit; simpl the_cache; simpl rq_entity_id;
    simpl rq_feature_names; simpl rq_feature_version; rewrite Hfound; simpl.
  - reflexivity.
  - apply bool_decide_eq_true_2, build_vector_not_empty.
Qed.

(** X24 for the feature name [v2] and the version [v2]. *)
Lemma X24_witness : _make_key "x" (Some ["v2"]) None = _make_key "x" None (Some "v2").
Proof.
  refine (proj1 (X24_names_and_version_share_key "x" ["v2"] "v2" _ _ eq_refl));
    discriminate.
Defined.

(** X25.  When several results bear the same feature name, the vector
    holds the value of the last of them: each result overwrites the
    entry of its name. *)
Theorem X25_last_result_of_a_name_wins
    (before after : results) (r : FeatureValue * FeatureVersion * Feature) :
  (forall r', In r' after -> f_name (feature_of r') <> f_name (feature_of r)) ->
  build_vector (before ++ r :: after)%list !! f_name (feature_of r)
  = Some (parse_value (value (value_of r))).
Proof.
  intros Hafter. rewrite ResolveFacts.build_vector_fold, fold_left_app. simpl.
  apply ResolveFacts.fold_put_agree.
  - intros r' Hr' Hname. exfalso. exact (Hafter r' Hr' Hname).
  - left. rewrite ResolveFacts.put_lookup.
    destruct (decide (f_name (feature_of r) = f_name (feature_of r))); congruence.
Qed.

(** X25 for two features named [total]: the vector has the value of
    the second. *)
Lemma X25_witness :
  build_vector Cases.twins !! "total" = Some (Json.Value (Atom (PyInt 7))).
Proof.
  refine (X25_last_result_of_a_name_wins
            [(mkFeatureValue 1 1 "x" "12", Sample.v1, Sample.total)] []
            (mkFeatureValue 2 3 "x" "7", mkFeatureVersion 3 2 "v1" "active" 20 None,
             Cases.total_again) _).
  intros r' [].
Defined.

(** X26.  A vector that [get_feature_vector] returns is never empty:
    it has an entry for one feature at least, be it served from the
    cache or resolved from the tables.  No feature to serve is always
    the answer 404. *)
Theorem X26_returned_vector_is_not_empty
    (now : Z) (w w' : World) (request : FeatureVectorRequest)
    (response : FeatureVectorResponse) :
  get_feature_vector now w request = (Returned response, w') ->
  rs_features response <> ∅
  /\ rs_entity_id response = rq_entity_id request
  /\ rs_retrieved_at response = now
  /\ db w' = db w.
Proof.
  destruct (truthy_dict
              (fst (Cache.get (the_cache w) now (rq_entity_id request)
                      (rq_feature_names request) (rq_feature_version request))))
    eqn:Hhit.
  - rewrite (get_feature_vector_hit now w request Hhit). intros H.
    injection H as <- <-. simpl. repeat split.
    destruct (fst (Cache.get (the_cache w) now (rq_entity_id request)
                     (rq_feature_names request) (rq_feature_version request)))
      as [m|]; [|discriminate Hhit].
    simpl in *. apply bool_decide_eq_true_1 in Hhit. exact Hhit.
  - rewrite (get_feature_vector_miss now w request Hhit). cbv zeta. unfold resolved.
    destruct (results_of (db w) request) as [|r rs]; [discriminate|].
    intros H. injection H as <- <-. simpl. repeat split.
    apply build_vector_not_empty.
Qed.

(** X26 in the scenario. *)
Lemma X26_witness :
  build_vector (latest_results Sample.served_db "x" None) <> ∅.
Proof.
  exact (proj1 (X26_returned_vector_is_not_empty
                  5 Sample.served (snd (get_feature_vector 5 Sample.served Sample.ask_x))
                  Sample.ask_x
                  (mkFeatureVectorResponse "x"
                     (build_vector (latest_results Sample.served_db "x" None)) 5)
                  eq_refl)).
Defined.

(** X27.  A vector resolved from the tables for a request that names
    features has entries for named features only, and each entry is of
    a feature of the table of features; the names that resolve to
    nothing are left out. *)
Theorem X27_resolved_vector_has_named_features_only
    (now : Z) (w w' : World) (request : FeatureVectorRequest)
    (response : FeatureVectorResponse) (names : list string) :
  rq_feature_names request = Some names ->
  names <> [] ->
  truthy_dict
    (fst (Cache.get (the_cache w) now (rq_entity_id request)
            (rq_feature_names request) (rq_feature_version request))) = false ->
  get_feature_vector now w request = (Returned response, w') ->
  forall name,
    is_Some (rs_features response !! name) ->
    In name names /\ In name (List.map f_name (features (db w))).
Proof.
  intros Hnames Hne Hmiss.
  rewrite (get_feature_vector_miss now w request Hmiss). cbv zeta. unfold resolved.
  destruct (results_of (db w) request) as [|r0 rs0] eqn:Hrs; [discriminate|].
  intros H. injection H as <- _. simpl rs_features. intros name Hsome.
  rewrite ResolveFacts.build_vector_fold in Hsome.
  apply ResolveFacts.fold_put_is_Some in Hsome as [[x Hx]|(r & Hr & <-)].
  { rewrite lookup_empty in Hx. discriminate Hx. }
  rewrite <- Hrs in Hr. apply results_of_named in Hr as [Hin Hnamed].
  split; [|apply in_map, Hin].
  rewrite Hnames in Hnamed. unfold named in Hnamed.
  destruct names as [|n names]; [congruence|]. simpl truthy_list in Hnamed.
  cbv iota in Hnamed. simpl get_default in Hnamed.
  apply existsb_exists in Hnamed as (n' & Hn' & Heq).
  apply String.eqb_eq in Heq. rewrite Heq. exact Hn'.
Qed.

(** X27 in the scenario: asked for [total] and [count], the vector of
    [x] has [total], a name of the request and of a feature. *)
Lemma X27_witness :
  In "total" ["total"; "count"]
  /\ In "total" (List.map f_name (features Sample.served_db)).
Proof.
  refine (X27_resolved_vector_has_named_features_only
            5 Sample.served
            (snd (get_feature_vector 5 Sample.served
                    (mkFeatureVectorRequest "x" (Some ["total"; "count"]) None)))
            (mkFeatureVectorRequest "x" (Some ["total"; "count"]) None)
            (mkFeatureVectorResponse "x"
               (build_vector (latest_results Sample.served_db "x" (Some ["total"; "count"])))
               5)
            ["total"; "count"] eq_refl _ eq_refl _ "total" _).
  - discriminate.
  - vm_compute. reflexivity.
  - vm_compute. eauto.
Defined.

(** X28.  A column is required of the batch, not of each record.  The
    columns of the table that is validated are the keys that one
    record at least has, the entity column apart; so a required column
    counts as missing only when no record has it (or when it is the
    entity column), and a column of 64-bit integers in which records
    lack the key is still a numeric column: the gaps are not seen. *)
Theorem X28_required_column_in_one_record_suffices
    (request : FeatureVersionCompute) (df : DataFrame) (schema : Schema) :
  to_dataframe request = inl df ->
  let entity := rq_entity_id_column request in
  (forall c,
     In c (columns df)
     <-> c <> entity /\ exists r, In r (rq_data request) /\ In c (List.map fst r))
  /\ (forall c,
        c ∈ missing_columns df schema
        <-> In c (get_default (required_columns schema) [])
            /\ (c = entity
                \/ forall r, In r (rq_data request) -> ~ In c (List.map fst r)))
  /\ (forall c,
        In c (columns df) ->
        forallb (int64_or_absent c) (rq_data request) = true ->
        exists column,
          get_column df c = Some column /\ conforms column "numeric" = true).
Proof.
  intros Hdf entity.
  assert (Hcols : forall c,
            In c (columns df)
            <-> c <> entity /\ exists r, In r (rq_data request) /\ In c (List.map fst r))
    by (intros c; apply to_dataframe_In_columns, Hdf).
  split; [exact Hcols|]. split.
  - intros c. rewrite ValidateFacts.missing_columns_spec, Hcols. split.
    + intros [Hreq Hno]. split; [exact Hreq|].
      destruct (string_dec c entity) as [He|He]; [now left | right].
      intros r Hr Hc. apply Hno. split; [exact He|]. eauto.
    + intros [Hreq Hno]. split; [exact Hreq|]. intros [Hne (r & Hr & Hc)].
      destruct Hno as [He|Hno]; [exact (Hne He) | exact (Hno r Hr Hc)].
  - intros c Hin Hall. exists (column_of (rq_data request) c).
    split; [apply get_column_to_dataframe; assumption|].
    unfold conforms. simpl. apply column_of_int64_or_absent; [exact Hall|].
    apply Hcols in Hin as [_ (r & Hr & _)]. intros Hempty. rewrite Hempty in Hr.
    destruct Hr.
Qed.

(** X28 on three records of which the second has no [amount]: the
    column is there, and numeric. *)
Lemma X28_witness :
  exists column,
    get_column
      (mkDataFrame [Atom (PyStr "x"); Atom (PyStr "y"); Atom (PyStr "z")]
         [column_of (rq_data Cases.with_a_gap) "amount"])
      "amount"
    = Some column
    /\ conforms column "numeric" = true.
Proof.
  refine (proj2 (proj2 (X28_required_column_in_one_record_suffices
                          Cases.with_a_gap _ (schema_definition Sample.transactions)
                          eq_refl))
                "amount" _ eq_refl).
  simpl. auto.
Defined.

(** X29.  Asked twice at the same time, [get_feature_vector] gives the
    same answer: what it has resolved it serves from the cache, what it
    has served from the cache it serves again, and what it has not
    found it does not find. *)
Theorem X29_asking_twice_gives_same_answer
    (now : Z) (w : World) (request : FeatureVectorRequest) :
  0 < ttl (cache (the_cache w)) ->
  fst (get_feature_vector now (snd (get_feature_vector now w request)) request)
  = fst (get_feature_vector now w request).
Proof.
  intros Httl.
  set (c := snd (Cache.get (the_cache w) now (rq_entity_id request)
                   (rq_feature_names request) (rq_feature_version request))).
  assert (Hagain : fst (Cache.get c now (rq_entity_id request)
                          (rq_feature_names request) (rq_feature_version request))
                   = fst (Cache.get (the_cache w) now (rq_entity_id request)
                            (rq_feature_names request) (rq_feature_version request))).
  { unfold c. rewrite !cache_get_fst. simpl. apply get_again. }
  destruct (truthy_dict
              (fst (Cache.get (the_cache w) now (rq_entity_id request)
                      (rq_feature_names request) (rq_feature_version request))))
    eqn:Hhit.
  - rewrite (get_feature_vector_hit now w request Hhit). simpl snd. fold c.
    rewrite get_feature_vector_hit.
    + simpl the_cache. rewrite Hagain. reflexivity.
    + simpl the_cache. rewrite Hagain. exact Hhit.
  - rewrite (get_feature_vector_miss now w request Hhit). cbv zeta. fold c.
    simpl fst. simpl snd. unfold resolved.
    destruct (results_of (db w) request) as [|r rs] eqn:Hrs.
    + rewrite get_feature_vector_miss.
      * simpl. unfold resolved. rewrite Hrs. reflexivity.
      * simpl the_cache. rewrite Hagain. exact Hhit.
    + assert (Hfound : fst (Cache.get
                              (Cache.set c now (rq_entity_id request)
                                 (build_vector (r :: rs)) (rq_feature_names request)
                                 (rq_feature_version request))
                              now (rq_entity_id request) (rq_feature_names request)
                              (rq_feature_version request))
                       = Some (build_vector (r :: rs))).
      { rewrite cache_get_fst. simpl fst. rewrite get_setitem.
        assert (Hc : ttl (cache c) = ttl (cache (the_cache w))).
        { unfold c. rewrite cache_get_fst. simpl. apply get_settings. }
        rewrite Hc. destruct (Z.ltb_spec now (now + ttl (cache (the_cache w))));
          [reflexivity | lia]. }
      rewrite get_feature_vector_hit; simpl the_cache; rewrite Hfound; simpl.
      * reflexivity.
      * apply bool_decide_eq_true_2, build_vector_not_empty.
Qed.

(** X29 in the scenario. *)
Lemma X29_witness :
  fst (get_feature_vector 5 (snd (get_feature_vector 5 Sample.served Sample.ask_x))
         Sample.ask_x)
  = fst (get_feature_vector 5 Sample.served Sample.ask_x).
Proof.
  apply X29_asking_twice_gives_same_answer. simpl. lia.
Defined.
